(** * StaticSitesClient install action: a shallow embedding and its properties

  The development follows the TypeScript sources of the action
  ([install.ts], [input-helper.ts], [main.ts], [execute.ts]).  Pure helpers
  become Rocq functions over [string]; the [async] pipeline becomes a
  computation in a small trace-and-outcome monad, where every call to an
  external collaborator (metadata fetch, cache service, download transport,
  file system, command execution) is answered by a [World] record and is
  recorded as an event.

  Strings are Rocq [string]s, that is sequences of 8-bit characters: the
  JavaScript operations used by the action are modelled on that alphabet. *)

From Stdlib Require Import ZArith Ascii String List Bool Lia DecimalString.
From stdpp Require Import base strings list gmap.

Set Default Proof Using "Type".
#[global] Set Warnings "-register-all".
#[global] Set Warnings "-automation".


(* ===================================================================== *)
(** * JavaScript string operations used by the action *)
(* ===================================================================== *)

Module JsString.

(** A string is a sequence of UTF-16 code units below 256, that is of
    characters of Latin-1; [nat_of_ascii] gives the code unit. *)

Definition is_digit (c : ascii) : bool :=
  let n := nat_of_ascii c in (48 <=? n)%nat && (n <=? 57)%nat.

(** Line terminators: the characters the regular-expression dot skips. *)
Definition is_line_terminator (c : ascii) : bool :=
  let n := nat_of_ascii c in (n =? 10)%nat || (n =? 13)%nat.

(** White space and line terminators removed by [String.prototype.trim]:
    TAB, LF, VT, FF, CR, SP and NBSP are the ones below 256. *)
Definition is_space (c : ascii) : bool :=
  let n := nat_of_ascii c in
  ((9 <=? n)%nat && (n <=? 13)%nat) || (n =? 32)%nat || (n =? 160)%nat.

(** The characters below 256 that [String.prototype.toLowerCase] changes:
    [A]-[Z] and the capital letters U+00C0-U+00DE of Latin-1, without the
    multiplication sign U+00D7. *)
Definition is_capital (c : ascii) : bool :=
  let n := nat_of_ascii c in
  ((65 <=? n)%nat && (n <=? 90)%nat) ||
  ((192 <=? n)%nat && (n <=? 222)%nat && negb (n =? 215)%nat).

(** Each of them has its small letter 32 places further. *)
Definition to_lower_char (c : ascii) : ascii :=
  if is_capital c then ascii_of_nat (nat_of_ascii c + 32) else c.

(** [toUpperCase] is applied by [core.getInput] to the name of an input;
    the names this action reads are ASCII, where it changes [a]-[z]. *)
Definition to_upper_char (c : ascii) : ascii :=
  let n := nat_of_ascii c in
  if (97 <=? n)%nat && (n <=? 122)%nat then ascii_of_nat (n - 32) else c.

Fixpoint map_chars (f : ascii -> ascii) (s : string) : string :=
  match s with
  | EmptyString => EmptyString
  | String c s' => String (f c) (map_chars f s')
  end.

Definition toLowerCase : string -> string := map_chars to_lower_char.
Definition toUpperCase : string -> string := map_chars to_upper_char.

Fixpoint trim_start (s : string) : string :=
  match s with
  | String c s' => if is_space c then trim_start s' else s
  | EmptyString => EmptyString
  end.

Fixpoint rev_string (s acc : string) : string :=
  match s with
  | EmptyString => acc
  | String c s' => rev_string s' (String c acc)
  end.

Definition trim_end (s : string) : string :=
  rev_string (trim_start (rev_string s EmptyString)) EmptyString.

Definition trim (s : string) : string := trim_end (trim_start s).

(** [s.split(sep)] for a one-character separator: never an empty array. *)
Fixpoint split (sep : ascii) (s : string) : list string :=
  match s with
  | EmptyString => [EmptyString]
  | String c s' =>
      if Ascii.eqb c sep then EmptyString :: split sep s'
      else match split sep s' with
           | seg :: segs => String c seg :: segs
           | [] => [String c EmptyString]
           end
  end.

(** [parts.join(sep)]. *)
Fixpoint join (sep : string) (parts : list string) : string :=
  match parts with
  | [] => EmptyString
  | [p] => p
  | p :: ps => p +:+ sep +:+ join sep ps
  end.

(** [s.replace(/x/g, y)] for single characters. *)
Definition replace_char (x y : ascii) : string -> string :=
  map_chars (fun c => if Ascii.eqb c x then y else c).

(** [arr.includes(s)] on an array of strings. *)
Definition includes (arr : list string) (s : string) : bool :=
  existsb (String.eqb s) arr.

Fixpoint contains_char (c : ascii) (s : string) : bool :=
  match s with
  | EmptyString => false
  | String d s' => Ascii.eqb d c || contains_char c s'
  end.

(** JavaScript truthiness of a string: only the empty string is falsy. *)
Definition or_else (s dflt : string) : string :=
  match s with EmptyString => dflt | _ => s end.

End JsString.

(* ===================================================================== *)
(** * Regular expressions: the fragment used by [getReleaseMetadata] *)
(* ===================================================================== *)

Module Regex.

Inductive regex : Type :=
| Void                      (* matches nothing *)
| Eps                       (* matches the empty string *)
| Lit (c : ascii)           (* an escaped or ordinary character *)
| Digit                     (* the class [\d] *)
| Dot                       (* [.]: any character but a line terminator *)
| Seq (r1 r2 : regex)
| Alt (r1 r2 : regex)
| Star (r : regex).

(** [r+] *)
Definition Plus (r : regex) : regex := Seq r (Star r).

Fixpoint nullable (r : regex) : bool :=
  match r with
  | Void | Lit _ | Digit | Dot => false
  | Eps | Star _ => true
  | Seq r1 r2 => nullable r1 && nullable r2
  | Alt r1 r2 => nullable r1 || nullable r2
  end.

Fixpoint deriv (c : ascii) (r : regex) : regex :=
  match r with
  | Void | Eps => Void
  | Lit d => if Ascii.eqb c d then Eps else Void
  | Digit => if JsString.is_digit c then Eps else Void
  | Dot => if JsString.is_line_terminator c then Void else Eps
  | Seq r1 r2 =>
      if nullable r1
      then Alt (Seq (deriv c r1) r2) (deriv c r2)
      else Seq (deriv c r1) r2
  | Alt r1 r2 => Alt (deriv c r1) (deriv c r2)
  | Star r1 => Seq (deriv c r1) (Star r1)
  end.

(** Does some prefix of [s] match [r]? *)
Fixpoint match_prefix (r : regex) (s : string) : bool :=
  nullable r ||
  match s with
  | EmptyString => false
  | String c s' => match_prefix (deriv c r) s'
  end.

(** [re.test(s)] for a pattern without anchors or flags: some substring of
    [s] matches. *)
Fixpoint test (r : regex) (s : string) : bool :=
  match_prefix r s ||
  match s with
  | EmptyString => false
  | String _ s' => test r s'
  end.

(** The declarative reading of a pattern. *)
Inductive matches : regex -> string -> Prop :=
| m_eps : matches Eps EmptyString
| m_lit c : matches (Lit c) (String c EmptyString)
| m_digit c : JsString.is_digit c = true -> matches Digit (String c EmptyString)
| m_dot c : JsString.is_line_terminator c = false -> matches Dot (String c EmptyString)
| m_seq r1 r2 s1 s2 : matches r1 s1 -> matches r2 s2 -> matches (Seq r1 r2) (s1 +:+ s2)
| m_alt_l r1 r2 s : matches r1 s -> matches (Alt r1 r2) s
| m_alt_r r1 r2 s : matches r2 s -> matches (Alt r1 r2) s
| m_star_nil r : matches (Star r) EmptyString
| m_star_app r s1 s2 : matches r s1 -> matches (Star r) s2 -> matches (Star r) (s1 +:+ s2).

(** [s] has a substring in the language of [r]. *)
Definition occurs (r : regex) (s : string) : Prop :=
  exists pre mid post, s = pre +:+ mid +:+ post /\ matches r mid.

End Regex.

(* ===================================================================== *)
(** * JavaScript values, exceptions and the effect monad *)
(* ===================================================================== *)

Module Js.

(** The result of [response.json()].  A number carries the text JavaScript
    prints for it, which is all the action ever does with one. *)
Inductive json : Type :=
| JNull
| JBool (b : bool)
| JNum (repr : string)
| JStr (s : string)
| JArr (items : list json)
| JObj (fields : list (string * json)).

(** A JavaScript value coming from parsed JSON; [None] is [undefined]. *)
Definition value : Type := option json.

(** Own property of an object built by [JSON.parse]: the last binding of
    a repeated key wins. *)
Fixpoint lookup_field (k : string) (fields : list (string * json)) : value :=
  match fields with
  | [] => None
  | (k', v) :: rest =>
      match lookup_field k rest with
      | Some v' => Some v'
      | None => if String.eqb k' k then Some v else None
      end
  end.

(** [v.k] / [v[k]] on a value that is neither [null] nor [undefined], for
    the keys the action reads ([buildId], [version], [files], [url] and
    ["<platform>-x64"]): none of them names a built-in property, so only
    objects can answer. *)
Definition prop (v : json) (k : string) : value :=
  match v with
  | JObj fields => lookup_field k fields
  | _ => None
  end.

(** [v === s] for a string [s]. *)
Definition strict_eq_string (v : value) (s : string) : bool :=
  match v with
  | Some (JStr s') => String.eqb s' s
  | _ => false
  end.

(** String conversion, as done by a template literal. *)
Fixpoint json_to_string (v : json) : string :=
  match v with
  | JNull => "null"
  | JBool true => "true"
  | JBool false => "false"
  | JNum repr => repr
  | JStr s => s
  | JArr items =>
      JsString.join ","
        (map (fun x => match x with JNull => EmptyString | _ => json_to_string x end) items)
  | JObj _ => "[object Object]"
  end.

Definition to_string (v : value) : string :=
  match v with
  | None => "undefined"
  | Some j => json_to_string j
  end.

(** What a [throw] carries: an instance of [Error] (with its class name and
    message) or any other value. *)
Inductive thrown : Type :=
| ErrorInstance (name message : string)
| NonError (rendering : string).

Definition TypeError (message : string) : thrown := ErrorInstance "TypeError" message.

(** The answer of an external call: a value, or a rejection.  The libraries
    the action calls ([@actions/*], [node-fetch], [fs]) reject with [Error]
    objects, so a failure is an error class name and a message. *)
Inductive result (A : Type) : Type :=
| Ok (a : A)
| Fail (name message : string).
Arguments Ok {A} a.
Arguments Fail {A} name message.

(** Observable events, in program order. *)
Inductive Event : Type :=
| Info (msg : string)
| Warning (msg : string)
| Debug (msg : string)
| SetFailed (msg : string)
| Fetch (url : string)
| ExecOutput (command : string) (args : list string)
| RestoreCache (paths : list string) (key : string)
| SaveCache (paths : list string) (key : string)
| DownloadTool (url dest : string)
| MkdirP (p : string)
| Cp (src dst : string)
| Chmod (p : string) (mode : Z)
| RmRF (p : string)
| AddPath (p : string)
| ProcessExit.

(** How a computation ends: it returns, it throws, or [process.exit()]
    ends the process (which no [catch] can intercept). *)
Inductive outcome (A : Type) : Type :=
| Returned (a : A)
| Threw (e : thrown)
| Exited.
Arguments Returned {A} a.
Arguments Threw {A} e.
Arguments Exited {A}.

Definition M (A : Type) : Type := list Event * outcome A.

Definition trace {A} (m : M A) : list Event := fst m.
Definition result_of {A} (m : M A) : outcome A := snd m.

Definition ret {A} (a : A) : M A := ([], Returned a).

Definition bind {A B} (m : M A) (f : A -> M B) : M B :=
  match m with
  | (t, Returned a) => let (t', o) := f a in (t ++ t', o)
  | (t, Threw e) => (t, Threw e)
  | (t, Exited) => (t, Exited)
  end.

#[global] Instance M_ret : MRet M := @ret.
#[global] Instance M_bind : MBind M := fun A B f m => bind m f.

Definition emit (e : Event) : M unit := ([e], Returned tt).
Definition throw {A} (e : thrown) : M A := ([], Threw e).
Definition process_exit {A} : M A := ([ProcessExit], Exited).

(** [try { m } catch (error) { h error }] *)
Definition try_catch {A} (m : M A) (h : thrown -> M A) : M A :=
  match m with
  | (t, Threw e) => let (t', o) := h e in (t ++ t', o)
  | _ => m
  end.

Definition lift {A} (r : result A) : M A :=
  match r with
  | Ok a => ret a
  | Fail name message => throw (ErrorInstance name message)
  end.

(** An awaited call to an external collaborator: the call is observed, then
    its answer is returned or thrown. *)
Definition call {A} (e : Event) (r : result A) : M A :=
  emit e ;; lift r.

(** [if (error instanceof Error) k(error.message)] *)
Definition when_error (e : thrown) (k : string -> M unit) : M unit :=
  match e with
  | ErrorInstance _ message => k message
  | NonError _ => ret tt
  end.

(** Property access that throws on [null] and [undefined]. *)
Definition get_prop (v : value) (k : string) : M value :=
  match v with
  | None =>
      throw (TypeError ("Cannot read properties of undefined (reading '" +:+ k +:+ "')"))
  | Some JNull =>
      throw (TypeError ("Cannot read properties of null (reading '" +:+ k +:+ "')"))
  | Some j => ret (prop j k)
  end.

End Js.

(* ===================================================================== *)
(** * [path.join] of Node.js, POSIX flavour *)
(* ===================================================================== *)

Module Path.

(** [normalizeString], read segment by segment: empty and ["."] segments are
    dropped, [".."] removes the segment before it, or stays when there is
    none to remove and the path is relative.  [stack] holds the segments kept
    so far, last one first. *)
Fixpoint normalize_segments (allowAboveRoot : bool) (segs stack : list string)
  : list string :=
  match segs with
  | [] => rev stack
  | seg :: rest =>
      if String.eqb seg EmptyString || String.eqb seg "." then
        normalize_segments allowAboveRoot rest stack
      else if String.eqb seg ".." then
        match stack with
        | top :: below =>
            if String.eqb top ".." then
              normalize_segments allowAboveRoot rest
                (if allowAboveRoot then ".." :: stack else stack)
            else normalize_segments allowAboveRoot rest below
        | [] =>
            normalize_segments allowAboveRoot rest
              (if allowAboveRoot then [".."] else [])
        end
      else normalize_segments allowAboveRoot rest (seg :: stack)
  end.

Definition starts_with_slash (p : string) : bool :=
  match p with
  | String c _ => Ascii.eqb c "/"
  | EmptyString => false
  end.

Fixpoint ends_with_slash (p : string) : bool :=
  match p with
  | EmptyString => false
  | String c EmptyString => Ascii.eqb c "/"
  | String _ p' => ends_with_slash p'
  end.

Definition normalize (p : string) : string :=
  match p with
  | EmptyString => "."
  | _ =>
      let isAbsolute := starts_with_slash p in
      let trailingSeparator := ends_with_slash p in
      let body :=
        JsString.join "/"
          (normalize_segments (negb isAbsolute) (JsString.split "/" p) []) in
      match body with
      | EmptyString =>
          if isAbsolute then "/" else if trailingSeparator then "./" else "."
      | _ =>
          (if isAbsolute then "/" else EmptyString) +:+ body +:+
          (if trailingSeparator then "/" else EmptyString)
      end
  end.

Definition non_empty (s : string) : bool :=
  match s with EmptyString => false | _ => true end.

(** [path.join(...args)]: empty arguments are skipped, the others are glued
    with ["/"] and the result is normalized. *)
Definition join (args : list string) : string :=
  match List.filter non_empty args with
  | [] => "."
  | parts => normalize (JsString.join "/" parts)
  end.


End Path.

(* ===================================================================== *)
(** * The external collaborators *)
(* ===================================================================== *)

Module Host.
Import Js.

(** A parsed [URL] object, as far as the action looks at it. *)
Record URL : Type := { href : string; pathname : string }.

(** The process environment and the answers of every external call of one
    run.  Each call is made at most once per run, so a function of the
    call's arguments describes any behaviour of the collaborator. *)
Record World : Type := {
  process_env : gmap string string;
  process_platform : string;
  process_arch : string;
  os_tmpdir : string;
  path_join : list string -> string;
  path_sep : ascii;
  new_URL : string -> option URL;
  uuid : string;
  fetch_json : string -> result json;
  exec_getExecOutput : string -> list string -> result string;
  cache_restoreCache : list string -> string -> result (option string);
  cache_saveCache : list string -> string -> result Z;
  toolCache_downloadTool : string -> string -> result string;
  io_mkdirP : string -> result unit;
  io_cp : string -> string -> result unit;
  fs_chmodSync : string -> Z -> result unit;
  io_rmRF : string -> result unit
}.

(** [process.env.NAME || dflt] *)
Definition env_or (w : World) (name dflt : string) : string :=
  match process_env w !! name with
  | Some v => JsString.or_else v dflt
  | None => dflt
  end.

(** [core.getInput(name, { required: false })] of [@actions/core]. *)
Definition core_getInput (w : World) (name : string) : string :=
  JsString.trim
    (env_or w ("INPUT_" +:+ JsString.toUpperCase (JsString.replace_char " " "_" name)) EmptyString).

Definition dquote : string := String (ascii_of_nat 34) EmptyString.
Definition newline : string := String (ascii_of_nat 10) EmptyString.

(** The message of the [TypeError] of [core.getBooleanInput]. *)
Definition not_a_boolean (name : string) : string :=
  "Input does not meet YAML 1.2 " +:+ dquote +:+ "Core Schema" +:+ dquote +:+
  " specification: " +:+ name +:+ newline +:+
  "Support boolean input list: `true | True | TRUE | false | False | FALSE`".

(** [core.getBooleanInput(name, { required: false })] of [@actions/core]
    (the function the comment in [input-helper.ts] links to): the input
    called [name] is read and must be one of the YAML booleans. *)
Definition core_getBooleanInput (w : World) (name : string) : M bool :=
  let val := core_getInput w name in
  if JsString.includes ["true"; "True"; "TRUE"] val then mret true
  else if JsString.includes ["false"; "False"; "FALSE"] val then mret false
  else throw (TypeError (not_a_boolean name)).

(** [core.toPlatformPath(pth)]: both kinds of slashes become [path.sep]. *)
Definition core_toPlatformPath (w : World) (pth : string) : string :=
  JsString.map_chars
    (fun c => if Ascii.eqb c "/" || Ascii.eqb c "\" then path_sep w else c) pth.

Definition number_to_string (n : Z) : string :=
  DecimalString.NilZero.string_of_int (Z.to_int n).

End Host.

(* ===================================================================== *)
(** * [input-helper.ts] *)
(* ===================================================================== *)

Module InputHelper.
Import Js Host.

Record ISourceInputs : Type := { version : string; execute : bool }.

(** The local [getBooleanInput]: the raw input is mapped to ['true'] or
    ['false'], and that text is handed to [core.getBooleanInput] in the
    position of the input name. *)
Definition getBooleanInput (w : World) (name : string) : M bool :=
  let trueValue := ["true"; "True"; "TRUE"; "1"] in
  let val :=
    if JsString.includes trueValue (core_getInput w name) then "true" else "false" in
  core_getBooleanInput w val.

Definition getInputs (w : World) : M ISourceInputs :=
  let version :=
    JsString.or_else (JsString.toLowerCase (core_getInput w "version")) "stable" in
  execute ← getBooleanInput w "execute";
  mret {| version := version; execute := execute |}.

End InputHelper.

(* ===================================================================== *)
(** * [install.ts] *)
(* ===================================================================== *)

Module InstallTs.
Import Js Host Regex.

Definition TOOL_NAME : string := "StaticSitesClient".
Definition TOOL_VERSION_ARG : list string := ["version"].
Definition TOOL_RELEASE_METADATA : string :=
  "https://swalocaldeploy.azureedge.net/downloads/versions.json".

Definition TEMP_DIRECTORY (w : World) : string :=
  env_or w "RUNNER_TEMP" (os_tmpdir w).

Record InstallResult : Type := {
  name : string;
  version : value;
  path : string;
  restoredFromCache : bool;
  downloadUrl : option string
}.

(** The pattern literal of [getReleaseMetadata], [/([\d])+.([\d])+.([\d]+)/]:
    its two dots are not escaped and it has no anchors. *)
Definition build_id_pattern : regex :=
  Seq (Plus Digit) (Seq Dot (Seq (Plus Digit) (Seq Dot (Plus Digit)))).

(** The callback of [find]:
    [(d === null || d === void 0 ? void 0 : d.field) === releaseVersion]. *)
Definition field_equals (field releaseVersion : string) (versionDefinition : json)
  : bool :=
  strict_eq_string
    (match versionDefinition with
     | JNull => None
     | _ => prop versionDefinition field
     end)
    releaseVersion.

Definition getReleaseMetadata (w : World) (releaseVersion : string) : M value :=
  emit (Info ("Fetching release metadata for version: " +:+ releaseVersion));;
  remoteVersionDefinitions ←
    call (Fetch TOOL_RELEASE_METADATA) (fetch_json w TOOL_RELEASE_METADATA);
  match remoteVersionDefinitions with
  | JArr ((_ :: _) as defs) =>
      if test build_id_pattern releaseVersion
      then mret (List.find (field_equals "buildId" releaseVersion) defs)
      else mret (List.find (field_equals "version" releaseVersion) defs)
  | _ =>
      emit (SetFailed ("Could not fetch release metadata from " +:+ TOOL_RELEASE_METADATA));;
      process_exit
  end.

Definition getToolVersion (w : World) (command : string) (args : list string)
  : M string :=
  stdout ← call (ExecOutput command args) (exec_getExecOutput w command args);
  mret (JsString.trim stdout).

Definition getLsbRelease (w : World) : M string :=
  stdout ← call (ExecOutput "lsb_release" ["-cs"])
                (exec_getExecOutput w "lsb_release" ["-cs"]);
  mret (JsString.trim stdout).

Definition getCacheKey (w : World) (version : string) : M string :=
  let cacheKey :=
    TOOL_NAME +:+ "-" +:+ version +:+ "-" +:+ process_platform w +:+ "-" +:+
    process_arch w in
  cacheKey ←
    (if String.eqb (process_platform w) "linux" then
       lsbRelease ← getLsbRelease w;
       mret (cacheKey +:+ "-" +:+ lsbRelease)
     else mret cacheKey);
  let cacheKey := cacheKey +:+ "-cache" in
  emit (Info ("Cache key: " +:+ cacheKey));;
  mret cacheKey.

(** The octal literal [0o755]. *)
Definition mode_0o755 : Z := 493.

Definition extractPackage (w : World) (downloadPath pathToInstall filename : string)
  : M unit :=
  let destinationPath := path_join w [pathToInstall; filename] in
  call (MkdirP pathToInstall) (io_mkdirP w pathToInstall);;
  call (Cp downloadPath destinationPath) (io_cp w downloadPath destinationPath);;
  call (Chmod destinationPath mode_0o755) (fs_chmodSync w destinationPath mode_0o755);;
  call (RmRF downloadPath) (io_rmRF w downloadPath);;
  emit (Info ("Extracted " +:+ filename +:+ " to " +:+ pathToInstall)).

Definition downloadTool (w : World) (url : URL) (filename : string) : M string :=
  try_catch
    (let dest := path_join w [TEMP_DIRECTORY w; uuid w; filename] in
     downloadPath ←
       call (DownloadTool (href url) dest) (toolCache_downloadTool w (href url) dest);
     emit (Info ("Downloaded from " +:+ href url +:+ " to " +:+ downloadPath));;
     mret downloadPath)
    (fun error =>
       when_error error (fun message =>
         emit (SetFailed ("Could not download " +:+ TOOL_NAME +:+ " from " +:+
                          href url +:+ ", error: " +:+ message)));;
       process_exit).

Definition trySaveToCache (w : World) (paths : list string) (key : string) : M Z :=
  try_catch
    (cacheId ← call (SaveCache paths key) (cache_saveCache w paths key);
     emit (Info (TOOL_NAME +:+ " saved to cache (cacheId: " +:+
                 number_to_string cacheId +:+ ", cacheKey: " +:+ key +:+ ")"));;
     mret cacheId)
    (fun error =>
       when_error error (fun message => emit (Warning message));;
       mret 0%Z).

Definition tryRestoreFromCache (w : World) (paths : list string) (primaryKey : string)
  : M (bool * option string) :=
  try_catch
    (cacheHitKey ← call (RestoreCache paths primaryKey)
                        (cache_restoreCache w paths primaryKey);
     match cacheHitKey with
     | Some k =>
         emit (Info (TOOL_NAME +:+ " restored from cache: " +:+ k));;
         mret (true, cacheHitKey)
     | None =>
         emit (Warning ("Cache for " +:+ TOOL_NAME +:+ " not found"));;
         mret (false, cacheHitKey)
     end)
    (fun error =>
       when_error error (fun message => emit (Warning message));;
       mret (false, None)).

(** The platform renaming of [getDownloadUrl]; [None] is the unsupported
    branch. *)
Definition map_platform (platform : string) : option string :=
  if String.eqb platform "win32" then Some "win"
  else if String.eqb platform "darwin" then Some "osx"
  else if String.eqb platform "linux" then Some "linux"
  else None.

(** [pathname.split('/').slice(1).at(-1) || ''] *)
Definition filename_of (pathname : string) : string :=
  match List.last (map Some (List.tl (JsString.split "/" pathname))) None with
  | Some segment => JsString.or_else segment EmptyString
  | None => EmptyString
  end.

Definition getDownloadUrl (w : World) (releaseMetadata : value) : M (URL * string) :=
  let arch := process_arch w in
  (if negb (String.eqb arch "x64") then
     emit (SetFailed ("Unsupported architecture: " +:+ arch));;
     process_exit
   else mret tt);;
  platform ←
    match map_platform (process_platform w) with
    | Some p => mret p
    | None =>
        emit (SetFailed ("Unsupported platform: " +:+ process_platform w));;
        process_exit
    end;
  files ← get_prop releaseMetadata "files";
  file ← get_prop files (platform +:+ "-" +:+ arch);
  url ← get_prop file "url";
  downloadUrl ←
    match new_URL w (to_string url) with
    | Some u => mret u
    | None => throw (TypeError "Invalid URL")
    end;
  mret (downloadUrl, filename_of (pathname downloadUrl)).

Definition Install (w : World) (inputs : InputHelper.ISourceInputs)
  : M InstallResult :=
  releaseMetadata ← getReleaseMetadata w (InputHelper.version inputs);
  buildId ← get_prop releaseMetadata "buildId";
  version ← get_prop releaseMetadata "version";
  let versionMarker := to_string buildId +:+ "-" +:+ to_string version in
  let pathToInstall :=
    path_join w [TEMP_DIRECTORY w; TOOL_NAME +:+ "-" +:+ versionMarker] in
  emit (Info ("Version to install: " +:+ versionMarker +:+
              " (target directory: " +:+ pathToInstall +:+ ")"));;
  cacheKey ← getCacheKey w versionMarker;
  restored ← tryRestoreFromCache w [pathToInstall] cacheKey;
  let restoredFromCache := fst restored in
  downloadUrlHref ←
    (if restoredFromCache then mret None
     else
       located ← getDownloadUrl w releaseMetadata;
       let downloadUrl := fst located in
       let filename := snd located in
       downloadPath ← downloadTool w downloadUrl filename;
       extractPackage w downloadPath pathToInstall filename;;
       trySaveToCache w [pathToInstall] cacheKey;;
       mret (Some (href downloadUrl)));
  emit (AddPath (core_toPlatformPath w pathToInstall));;
  toolVersion ← getToolVersion w TOOL_NAME TOOL_VERSION_ARG;
  emit (Debug toolVersion);;
  mret {| name := TOOL_NAME;
          version := version;
          path := pathToInstall;
          restoredFromCache := restoredFromCache;
          downloadUrl := downloadUrlHref |}.

End InstallTs.

(* ===================================================================== *)
(** * [execute.ts] and [main.ts] *)
(* ===================================================================== *)

Module MainTs.
Import Js Host.

Definition Execute (w : World) (tool : string) : M unit :=
  call (ExecOutput tool []) (exec_getExecOutput w tool []);;
  mret tt.

Definition main (w : World) : M unit :=
  try_catch
    (sourceInputs ← InputHelper.getInputs w;
     tool ← InstallTs.Install w sourceInputs;
     if InputHelper.execute sourceInputs then Execute w (InstallTs.name tool)
     else mret tt)
    (fun error => when_error error (fun message => emit (SetFailed message))).

End MainTs.

(* ===================================================================== *)
(** * Observations on runs *)
(* ===================================================================== *)

Module Observe.
Import Js Host.

(** Replacing the answer of one collaborator of a world. *)
Definition with_restoreCache
  (f : list string -> string -> result (option string)) (w : World) : World :=
  {| process_env := process_env w; process_platform := process_platform w;
     process_arch := process_arch w; os_tmpdir := os_tmpdir w;
     path_join := path_join w; path_sep := path_sep w; new_URL := new_URL w;
     uuid := uuid w; fetch_json := fetch_json w;
     exec_getExecOutput := exec_getExecOutput w;
     cache_restoreCache := f;
     cache_saveCache := cache_saveCache w;
     toolCache_downloadTool := toolCache_downloadTool w;
     io_mkdirP := io_mkdirP w; io_cp := io_cp w;
     fs_chmodSync := fs_chmodSync w; io_rmRF := io_rmRF w |}.

Definition with_saveCache
  (f : list string -> string -> result Z) (w : World) : World :=
  {| process_env := process_env w; process_platform := process_platform w;
     process_arch := process_arch w; os_tmpdir := os_tmpdir w;
     path_join := path_join w; path_sep := path_sep w; new_URL := new_URL w;
     uuid := uuid w; fetch_json := fetch_json w;
     exec_getExecOutput := exec_getExecOutput w;
     cache_restoreCache := cache_restoreCache w;
     cache_saveCache := f;
     toolCache_downloadTool := toolCache_downloadTool w;
     io_mkdirP := io_mkdirP w; io_cp := io_cp w;
     fs_chmodSync := fs_chmodSync w; io_rmRF := io_rmRF w |}.

(** What kind of observation an event is. *)
Inductive kind : Type :=
| Log | Failure | FetchCall | ExecCall | RestoreCall | SaveCall
| DownloadCall | FsCall | PathCall.

#[global] Instance kind_eq_dec : EqDecision kind.
Proof. solve_decision. Defined.

Definition kind_of (e : Event) : kind :=
  match e with
  | Info _ | Warning _ | Debug _ => Log
  | SetFailed _ | ProcessExit => Failure
  | Fetch _ => FetchCall
  | ExecOutput _ _ => ExecCall
  | RestoreCache _ _ => RestoreCall
  | SaveCache _ _ => SaveCall
  | DownloadTool _ _ => DownloadCall
  | MkdirP _ | Cp _ _ | Chmod _ _ | RmRF _ => FsCall
  | AddPath _ => PathCall
  end.

Definition has_kind (k : kind) (t : list Event) : bool :=
  existsb (fun e => bool_decide (kind_of e = k)) t.

(** Every event of [t] has one of the kinds [ks]. *)
Definition footprint (ks : list kind) (t : list Event) : bool :=
  forallb (fun e => bool_decide (kind_of e ∈ ks)) t.

(** A download call was made during the run. *)
Definition download_called (t : list Event) : bool := has_kind DownloadCall t.

(** The run without its log lines. *)
Definition effects (t : list Event) : list Event :=
  List.filter (fun e => negb (bool_decide (kind_of e = Log))) t.

(** No failure was reported and the process was not ended. *)
Definition no_failure_reported (t : list Event) : bool :=
  negb (has_kind Failure t).

(** The warning logged for a cache restore that did not hit. *)
Definition restore_warning (answer : result (option string)) : string :=
  match answer with
  | Fail _ message => message
  | _ => "Cache for " +:+ InstallTs.TOOL_NAME +:+ " not found"
  end.



(** The inputs the cache key is derived from, besides the constant tool
    name: the version marker, the platform, the architecture and, on Linux
    only, the distribution codename when its query answers. *)
Definition cache_key_inputs (w : World) (versionMarker : string)
  : string * string * string * option string :=
  (versionMarker, process_platform w, process_arch w,
   if String.eqb (process_platform w) "linux" then
     match exec_getExecOutput w "lsb_release" ["-cs"] with
     | Ok stdout => Some (JsString.trim stdout)
     | Fail _ _ => None
     end
   else None).

End Observe.

(* ===================================================================== *)
(** * [Install], stage by stage *)
(* ===================================================================== *)

(** The body of [Install] cut at the cache restore, for reasoning about the
    two halves separately; [Install_stages] below shows that gluing the
    pieces gives [Install] back. *)
Module Stages.
Import Js Host InstallTs.

(** What the first half hands over to the second. *)
Record Resolved : Type := {
  r_metadata : value;
  r_version : value;
  r_pathToInstall : string;
  r_cacheKey : string
}.

(** Release resolution, install path and cache key. *)
Definition resolve_stage (w : World) (inputs : InputHelper.ISourceInputs)
  : M Resolved :=
  releaseMetadata ← getReleaseMetadata w (InputHelper.version inputs);
  buildId ← get_prop releaseMetadata "buildId";
  version ← get_prop releaseMetadata "version";
  let versionMarker := to_string buildId +:+ "-" +:+ to_string version in
  let pathToInstall :=
    path_join w [TEMP_DIRECTORY w; TOOL_NAME +:+ "-" +:+ versionMarker] in
  emit (Info ("Version to install: " +:+ versionMarker +:+
              " (target directory: " +:+ pathToInstall +:+ ")"));;
  cacheKey ← getCacheKey w versionMarker;
  mret {| r_metadata := releaseMetadata; r_version := version;
          r_pathToInstall := pathToInstall; r_cacheKey := cacheKey |}.

(** The branch taken when nothing was restored. *)
Definition fresh_install (w : World) (r : Resolved) : M (option string) :=
  located ← getDownloadUrl w (r_metadata r);
  downloadPath ← downloadTool w (fst located) (snd located);
  extractPackage w downloadPath (r_pathToInstall r) (snd located);;
  trySaveToCache w [r_pathToInstall r] (r_cacheKey r);;
  mret (Some (href (fst located))).

(** Search path registration, diagnostic version query and the result. *)
Definition conclude (w : World) (r : Resolved) (restored : bool)
  (downloadUrlHref : option string) : M InstallResult :=
  emit (AddPath (core_toPlatformPath w (r_pathToInstall r)));;
  toolVersion ← getToolVersion w TOOL_NAME TOOL_VERSION_ARG;
  emit (Debug toolVersion);;
  mret {| name := TOOL_NAME;
          version := r_version r;
          path := r_pathToInstall r;
          restoredFromCache := restored;
          downloadUrl := downloadUrlHref |}.

Definition install_stage (w : World) (r : Resolved) : M InstallResult :=
  restored ← tryRestoreFromCache w [r_pathToInstall r] (r_cacheKey r);
  downloadUrlHref ←
    (if fst restored then mret None else fresh_install w r);
  conclude w r (fst restored) downloadUrlHref.

(** Two runs that end the same way and differ in their log lines only. *)
Definition similar {A} (m1 m2 : M A) : Prop :=
  result_of m1 = result_of m2 /\
  Observe.effects (trace m1) = Observe.effects (trace m2).

End Stages.

(* ===================================================================== *)
(** * The specification's wording, for comparison with the code *)
(* ===================================================================== *)

Module Spec.
Import Regex.

(** "numeric dotted triple", [\d+\.\d+\.\d+]. *)
Definition dotted_triple : regex :=
  Seq (Plus Digit) (Seq (Lit ".") (Seq (Plus Digit) (Seq (Lit ".") (Plus Digit)))).

(** The truthy literals of the "execute" input. *)
Definition truthy (raw : string) : bool :=
  JsString.includes ["true"; "True"; "TRUE"; "1"] raw.

End Spec.

Module CacheKeySpec.

(** "Base key [{toolName}-{versionMarker}-{os}-{arch}]; on Linux only,
    append [-{distributionCodename}]; suffix [-cache] is always appended." *)
Definition cache_key (toolName versionMarker os arch : string)
  (codename : option string) : string :=
  let base := toolName +:+ "-" +:+ versionMarker +:+ "-" +:+ os +:+ "-" +:+ arch in
  match codename with
  | Some c => (base +:+ "-" +:+ c) +:+ "-cache"
  | None => base +:+ "-cache"
  end.

(** Two input tuples (version marker, platform, architecture, codename)
    that differ in exactly one component. *)
Definition differ_in_one (x y : string * string * string * option string) : Prop :=
  let '(v1, os1, a1, c1) := x in
  let '(v2, os2, a2, c2) := y in
  (v1 <> v2 /\ os1 = os2 /\ a1 = a2 /\ c1 = c2) \/
  (v1 = v2 /\ os1 <> os2 /\ a1 = a2 /\ c1 = c2) \/
  (v1 = v2 /\ os1 = os2 /\ a1 <> a2 /\ c1 = c2) \/
  (v1 = v2 /\ os1 = os2 /\ a1 = a2 /\ c1 <> c2).

End CacheKeySpec.

Module PathNormalForm.






End PathNormalForm.

(* ===================================================================== *)
(** * Sample runs *)
(* ===================================================================== *)

Module Examples.
Import Js Host.

Definition release (buildId version url : string) : json :=
  JObj [("buildId", JStr buildId); ("version", JStr version);
        ("files", JObj [("linux-x64", JObj [("url", JStr url)])])].

Definition stable_url : string := "https://example.test/downloads/1.0.0/linux/StaticSitesClient".
Definition folder_url : string := "https://example.test/downloads/0.9.0/".

(** A metadata document with two releases. *)
Definition versions_json : json :=
  JArr [release "1.0.0" "stable" stable_url; release "0.9.0" "12345" folder_url].

Definition parse_url (s : string) : option URL :=
  if String.eqb s stable_url then
    Some {| href := s; pathname := "/downloads/1.0.0/linux/StaticSitesClient" |}
  else if String.eqb s folder_url then
    Some {| href := s; pathname := "/downloads/0.9.0/" |}
  else None.

(** A Linux runner; the architecture and the answers of the cache service
    and of the installed tool vary. *)
Definition runner (arch : string) (restore : result (option string))
  (save : result Z) (toolVersion : result string) : World :=
  {| process_env := {[ "RUNNER_TEMP" := "/home/runner/work/_temp";
                       "INPUT_EXECUTE" := "true" ]};
     process_platform := "linux";
     process_arch := arch;
     os_tmpdir := "/tmp";
     path_join := Path.join;
     path_sep := "/";
     new_URL := parse_url;
     uuid := "0b0e7a52-6f0c-4c0e-9d55-0d3b6a1c2f11";
     fetch_json := fun _ => Ok versions_json;
     exec_getExecOutput := fun command _ =>
       if String.eqb command "lsb_release" then Ok "jammy" else toolVersion;
     cache_restoreCache := fun _ _ => restore;
     cache_saveCache := fun _ _ => save;
     toolCache_downloadTool := fun _ dest => Ok dest;
     io_mkdirP := fun _ => Ok tt;
     io_cp := fun _ _ => Ok tt;
     fs_chmodSync := fun _ _ => Ok tt;
     io_rmRF := fun _ => Ok tt |}.

Definition inputs_for (version : string) : InputHelper.ISourceInputs :=
  {| InputHelper.version := version; InputHelper.execute := false |}.

End Examples.

(* ===================================================================== *)
(** * Further observations on runs *)
(* ===================================================================== *)

Module Probes.
Import Js Host.

(** Some character of [s] is a capital letter. *)
Fixpoint has_upper (s : string) : bool :=
  match s with
  | EmptyString => false
  | String c s' => JsString.is_capital c || has_upper s'
  end.

(** A call of the command execution facility without arguments. *)
Definition is_bare_exec (e : Event) : bool :=
  match e with
  | ExecOutput _ [] => true
  | _ => false
  end.

(** The answer of the world to a file operation. *)
Definition fs_answer (w : World) (e : Event) : option (result unit) :=
  match e with
  | MkdirP p => Some (io_mkdirP w p)
  | Cp src dst => Some (io_cp w src dst)
  | Chmod p mode => Some (fs_chmodSync w p mode)
  | RmRF p => Some (io_rmRF w p)
  | _ => None
  end.

(** The place of an effect in the program text of [main] and [Install];
    log lines have no place. *)
Definition program_point (e : Event) : nat :=
  match e with
  | Info _ | Warning _ | Debug _ => 0
  | Fetch _ => 1
  | ExecOutput command args =>
      if String.eqb command "lsb_release" then 2
      else match args with [] => 13 | _ => 12 end
  | RestoreCache _ _ => 3
  | DownloadTool _ _ => 4
  | MkdirP _ => 5
  | Cp _ _ => 6
  | Chmod _ _ => 7
  | RmRF _ => 8
  | SaveCache _ _ => 9
  | AddPath _ => 11
  | SetFailed _ => 14
  | ProcessExit => 15
  end.

(** The program points of [t] increase strictly and lie between [lo] and
    [hi]. *)
Fixpoint ascending (lo hi : nat) (t : list Event) : bool :=
  match t with
  | [] => true
  | e :: t' =>
      (lo <=? program_point e)%nat && (program_point e <=? hi)%nat &&
      ascending (S (program_point e)) hi t'
  end.

(** The last program point a computation that ended with [o] can have
    reached: a computation that threw has reported no failure yet. *)
Definition point_bound {A} (o : outcome A) (hi : nat) : nat :=
  match o with
  | Returned _ => hi
  | Threw _ => 13
  | Exited => 15
  end.

(** The effects of [m] are in program order, from point [lo] on, and stay
    below [hi] when [m] returns. *)
Definition staged {A} (lo hi : nat) (m : M A) : Prop :=
  ascending lo (point_bound (result_of m) hi) (Observe.effects (trace m)) = true.

End Probes.

(* ===================================================================== *)
(** * Further sample worlds *)
(* ===================================================================== *)

Module Worlds.
Import Js Host.

(** A runner like [Examples.runner] whose workflow also defines inputs
    called "true" and "false" holding their own names. *)
Definition runner_with_inputs (version execute : string) : World :=
  let w := Examples.runner "x64" (Ok None) (Ok 42%Z) (Ok "1.0.0") in
  {| process_env := {[ "RUNNER_TEMP" := "/home/runner/work/_temp";
                       "INPUT_VERSION" := version;
                       "INPUT_EXECUTE" := execute;
                       "INPUT_TRUE" := "true";
                       "INPUT_FALSE" := "false" ]};
     process_platform := process_platform w;
     process_arch := process_arch w;
     os_tmpdir := os_tmpdir w;
     path_join := path_join w;
     path_sep := path_sep w;
     new_URL := new_URL w;
     uuid := uuid w;
     fetch_json := fetch_json w;
     exec_getExecOutput := exec_getExecOutput w;
     cache_restoreCache := cache_restoreCache w;
     cache_saveCache := cache_saveCache w;
     toolCache_downloadTool := toolCache_downloadTool w;
     io_mkdirP := io_mkdirP w;
     io_cp := io_cp w;
     fs_chmodSync := fs_chmodSync w;
     io_rmRF := io_rmRF w |}.

(** A world whose download transport answers with [f]. *)
Definition with_downloadTool (f : string -> string -> result string) (w : World)
  : World :=
  {| process_env := process_env w; process_platform := process_platform w;
     process_arch := process_arch w; os_tmpdir := os_tmpdir w;
     path_join := path_join w; path_sep := path_sep w; new_URL := new_URL w;
     uuid := uuid w; fetch_json := fetch_json w;
     exec_getExecOutput := exec_getExecOutput w;
     cache_restoreCache := cache_restoreCache w;
     cache_saveCache := cache_saveCache w;
     toolCache_downloadTool := f;
     io_mkdirP := io_mkdirP w; io_cp := io_cp w;
     fs_chmodSync := fs_chmodSync w; io_rmRF := io_rmRF w |}.

(** A world on another platform, with other answers of the metadata
    endpoint and of command execution. *)
Definition with_host (platform : string) (doc : result json)
  (exec : string -> list string -> result string) (w : World) : World :=
  {| process_env := process_env w; process_platform := platform;
     process_arch := process_arch w; os_tmpdir := os_tmpdir w;
     path_join := path_join w; path_sep := path_sep w; new_URL := new_URL w;
     uuid := uuid w; fetch_json := fun _ => doc;
     exec_getExecOutput := exec;
     cache_restoreCache := cache_restoreCache w;
     cache_saveCache := cache_saveCache w;
     toolCache_downloadTool := toolCache_downloadTool w;
     io_mkdirP := io_mkdirP w; io_cp := io_cp w;
     fs_chmodSync := fs_chmodSync w; io_rmRF := io_rmRF w |}.

(** A world whose copy operation answers with [f]. *)
Definition with_cp (f : string -> string -> result unit) (w : World) : World :=
  {| process_env := process_env w; process_platform := process_platform w;
     process_arch := process_arch w; os_tmpdir := os_tmpdir w;
     path_join := path_join w; path_sep := path_sep w; new_URL := new_URL w;
     uuid := uuid w; fetch_json := fetch_json w;
     exec_getExecOutput := exec_getExecOutput w;
     cache_restoreCache := cache_restoreCache w;
     cache_saveCache := cache_saveCache w;
     toolCache_downloadTool := toolCache_downloadTool w;
     io_mkdirP := io_mkdirP w; io_cp := f;
     fs_chmodSync := fs_chmodSync w; io_rmRF := io_rmRF w |}.

End Worlds.

(* ===================================================================== *)
(** * Facts about strings *)
(* ===================================================================== *)

Module StringFacts.

Lemma app_nil_l (s : string) : EmptyString +:+ s = s.
Proof. reflexivity. Qed.

Lemma app_cons (c : ascii) (s t : string) : String c s +:+ t = String c (s +:+ t).
Proof. reflexivity. Qed.

Ltac sapp := rewrite ?app_cons, ?app_nil_l in *.

Lemma app_nil_r (s : string) : s +:+ EmptyString = s.
Proof. induction s as [|c s IH]; sapp; [reflexivity | now rewrite IH]. Qed.

Lemma app_assoc (s1 s2 s3 : string) : (s1 +:+ s2) +:+ s3 = s1 +:+ (s2 +:+ s3).
Proof. induction s1 as [|c s1 IH]; sapp; [reflexivity | now rewrite IH]. Qed.

Lemma app_eq_nil (s1 s2 : string) :
  s1 +:+ s2 = EmptyString -> s1 = EmptyString /\ s2 = EmptyString.
Proof. destruct s1; sapp; [tauto | discriminate]. Qed.

Lemma length_app (s1 s2 : string) :
  String.length (s1 +:+ s2) = (String.length s1 + String.length s2)%nat.
Proof. induction s1 as [|c s1 IH]; sapp; simpl; [reflexivity | now rewrite IH]. Qed.

(** Cancellation of a common suffix. *)
Lemma app_inv_tail (t s1 s2 : string) : s1 +:+ t = s2 +:+ t -> s1 = s2.
Proof.
  revert s2; induction s1 as [|c s1 IH]; intros [|d s2] H; sapp.
  - reflexivity.
  - apply (f_equal String.length) in H; simpl in H.
    rewrite length_app in H; lia.
  - apply (f_equal String.length) in H; simpl in H.
    rewrite length_app in H; lia.
  - injection H as -> H. f_equal. now apply IH.
Qed.

(** Cancellation of a common prefix. *)
Lemma app_inv_head (t s1 s2 : string) : t +:+ s1 = t +:+ s2 -> s1 = s2.
Proof. induction t as [|c t IH]; sapp; [tauto | intros [= H]; auto]. Qed.

End StringFacts.

(* ===================================================================== *)
(** * The matcher agrees with the declarative reading of patterns *)
(* ===================================================================== *)

Module RegexFacts.
Import Regex StringFacts.

Lemma matches_nil_nullable (r : regex) (s : string) :
  matches r s -> s = EmptyString -> nullable r = true.
Proof.
  induction 1 as [| | | |r1 r2 s1 s2 _ IH1 _ IH2| | | |]; intros E; simpl;
    try discriminate; try reflexivity.
  - apply app_eq_nil in E as [-> ->]. now rewrite IH1, IH2.
  - rewrite IHmatches by assumption. reflexivity.
  - rewrite IHmatches by assumption. apply orb_true_r.
Qed.

Lemma nullable_matches_nil (r : regex) :
  nullable r = true -> matches r EmptyString.
Proof.
  induction r; simpl; intros H; try discriminate.
  - constructor.
  - apply andb_true_iff in H as [H1 H2].
    change EmptyString with (EmptyString +:+ EmptyString). constructor; auto.
  - apply orb_true_iff in H as [H|H]; [apply m_alt_l | apply m_alt_r]; auto.
  - constructor.
Qed.

Lemma nullable_spec (r : regex) : nullable r = true <-> matches r EmptyString.
Proof.
  split; [apply nullable_matches_nil |].
  intros H. now apply (matches_nil_nullable r EmptyString).
Qed.

Lemma deriv_sound (c : ascii) (r : regex) :
  forall s, matches (deriv c r) s -> matches r (String c s).
Proof.
  induction r as [| |d| | |r1 IH1 r2 IH2|r1 IH1 r2 IH2|r1 IH1]; simpl; intros s H.
  - inversion H.
  - inversion H.
  - destruct (Ascii.eqb_spec c d) as [->|]; inversion H; subst. constructor.
  - destruct (JsString.is_digit c) eqn:E; inversion H; subst. now constructor.
  - destruct (JsString.is_line_terminator c) eqn:E; inversion H; subst. now constructor.
  - destruct (nullable r1) eqn:N.
    + inversion H as [| | | | | ? ? ? H'| ? ? ? H'| |]; subst.
      * inversion H'; subst. rewrite <- app_cons. constructor; auto.
      * change (String c s) with (EmptyString +:+ String c s).
        constructor; [now apply nullable_matches_nil | auto].
    + inversion H; subst. rewrite <- app_cons. constructor; auto.
  - inversion H; subst; [apply m_alt_l | apply m_alt_r]; auto.
  - inversion H; subst. rewrite <- app_cons. constructor; auto.
Qed.

Lemma deriv_complete_aux (r : regex) (s' : string) :
  matches r s' -> forall c s, s' = String c s -> matches (deriv c r) s.
Proof.
  induction 1 as [|d|d Hd|d Hd|r1 r2 s1 s2 H1 IH1 H2 IH2|r1 r2 s0 H0 IH0
                 |r1 r2 s0 H0 IH0|r1|r1 s1 s2 H1 IH1 H2 IH2];
    intros c s E; simpl.
  - discriminate.
  - injection E as <- <-. rewrite Ascii.eqb_refl. constructor.
  - injection E as <- <-. rewrite Hd. constructor.
  - injection E as <- <-. rewrite Hd. constructor.
  - destruct s1 as [|c1 s1]; sapp.
    + rewrite (matches_nil_nullable r1 EmptyString H1 eq_refl).
      apply m_alt_r. now apply IH2.
    + injection E as -> <-.
      assert (matches (Seq (deriv c r1) r2) (s1 +:+ s2)) as H
        by (constructor; [now apply IH1 | assumption]).
      destruct (nullable r1); [now apply m_alt_l | assumption].
  - apply m_alt_l. now apply IH0.
  - apply m_alt_r. now apply IH0.
  - discriminate.
  - destruct s1 as [|c1 s1]; sapp.
    + now apply IH2.
    + injection E as -> <-. constructor; [now apply IH1 | assumption].
Qed.

Lemma deriv_spec (c : ascii) (r : regex) (s : string) :
  matches (deriv c r) s <-> matches r (String c s).
Proof.
  split; [apply deriv_sound |].
  intros H. now apply (deriv_complete_aux r (String c s)).
Qed.

Lemma match_prefix_spec (s : string) :
  forall r, match_prefix r s = true <->
            exists p q, s = p +:+ q /\ matches r p.
Proof.
  induction s as [|c s IH]; intros r; simpl.
  - rewrite orb_false_r, nullable_spec. split.
    + intros H. now exists EmptyString, EmptyString.
    + intros (p & q & E & H). symmetry in E.
      apply app_eq_nil in E as [-> _]. assumption.
  - rewrite orb_true_iff, nullable_spec, IH. split.
    + intros [H|(p & q & -> & H)].
      * now exists EmptyString, (String c s).
      * exists (String c p), q. split; [reflexivity | now apply deriv_spec].
    + intros ([|d p] & q & E & H); [now left | right].
      sapp. injection E as <- ->.
      exists p, q. split; [reflexivity | now apply deriv_spec].
Qed.

(** [test] answers whether a substring is in the language of the pattern. *)
Lemma test_spec (r : regex) (s : string) : test r s = true <-> occurs r s.
Proof.
  induction s as [|c s IH]; cbn [test].
  - rewrite orb_false_r, match_prefix_spec. split.
    + intros (p & q & E & H). now exists EmptyString, p, q.
    + intros (pre & mid & post & E & H). symmetry in E.
      apply app_eq_nil in E as [-> E]. sapp.
      now exists mid, post.
  - rewrite orb_true_iff, match_prefix_spec, IH. split.
    + intros [(p & q & E & H)|(pre & mid & post & -> & H)].
      * now exists EmptyString, p, q.
      * now exists (String c pre), mid, post.
    + intros ([|d pre] & mid & post & E & H).
      * left. now exists mid, post.
      * right. sapp. injection E as <- ->. now exists pre, mid, post.
Qed.

Lemma seq_mono (r1 r1' r2 r2' : regex) :
  (forall s, matches r1 s -> matches r1' s) ->
  (forall s, matches r2 s -> matches r2' s) ->
  forall s, matches (Seq r1 r2) s -> matches (Seq r1' r2') s.
Proof. intros M1 M2 s H. inversion H; subst. constructor; auto. Qed.

Lemma lit_dot (c : ascii) (s : string) :
  JsString.is_line_terminator c = false -> matches (Lit c) s -> matches Dot s.
Proof. intros Hc H. inversion H; subst. now constructor. Qed.

(** Every dotted triple is in the language of the pattern of the code. *)
Lemma dotted_triple_included (s : string) :
  matches Spec.dotted_triple s -> matches InstallTs.build_id_pattern s.
Proof.
  unfold Spec.dotted_triple, InstallTs.build_id_pattern.
  assert (forall t, matches (Lit ".") t -> matches Dot t) as D
    by (intros t; apply lit_dot; reflexivity).
  revert s. repeat (apply seq_mono; auto).
Qed.

Lemma dotted_triple_test (s : string) :
  test Spec.dotted_triple s = true -> test InstallTs.build_id_pattern s = true.
Proof.
  rewrite !test_spec. intros (pre & mid & post & E & H).
  exists pre, mid, post. split; [assumption | now apply dotted_triple_included].
Qed.

End RegexFacts.

(* ===================================================================== *)
(** * Facts about [split] and [join] *)
(* ===================================================================== *)

Module SplitFacts.
Import JsString StringFacts.

Lemma split_nonempty (sep : ascii) (s : string) : split sep s <> [].
Proof.
  induction s as [|c s IH]; cbn; [discriminate|].
  destruct (Ascii.eqb c sep); [discriminate|].
  destruct (split sep s); [contradiction | discriminate].
Qed.

Lemma split_cons_other (sep c : ascii) (s : string) :
  Ascii.eqb c sep = false ->
  exists seg segs, split sep s = seg :: segs /\
                   split sep (String c s) = String c seg :: segs.
Proof.
  intros H. cbn. rewrite H.
  destruct (split sep s) as [|seg segs] eqn:E; [now apply split_nonempty in E|].
  now exists seg, segs.
Qed.



Lemma split_segments (sep : ascii) (s : string) :
  Forall (fun seg => contains_char sep seg = false) (split sep s).
Proof.
  induction s as [|c s IH]; cbn; [repeat constructor|].
  destruct (Ascii.eqb c sep) eqn:E; [constructor; [reflexivity | assumption]|].
  destruct (split sep s) as [|seg segs]; [repeat constructor; cbn; now rewrite E|].
  inversion IH; subst. constructor; [cbn; now rewrite E | assumption].
Qed.

Lemma join_cons (sep p : string) (ps : list string) :
  ps <> [] -> join sep (p :: ps) = p +:+ sep +:+ join sep ps.
Proof. destruct ps; [contradiction | reflexivity]. Qed.


(** [join] undoes [split]. *)
Lemma join_split (sep : ascii) (s : string) :
  join (String sep EmptyString) (split sep s) = s.
Proof.
  induction s as [|c s IH]; [reflexivity|]. cbn [split].
  destruct (Ascii.eqb_spec c sep) as [->|Hc].
  - rewrite join_cons by apply split_nonempty. sapp. now rewrite IH.
  - destruct (split sep s) as [|seg segs] eqn:E; [now apply split_nonempty in E|].
    rewrite <- IH. destruct segs; [reflexivity|].
    rewrite !join_cons by discriminate. now sapp.
Qed.

Lemma join_snoc (sep f : string) (init : list string) :
  init <> [] -> join sep (init ++ [f]) = join sep init +:+ sep +:+ f.
Proof.
  induction init as [|p ps IH]; [contradiction|]. intros _.
  destruct ps as [|q ps]; [reflexivity|].
  cbn [app] in IH |- *.
  rewrite (join_cons sep p (q :: ps ++ [f])), (join_cons sep p (q :: ps)) by discriminate.
  rewrite IH by discriminate. now rewrite !app_assoc.
Qed.

End SplitFacts.

(* ===================================================================== *)
(** * Facts about [path.join] *)
(* ===================================================================== *)

Module PathFacts.
Import JsString StringFacts SplitFacts Path PathNormalForm.

































End PathFacts.

(* ===================================================================== *)
(** * Facts about the file name taken from a URL *)
(* ===================================================================== *)

Module FilenameFacts.
Import InstallTs StringFacts SplitFacts.

Lemma last_map_Some (l : list string) :
  List.last (map Some l) None =
  match l with [] => None | _ => Some (List.last l EmptyString) end.
Proof.
  induction l as [|x l IH]; [reflexivity|].
  destruct l as [|y l]; [reflexivity|].
  change (List.last (map Some (x :: y :: l)) None) with (List.last (map Some (y :: l)) None).
  rewrite IH. reflexivity.
Qed.

(** The file name is the last of the segments after the first one. *)
Lemma filename_of_last (pathname : string) :
  filename_of pathname =
  List.last (List.tl (JsString.split "/" pathname)) EmptyString.
Proof.
  unfold filename_of. rewrite last_map_Some.
  destruct (List.tl _) as [|x l]; [reflexivity|].
  now destruct (List.last (x :: l) EmptyString).
Qed.


Lemma filename_of_hierarchical (pathname : string) :
  Path.starts_with_slash pathname = true ->
  exists dir, pathname = dir +:+ "/" +:+ filename_of pathname /\
              JsString.contains_char "/" (filename_of pathname) = false.
Proof.
  destruct pathname as [|c p]; [discriminate|]. cbn [Path.starts_with_slash].
  intros Hc. apply Ascii.eqb_eq in Hc as ->.
  rewrite filename_of_last. cbn [JsString.split].
  change (Ascii.eqb "/" "/") with true. cbv iota. cbn [List.tl].
  pose proof (join_split "/" p) as Hjoin.
  pose proof (split_segments "/" p) as Hseg.
  destruct (exists_last (split_nonempty "/" p)) as (init & f & E).
  rewrite E in Hjoin, Hseg |- *. rewrite last_last.
  apply Forall_app in Hseg as [_ Hf]. apply Forall_inv in Hf as Hf'.
  split with (x := match init with
                   | [] => EmptyString
                   | _ => "/" +:+ JsString.join "/" init
                   end).
  split; [|exact Hf'].
  destruct init as [|x init].
  - cbn in Hjoin. now rewrite <- Hjoin.
  - rewrite join_snoc in Hjoin by discriminate.
    rewrite <- Hjoin at 1. now rewrite !app_assoc.
Qed.




End FilenameFacts.

(* ===================================================================== *)
(** * Facts about the effect monad *)
(* ===================================================================== *)

Module MonadFacts.
Import Js Observe Stages.

Lemma bind_unfold {A B} (m : M A) (f : A -> M B) :
  m ≫= f =
  match result_of m with
  | Returned a => (trace m ++ trace (f a), result_of (f a))
  | Threw e => (trace m, Threw e)
  | Exited => (trace m, Exited)
  end.
Proof.
  destruct m as [t [a|e|]]; cbn; try reflexivity.
  destruct (f a); reflexivity.
Qed.

Lemma bind_returned {A B} (m : M A) (f : A -> M B) (a : A) :
  result_of m = Returned a ->
  m ≫= f = (trace m ++ trace (f a), result_of (f a)).
Proof. intros H. now rewrite bind_unfold, H. Qed.

Lemma bind_threw {A B} (m : M A) (f : A -> M B) (e : thrown) :
  result_of m = Threw e -> m ≫= f = (trace m, Threw e).
Proof. intros H. now rewrite bind_unfold, H. Qed.

Lemma bind_exited {A B} (m : M A) (f : A -> M B) :
  result_of m = Exited -> m ≫= f = (trace m, Exited).
Proof. intros H. now rewrite bind_unfold, H. Qed.

Lemma bind_assoc {A B C} (m : M A) (f : A -> M B) (g : B -> M C) :
  (m ≫= f) ≫= g = m ≫= (fun a => f a ≫= g).
Proof.
  destruct m as [t [a|e|]]; cbn; try reflexivity.
  destruct (f a) as [t1 [b|e|]]; cbn; try reflexivity.
  destruct (g b) as [t2 o]. now rewrite app_assoc.
Qed.

Lemma bind_ret_l {A B} (a : A) (f : A -> M B) : mret a ≫= f = f a.
Proof. cbn. now destruct (f a). Qed.

(** Inverting a bind that returned. *)
Lemma bind_returned_inv {A B} (m : M A) (f : A -> M B) (b : B) :
  result_of (m ≫= f) = Returned b ->
  exists a, result_of m = Returned a /\ result_of (f a) = Returned b /\
            trace (m ≫= f) = trace m ++ trace (f a).
Proof.
  rewrite bind_unfold. destruct (result_of m) as [a|e|]; cbn; try discriminate.
  intros H. now exists a.
Qed.

Lemma has_kind_app (k : kind) (t1 t2 : list Event) :
  has_kind k (t1 ++ t2) = has_kind k t1 || has_kind k t2.
Proof. apply existsb_app. Qed.

Lemma footprint_app (ks : list kind) (t1 t2 : list Event) :
  footprint ks (t1 ++ t2) = footprint ks t1 && footprint ks t2.
Proof. apply forallb_app. Qed.

Lemma footprint_bind {A B} (ks : list kind) (m : M A) (f : A -> M B) :
  footprint ks (trace m) = true ->
  (forall a, result_of m = Returned a -> footprint ks (trace (f a)) = true) ->
  footprint ks (trace (m ≫= f)) = true.
Proof.
  intros Hm Hf. rewrite bind_unfold.
  destruct (result_of m) as [a|e|] eqn:E; cbn [trace fst]; try assumption.
  rewrite footprint_app, Hm. now apply Hf.
Qed.

Lemma footprint_event (ks : list kind) (t : list Event) (e : Event) :
  footprint ks t = true -> In e t -> kind_of e ∈ ks.
Proof.
  unfold footprint. rewrite forallb_forall. intros H Hin.
  eapply bool_decide_eq_true_1. now apply H.
Qed.

(** A kind outside the footprint does not occur. *)
Lemma footprint_has_kind (ks : list kind) (k : kind) (t : list Event) :
  footprint ks t = true -> k ∉ ks -> has_kind k t = false.
Proof.
  intros H Hk. unfold has_kind.
  destruct (existsb _ t) eqn:E; [|reflexivity].
  apply existsb_exists in E as (e & Hin & He).
  apply bool_decide_eq_true_1 in He. subst k.
  exfalso. apply Hk. eapply footprint_event; eauto.
Qed.

Lemma has_kind_in (k : kind) (t : list Event) (e : Event) :
  In e t -> kind_of e = k -> has_kind k t = true.
Proof.
  intros Hin Hk. apply existsb_exists. exists e. split; [assumption|].
  now apply bool_decide_eq_true_2.
Qed.

Lemma effects_app (t1 t2 : list Event) :
  effects (t1 ++ t2) = effects t1 ++ effects t2.
Proof. apply List.filter_app. Qed.

Lemma similar_refl {A} (m : M A) : similar m m.
Proof. now split. Qed.

Lemma similar_sym {A} (m1 m2 : M A) : similar m1 m2 -> similar m2 m1.
Proof. intros [H1 H2]. now split. Qed.

Lemma similar_trans {A} (m1 m2 m3 : M A) :
  similar m1 m2 -> similar m2 m3 -> similar m1 m3.
Proof. intros [H1 H2] [H3 H4]. split; congruence. Qed.

Lemma similar_bind {A B} (m1 m2 : M A) (f1 f2 : A -> M B) :
  similar m1 m2 -> (forall a, result_of m1 = Returned a -> similar (f1 a) (f2 a)) ->
  similar (m1 ≫= f1) (m2 ≫= f2).
Proof.
  intros [Hr He] Hf. rewrite !bind_unfold, <- Hr.
  destruct (result_of m1) as [a|e|] eqn:E; unfold similar;
    cbn [trace result_of fst snd]; auto.
  destruct (Hf a eq_refl) as [Hr' He'].
  rewrite !effects_app. split; congruence.
Qed.

(** Two computations that both return, whose values are not looked at. *)
Lemma similar_bind_ignore {A B} (m1 m2 : M A) (k1 k2 : M B) (a1 a2 : A) :
  result_of m1 = Returned a1 -> result_of m2 = Returned a2 ->
  effects (trace m1) = effects (trace m2) ->
  similar k1 k2 ->
  similar (m1 ≫= fun _ => k1) (m2 ≫= fun _ => k2).
Proof.
  intros H1 H2 He [Hr Hk]. rewrite (bind_returned m1 _ a1), (bind_returned m2 _ a2) by assumption.
  unfold similar; cbn [trace result_of fst snd]. rewrite !effects_app. split; congruence.
Qed.

End MonadFacts.

(* ===================================================================== *)
(** * Facts about the functions of [install.ts], one by one *)
(* ===================================================================== *)

Module StageFacts.
Import Js Host InstallTs Observe Stages MonadFacts.

Ltac unfold_monad :=
  unfold mbind, mret, M_bind, M_ret, bind, ret, emit, call, lift, throw,
         process_exit, try_catch, when_error, get_prop in *.

Lemma bind_ext {A B} (m : M A) (f g : A -> M B) :
  (forall a, f a = g a) -> m ≫= f = m ≫= g.
Proof.
  intros H. rewrite !bind_unfold. destruct (result_of m); [|reflexivity..].
  now rewrite H.
Qed.

(** [Install] is its two halves, one after the other. *)
Lemma Install_stages (w : World) (inputs : InputHelper.ISourceInputs) :
  Install w inputs = resolve_stage w inputs ≫= install_stage w.
Proof.
  unfold Install, resolve_stage.
  rewrite bind_assoc. apply bind_ext; intros releaseMetadata.
  rewrite bind_assoc. apply bind_ext; intros buildId.
  rewrite bind_assoc. apply bind_ext; intros version.
  cbv zeta. rewrite bind_assoc. apply bind_ext; intros _.
  rewrite bind_assoc. apply bind_ext; intros cacheKey.
  rewrite bind_ret_l. reflexivity.
Qed.

Lemma get_prop_trace (v : value) (k : string) : trace (get_prop v k) = [].
Proof. destruct v as [[]|]; reflexivity. Qed.

Lemma tryRestoreFromCache_spec (w : World) (paths : list string) (key : string) :
  tryRestoreFromCache w paths key =
  match cache_restoreCache w paths key with
  | Ok (Some k) =>
      ([RestoreCache paths key;
        Info (TOOL_NAME +:+ " restored from cache: " +:+ k)],
       Returned (true, Some k))
  | Ok None =>
      ([RestoreCache paths key;
        Warning ("Cache for " +:+ TOOL_NAME +:+ " not found")],
       Returned (false, None))
  | Fail _ message =>
      ([RestoreCache paths key; Warning message], Returned (false, None))
  end.
Proof.
  unfold tryRestoreFromCache. unfold_monad.
  destruct (cache_restoreCache w paths key) as [[k|]|n msg]; reflexivity.
Qed.

Lemma trySaveToCache_spec (w : World) (paths : list string) (key : string) :
  trySaveToCache w paths key =
  match cache_saveCache w paths key with
  | Ok cacheId =>
      ([SaveCache paths key;
        Info (TOOL_NAME +:+ " saved to cache (cacheId: " +:+
              number_to_string cacheId +:+ ", cacheKey: " +:+ key +:+ ")")],
       Returned cacheId)
  | Fail _ message => ([SaveCache paths key; Warning message], Returned 0%Z)
  end.
Proof.
  unfold trySaveToCache. unfold_monad.
  destruct (cache_saveCache w paths key) as [id|n msg]; reflexivity.
Qed.

Lemma getDownloadUrl_unsupported_arch (w : World) (releaseMetadata : value) :
  process_arch w <> "x64" ->
  getDownloadUrl w releaseMetadata =
  ([SetFailed ("Unsupported architecture: " +:+ process_arch w); ProcessExit], Exited).
Proof.
  intros H. apply String.eqb_neq in H.
  unfold getDownloadUrl. rewrite H. reflexivity.
Qed.

Lemma getToolVersion_spec (w : World) (command : string) (args : list string) :
  getToolVersion w command args =
  match exec_getExecOutput w command args with
  | Ok stdout => ([ExecOutput command args], Returned (JsString.trim stdout))
  | Fail n message => ([ExecOutput command args], Threw (ErrorInstance n message))
  end.
Proof.
  unfold getToolVersion. unfold_monad.
  destruct (exec_getExecOutput w command args); reflexivity.
Qed.

Lemma getCacheKey_spec (w : World) (version : string) :
  getCacheKey w version =
  let base := TOOL_NAME +:+ "-" +:+ version +:+ "-" +:+ process_platform w +:+
              "-" +:+ process_arch w in
  if String.eqb (process_platform w) "linux" then
    match exec_getExecOutput w "lsb_release" ["-cs"] with
    | Ok stdout =>
        let key := (base +:+ "-" +:+ JsString.trim stdout) +:+ "-cache" in
        ([ExecOutput "lsb_release" ["-cs"]; Info ("Cache key: " +:+ key)],
         Returned key)
    | Fail n message =>
        ([ExecOutput "lsb_release" ["-cs"]], Threw (ErrorInstance n message))
    end
  else ([Info ("Cache key: " +:+ (base +:+ "-cache"))], Returned (base +:+ "-cache")).
Proof.
  unfold getCacheKey, getLsbRelease. unfold_monad.
  destruct (String.eqb (process_platform w) "linux"); [|reflexivity].
  destruct (exec_getExecOutput w "lsb_release" ["-cs"]); reflexivity.
Qed.

Ltac footprint_by_cases :=
  unfold_monad; repeat case_match; subst; try reflexivity; try discriminate.

Lemma getReleaseMetadata_footprint (w : World) (releaseVersion : string) :
  footprint [Log; Failure; FetchCall] (trace (getReleaseMetadata w releaseVersion)) = true.
Proof.
  unfold getReleaseMetadata. unfold_monad.
  destruct (fetch_json w TOOL_RELEASE_METADATA) as [[| | | |[|d defs]|]|]; try reflexivity.
  destruct (Regex.test _ _); reflexivity.
Qed.

Lemma getCacheKey_footprint (w : World) (version : string) :
  footprint [Log; ExecCall] (trace (getCacheKey w version)) = true.
Proof.
  rewrite getCacheKey_spec. cbv zeta.
  destruct (String.eqb _ _); [|reflexivity].
  destruct (exec_getExecOutput _ _ _); reflexivity.
Qed.

Lemma footprint_weaken (ks ks' : list kind) (t : list Event) :
  forallb (fun k => bool_decide (k ∈ ks')) ks = true ->
  footprint ks t = true -> footprint ks' t = true.
Proof.
  intros Hsub. unfold footprint. rewrite !forallb_forall. intros H e Hin.
  rewrite forallb_forall in Hsub. apply Hsub.
  apply list_elem_of_In. eapply bool_decide_eq_true_1. now apply H.
Qed.

Ltac weaken_from lem :=
  eapply footprint_weaken; cycle 1; [apply lem | reflexivity].

Lemma footprint_nil_trace {A} (ks : list kind) (m : M A) :
  trace m = [] -> footprint ks (trace m) = true.
Proof. now intros ->. Qed.

Lemma resolve_stage_footprint (w : World) (inputs : InputHelper.ISourceInputs) :
  footprint [Log; Failure; FetchCall; ExecCall] (trace (resolve_stage w inputs)) = true.
Proof.
  unfold resolve_stage.
  apply footprint_bind; [weaken_from getReleaseMetadata_footprint | intros rm _].
  apply footprint_bind; [apply footprint_nil_trace, get_prop_trace | intros bid _].
  apply footprint_bind; [apply footprint_nil_trace, get_prop_trace | intros ver _].
  cbv zeta. apply footprint_bind; [reflexivity | intros _ _].
  apply footprint_bind; [weaken_from getCacheKey_footprint | intros ck _].
  reflexivity.
Qed.

Lemma getDownloadUrl_footprint (w : World) (releaseMetadata : value) :
  footprint [Failure] (trace (getDownloadUrl w releaseMetadata)) = true.
Proof.
  unfold getDownloadUrl.
  apply footprint_bind; [destruct (negb _); reflexivity | intros _ _].
  apply footprint_bind; [destruct (map_platform _); reflexivity | intros p _].
  apply footprint_bind; [apply footprint_nil_trace, get_prop_trace | intros files _].
  apply footprint_bind; [apply footprint_nil_trace, get_prop_trace | intros file _].
  apply footprint_bind; [apply footprint_nil_trace, get_prop_trace | intros url _].
  apply footprint_bind; [destruct (new_URL _ _); reflexivity | intros u _].
  reflexivity.
Qed.

Lemma downloadTool_spec (w : World) (url : URL) (filename : string) :
  downloadTool w url filename =
  let dest := path_join w [TEMP_DIRECTORY w; uuid w; filename] in
  match toolCache_downloadTool w (href url) dest with
  | Ok downloadPath =>
      ([DownloadTool (href url) dest;
        Info ("Downloaded from " +:+ href url +:+ " to " +:+ downloadPath)],
       Returned downloadPath)
  | Fail _ message =>
      ([DownloadTool (href url) dest;
        SetFailed ("Could not download " +:+ TOOL_NAME +:+ " from " +:+
                   href url +:+ ", error: " +:+ message);
        ProcessExit], Exited)
  end.
Proof.
  unfold downloadTool. unfold_monad. cbv zeta.
  destruct (toolCache_downloadTool w _ _); reflexivity.
Qed.

Lemma extractPackage_footprint (w : World) (downloadPath pathToInstall filename : string) :
  footprint [Log; FsCall]
    (trace (extractPackage w downloadPath pathToInstall filename)) = true.
Proof.
  unfold extractPackage. cbv zeta. unfold call.
  repeat (apply footprint_bind;
          [first [reflexivity | destruct (io_mkdirP _ _) | destruct (io_cp _ _ _)
                 | destruct (fs_chmodSync _ _ _) | destruct (io_rmRF _ _)]; reflexivity
          | intros ? _]).
  reflexivity.
Qed.

Lemma conclude_footprint (w : World) (r : Resolved) (restored : bool) (u : option string) :
  footprint [Log; ExecCall; PathCall] (trace (conclude w r restored u)) = true.
Proof.
  unfold conclude. rewrite getToolVersion_spec.
  destruct (exec_getExecOutput _ _ _); reflexivity.
Qed.

Lemma getReleaseMetadata_array (w : World) (v : string) (d : json) (defs : list json) :
  fetch_json w TOOL_RELEASE_METADATA = Ok (JArr (d :: defs)) ->
  getReleaseMetadata w v =
  ([Info ("Fetching release metadata for version: " +:+ v);
    Fetch TOOL_RELEASE_METADATA],
   Returned
     (List.find
        (field_equals (if Regex.test build_id_pattern v then "buildId" else "version") v)
        (d :: defs))).
Proof.
  intros H. unfold getReleaseMetadata. unfold_monad. rewrite H.
  destruct (Regex.test build_id_pattern v); reflexivity.
Qed.

End StageFacts.

(* ===================================================================== *)
(** * Facts about the cache key *)
(* ===================================================================== *)

Module CacheKeyFacts.
Import Js Host InstallTs Observe StringFacts CacheKeySpec StageFacts.

(** The key computed by the code is the key of the specification. *)
Lemma getCacheKey_result (w : World) (versionMarker : string) :
  result_of (getCacheKey w versionMarker) =
  if String.eqb (process_platform w) "linux" then
    match exec_getExecOutput w "lsb_release" ["-cs"] with
    | Ok stdout =>
        Returned (cache_key TOOL_NAME versionMarker (process_platform w)
                    (process_arch w) (Some (JsString.trim stdout)))
    | Fail n message => Threw (ErrorInstance n message)
    end
  else Returned (cache_key TOOL_NAME versionMarker (process_platform w)
                   (process_arch w) None).
Proof.
  rewrite getCacheKey_spec. cbv zeta.
  destruct (String.eqb _ _); [|reflexivity].
  destruct (exec_getExecOutput _ _ _); reflexivity.
Qed.

Lemma getCacheKey_returned (w : World) (versionMarker k : string) :
  result_of (getCacheKey w versionMarker) = Returned k ->
  let '(v, os, arch, codename) := cache_key_inputs w versionMarker in
  k = cache_key TOOL_NAME v os arch codename /\
  (codename = None <-> os <> "linux").
Proof.
  rewrite getCacheKey_result. unfold cache_key_inputs.
  destruct (String.eqb_spec (process_platform w) "linux") as [E|E].
  - destruct (exec_getExecOutput _ _ _); [|discriminate].
    intros [= <-]. split; [reflexivity|]. split; [discriminate | congruence].
  - intros [= <-]. split; [reflexivity|]. now split.
Qed.

Lemma cache_key_flat (t v os a : string) (c : option string) :
  cache_key t v os a c =
  t +:+ "-" +:+ v +:+ "-" +:+ os +:+ "-" +:+ a +:+
  match c with Some x => "-" +:+ x +:+ "-cache" | None => "-cache" end.
Proof. unfold cache_key. destruct c; now rewrite !app_assoc. Qed.

Lemma cache_key_inj_version (t v1 v2 os a : string) (c : option string) :
  cache_key t v1 os a c = cache_key t v2 os a c -> v1 = v2.
Proof.
  rewrite !cache_key_flat. intros H.
  apply app_inv_head, app_inv_head in H. now apply app_inv_tail in H.
Qed.

Lemma cache_key_inj_os (t v os1 os2 a : string) (c : option string) :
  cache_key t v os1 a c = cache_key t v os2 a c -> os1 = os2.
Proof.
  rewrite !cache_key_flat. intros H.
  do 4 apply app_inv_head in H. now apply app_inv_tail in H.
Qed.

Lemma cache_key_inj_arch (t v os a1 a2 : string) (c : option string) :
  cache_key t v os a1 c = cache_key t v os a2 c -> a1 = a2.
Proof.
  rewrite !cache_key_flat. intros H.
  do 6 apply app_inv_head in H. now apply app_inv_tail in H.
Qed.

Lemma cache_key_inj_codename (t v os a c1 c2 : string) :
  cache_key t v os a (Some c1) = cache_key t v os a (Some c2) -> c1 = c2.
Proof.
  rewrite !cache_key_flat. intros H.
  do 8 apply app_inv_head in H. now apply app_inv_tail in H.
Qed.

End CacheKeyFacts.

(* ===================================================================== *)
(** * Facts about [input-helper.ts] *)
(* ===================================================================== *)

Module InputFacts.
Import Js Host InputHelper.

Lemma core_getInput_absent (w : World) (name : string) :
  process_env w !! ("INPUT_" +:+ JsString.toUpperCase (JsString.replace_char " " "_" name))
    = None ->
  core_getInput w name = EmptyString.
Proof. intros H. unfold core_getInput, env_or. now rewrite H. Qed.

Lemma core_getBooleanInput_absent (w : World) (name : string) :
  core_getInput w name = EmptyString ->
  core_getBooleanInput w name = throw (TypeError (not_a_boolean name)).
Proof. intros H. unfold core_getBooleanInput. rewrite H. reflexivity. Qed.

End InputFacts.

(* ===================================================================== *)
(** * Facts about whole runs *)
(* ===================================================================== *)

Module RunFacts.
Import Js Host InstallTs Observe Stages MonadFacts StageFacts.

Ltac kind_absurd H :=
  apply list_elem_of_In in H; cbn in H; intuition discriminate.

Lemma has_kind_bind {A B} (k : kind) (m : M A) (f : A -> M B) :
  has_kind k (trace (m ≫= f)) =
  has_kind k (trace m) ||
  match result_of m with
  | Returned a => has_kind k (trace (f a))
  | _ => false
  end.
Proof.
  rewrite bind_unfold. destruct (result_of m); cbn [trace fst].
  - apply has_kind_app.
  - now rewrite orb_false_r.
  - now rewrite orb_false_r.
Qed.

Lemma fresh_install_footprint (w : World) (r : Resolved) :
  footprint [Log; Failure; DownloadCall; FsCall; SaveCall]
    (trace (fresh_install w r)) = true.
Proof.
  unfold fresh_install.
  apply footprint_bind; [weaken_from getDownloadUrl_footprint | intros located _].
  apply footprint_bind.
  { rewrite downloadTool_spec. cbv zeta.
    destruct (toolCache_downloadTool _ _ _); reflexivity. }
  intros downloadPath _.
  apply footprint_bind; [weaken_from extractPackage_footprint | intros _ _].
  apply footprint_bind.
  { rewrite trySaveToCache_spec. destruct (cache_saveCache _ _ _); reflexivity. }
  intros _ _. reflexivity.
Qed.

(** The second half of [Install], by the answer of the cache restore. *)
Lemma install_stage_unfold (w : World) (r : Resolved) :
  install_stage w r =
  let call := RestoreCache [r_pathToInstall r] (r_cacheKey r) in
  match cache_restoreCache w [r_pathToInstall r] (r_cacheKey r) with
  | Ok (Some k) =>
      let m := conclude w r true None in
      ([call; Info (TOOL_NAME +:+ " restored from cache: " +:+ k)] ++ trace m,
       result_of m)
  | Ok None =>
      let m := fresh_install w r ≫= conclude w r false in
      ([call; Warning ("Cache for " +:+ TOOL_NAME +:+ " not found")] ++ trace m,
       result_of m)
  | Fail _ message =>
      let m := fresh_install w r ≫= conclude w r false in
      ([call; Warning message] ++ trace m, result_of m)
  end.
Proof.
  unfold install_stage. rewrite tryRestoreFromCache_spec. cbv zeta.
  destruct (cache_restoreCache w _ _) as [[k|]|n msg];
    rewrite bind_unfold; cbn [result_of trace fst snd];
    try rewrite bind_ret_l; reflexivity.
Qed.

Lemma after_restore_footprint (w : World) (r : Resolved) (b : bool) :
  footprint [Log; Failure; DownloadCall; FsCall; SaveCall; ExecCall; PathCall]
    (trace ((if b then mret None else fresh_install w r) ≫= conclude w r b)) = true.
Proof.
  apply footprint_bind.
  - destruct b; [reflexivity | weaken_from fresh_install_footprint].
  - intros u _. weaken_from conclude_footprint.
Qed.

Lemma Install_unfold (w : World) (inputs : InputHelper.ISourceInputs) :
  Install w inputs =
  match result_of (resolve_stage w inputs) with
  | Returned r =>
      (trace (resolve_stage w inputs) ++ trace (install_stage w r),
       result_of (install_stage w r))
  | Threw e => (trace (resolve_stage w inputs), Threw e)
  | Exited => (trace (resolve_stage w inputs), Exited)
  end.
Proof. rewrite Install_stages. apply bind_unfold. Qed.

(** The only cache restore of a run is the one of the second half, for the
    install path and the key of the first half. *)
Lemma restore_call_inv (w : World) (inputs : InputHelper.ISourceInputs)
  (paths : list string) (key : string) :
  In (RestoreCache paths key) (trace (Install w inputs)) ->
  exists r, result_of (resolve_stage w inputs) = Returned r /\
            paths = [r_pathToInstall r] /\ key = r_cacheKey r.
Proof.
  rewrite Install_unfold. intros Hin.
  assert (forall t, footprint [Log; Failure; FetchCall; ExecCall] t = true ->
                    ~ In (RestoreCache paths key) t) as Hno1.
  { intros t Ht Hin'. apply (footprint_event _ _ _ Ht) in Hin'. kind_absurd Hin'. }
  pose proof (resolve_stage_footprint w inputs) as Hfp.
  destruct (result_of (resolve_stage w inputs)) as [r|e|]; cbn [trace fst] in Hin;
    try (exfalso; now apply (Hno1 _ Hfp)).
  exists r. split; [reflexivity|].
  apply in_app_or in Hin as [Hin|Hin]; [exfalso; now apply (Hno1 _ Hfp)|].
  unfold install_stage in Hin. rewrite bind_unfold in Hin.
  rewrite tryRestoreFromCache_spec in Hin.
  pose proof (after_restore_footprint w r) as Hrest.
  assert (forall b, ~ In (RestoreCache paths key)
                      (trace ((if b then mret None else fresh_install w r) ≫= conclude w r b)))
    as Hno2.
  { intros b Hin'. apply (footprint_event _ _ _ (Hrest b)) in Hin'. kind_absurd Hin'. }
  destruct (cache_restoreCache w _ _) as [[k|]|n msg];
    cbn [result_of trace fst snd] in Hin;
    (apply in_app_or in Hin as [Hin|Hin];
     [cbn in Hin; destruct Hin as [Hin|[Hin|[]]]; try discriminate;
      injection Hin as <- <-; now split
     | exfalso; eapply Hno2; exact Hin]).
Qed.

Lemma not_elem_kind (k : kind) (ks : list kind) :
  bool_decide (k ∈ ks) = false -> k ∉ ks.
Proof. intros H. now apply bool_decide_eq_false_1 in H. Qed.

Lemma footprint_bind_returned {A B} (ks : list kind) (m : M A) (f : A -> M B) (b : B) :
  result_of (m ≫= f) = Returned b ->
  (forall a, result_of m = Returned a -> footprint ks (trace m) = true) ->
  (forall a, result_of m = Returned a -> result_of (f a) = Returned b ->
             footprint ks (trace (f a)) = true) ->
  footprint ks (trace (m ≫= f)) = true.
Proof.
  intros H Hm Hf. apply bind_returned_inv in H as (a & Ha & Hb & ->).
  rewrite footprint_app, (Hm a Ha), (Hf a Ha Hb). reflexivity.
Qed.

Lemma getReleaseMetadata_returned_quiet (w : World) (v : string) (rm : value) :
  result_of (getReleaseMetadata w v) = Returned rm ->
  footprint [Log; FetchCall] (trace (getReleaseMetadata w v)) = true.
Proof.
  unfold getReleaseMetadata. unfold_monad.
  destruct (fetch_json w TOOL_RELEASE_METADATA) as [[| | | |[|d defs]|]|];
    cbn; try discriminate.
  destruct (Regex.test _ _); reflexivity.
Qed.

(** A first half that returned reported no failure. *)
Lemma resolve_stage_returned_quiet (w : World) (inputs : InputHelper.ISourceInputs)
  (r : Resolved) :
  result_of (resolve_stage w inputs) = Returned r ->
  footprint [Log; FetchCall; ExecCall] (trace (resolve_stage w inputs)) = true.
Proof.
  unfold resolve_stage. intros H.
  eapply footprint_bind_returned; [exact H | |].
  { intros rm Hrm.
    eapply footprint_weaken; cycle 1;
      [eapply getReleaseMetadata_returned_quiet, Hrm | reflexivity]. }
  clear H. intros rm _ H.
  eapply footprint_bind_returned; [exact H | intros; apply footprint_nil_trace, get_prop_trace |].
  clear H. intros bid _ H.
  eapply footprint_bind_returned; [exact H | intros; apply footprint_nil_trace, get_prop_trace |].
  clear H. intros ver _ H. cbv zeta in *.
  eapply footprint_bind_returned; [exact H | reflexivity |].
  clear H. intros _ _ H.
  eapply footprint_bind_returned; [exact H | intros; weaken_from getCacheKey_footprint |].
  reflexivity.
Qed.

(** What a first half that returned hands over. *)
Lemma resolve_stage_returned_inv (w : World) (inputs : InputHelper.ISourceInputs)
  (r : Resolved) :
  result_of (resolve_stage w inputs) = Returned r ->
  result_of (getReleaseMetadata w (InputHelper.version inputs)) = Returned (r_metadata r) /\
  exists versionMarker,
    r_pathToInstall r =
      path_join w [TEMP_DIRECTORY w; TOOL_NAME +:+ "-" +:+ versionMarker] /\
    result_of (getCacheKey w versionMarker) = Returned (r_cacheKey r).
Proof.
  unfold resolve_stage. intros H.
  apply bind_returned_inv in H as (rm & Hrm & H & _).
  apply bind_returned_inv in H as (bid & _ & H & _).
  apply bind_returned_inv in H as (ver & _ & H & _). cbv zeta in H.
  apply bind_returned_inv in H as (_ & _ & H & _).
  apply bind_returned_inv in H as (ck & Hck & H & _).
  injection H as <-. cbn. split; [assumption|].
  eexists. split; [reflexivity | exact Hck].
Qed.

Lemma fresh_install_unsupported_arch (w : World) (r : Resolved) :
  process_arch w <> "x64" ->
  fresh_install w r =
  ([SetFailed ("Unsupported architecture: " +:+ process_arch w); ProcessExit], Exited).
Proof.
  intros H. unfold fresh_install.
  now rewrite (getDownloadUrl_unsupported_arch w _ H).
Qed.

Lemma conclude_unfold (w : World) (r : Resolved) (b : bool) (u : option string) :
  conclude w r b u =
  let added := AddPath (core_toPlatformPath w (r_pathToInstall r)) in
  let query := ExecOutput TOOL_NAME TOOL_VERSION_ARG in
  match exec_getExecOutput w TOOL_NAME TOOL_VERSION_ARG with
  | Ok stdout =>
      ([added; query; Debug (JsString.trim stdout)],
       Returned {| name := TOOL_NAME; version := r_version r;
                   path := r_pathToInstall r; restoredFromCache := b;
                   downloadUrl := u |})
  | Fail n message => ([added; query], Threw (ErrorInstance n message))
  end.
Proof.
  unfold conclude. rewrite getToolVersion_spec. cbv zeta.
  destruct (exec_getExecOutput _ _ _); reflexivity.
Qed.

Lemma in_bind_trace {A B} (e : Event) (m : M A) (f : A -> M B) :
  In e (trace (m ≫= f)) <->
  In e (trace m) \/ exists a, result_of m = Returned a /\ In e (trace (f a)).
Proof.
  rewrite bind_unfold. destruct (result_of m) as [a|x|]; cbn [trace fst].
  - rewrite in_app_iff. split; intros [H|H]; auto.
    + right. now exists a.
    + destruct H as (a' & [= <-] & H). now right.
  - split; [auto | intros [H|(a & H & _)]; [assumption | discriminate]].
  - split; [auto | intros [H|(a & H & _)]; [assumption | discriminate]].
Qed.

Lemma footprint_excludes (ks : list kind) (t : list Event) (e : Event) :
  footprint ks t = true -> bool_decide (kind_of e ∈ ks) = false -> ~ In e t.
Proof.
  intros Hfp Hk Hin. apply bool_decide_eq_false_1 in Hk. apply Hk.
  eapply footprint_event; eauto.
Qed.

Lemma getDownloadUrl_returned_inv (w : World) (rm : value) (located : URL * string) :
  result_of (getDownloadUrl w rm) = Returned located ->
  trace (getDownloadUrl w rm) = [] /\
  process_arch w = "x64" /\
  exists src, new_URL w src = Some (fst located) /\
              snd located = filename_of (pathname (fst located)).
Proof.
  unfold getDownloadUrl. intros H.
  destruct (String.eqb_spec (process_arch w) "x64") as [Ha|Ha];
    cbn [negb] in H |- *; [|discriminate].
  rewrite bind_ret_l in H |- *.
  destruct (map_platform (process_platform w)) as [p|]; [|discriminate].
  rewrite bind_ret_l in H |- *.
  apply bind_returned_inv in H as (files & _ & H & ->).
  apply bind_returned_inv in H as (file & _ & H & ->).
  apply bind_returned_inv in H as (url & _ & H & ->).
  rewrite !get_prop_trace.
  destruct (new_URL w (to_string url)) as [u|] eqn:E; [|discriminate].
  rewrite bind_ret_l in H |- *. injection H as <-.
  split; [reflexivity|]. split; [assumption|]. now exists (to_string url).
Qed.

Lemma extractPackage_returned (w : World) (downloadPath pathToInstall filename : string)
  (x : unit) :
  result_of (extractPackage w downloadPath pathToInstall filename) = Returned x ->
  trace (extractPackage w downloadPath pathToInstall filename) =
  let destinationPath := path_join w [pathToInstall; filename] in
  [MkdirP pathToInstall; Cp downloadPath destinationPath;
   Chmod destinationPath mode_0o755; RmRF downloadPath;
   Info ("Extracted " +:+ filename +:+ " to " +:+ pathToInstall)].
Proof.
  unfold extractPackage. unfold_monad. cbv zeta.
  destruct (io_mkdirP w _); [|discriminate].
  destruct (io_cp w _ _); [|discriminate].
  destruct (fs_chmodSync w _ _); [|discriminate].
  destruct (io_rmRF w _); [|discriminate].
  reflexivity.
Qed.

(** A fresh install that returned: what was called, in order. *)
Lemma fresh_install_returned_inv (w : World) (r : Resolved) (u : option string) :
  result_of (fresh_install w r) = Returned u ->
  exists url downloadPath,
    let filename := filename_of (pathname url) in
    let dest := path_join w [TEMP_DIRECTORY w; uuid w; filename] in
    let destinationPath := path_join w [r_pathToInstall r; filename] in
    result_of (getDownloadUrl w (r_metadata r)) = Returned (url, filename) /\
    u = Some (href url) /\
    trace (fresh_install w r) =
      [DownloadTool (href url) dest;
       Info ("Downloaded from " +:+ href url +:+ " to " +:+ downloadPath);
       MkdirP (r_pathToInstall r); Cp downloadPath destinationPath;
       Chmod destinationPath mode_0o755; RmRF downloadPath;
       Info ("Extracted " +:+ filename +:+ " to " +:+ r_pathToInstall r)] ++
      trace (trySaveToCache w [r_pathToInstall r] (r_cacheKey r)).
Proof.
  unfold fresh_install. intros H.
  apply bind_returned_inv in H as ([url filename] & Hloc & H & ->).
  destruct (getDownloadUrl_returned_inv w _ _ Hloc) as (-> & _ & src & _ & Hfn).
  cbn [fst snd] in *. subst filename.
  apply bind_returned_inv in H as (downloadPath & Hdl & H & ->).
  apply bind_returned_inv in H as (x & Hex & H & ->).
  apply bind_returned_inv in H as (cacheId & Hsave & H & ->).
  injection H as <-.
  rewrite (extractPackage_returned _ _ _ _ _ Hex).
  rewrite downloadTool_spec in Hdl |- *. cbv zeta in *.
  destruct (toolCache_downloadTool w _ _) as [p|]; [|discriminate].
  injection Hdl as ->.
  exists url, downloadPath. cbv zeta. split; [exact Hloc|]. split; [reflexivity|].
  cbn [trace fst mret M_ret ret]. rewrite app_nil_r. reflexivity.
Qed.

(** Whether a fresh install reaches the download is decided by
    [getDownloadUrl]. *)
Lemma fresh_install_download (w : World) (r : Resolved) :
  has_kind DownloadCall (trace (fresh_install w r)) =
  match result_of (getDownloadUrl w (r_metadata r)) with
  | Returned _ => true
  | _ => false
  end.
Proof.
  unfold fresh_install. rewrite has_kind_bind.
  rewrite (footprint_has_kind _ DownloadCall _ (getDownloadUrl_footprint w _))
    by now apply not_elem_kind.
  destruct (result_of (getDownloadUrl w (r_metadata r))) as [located| |];
    try reflexivity.
  rewrite has_kind_bind, downloadTool_spec. cbv zeta.
  destruct (toolCache_downloadTool w _ _); reflexivity.
Qed.

Lemma resolve_stage_with_restoreCache f (w : World) (inputs : InputHelper.ISourceInputs) :
  resolve_stage (with_restoreCache f w) inputs = resolve_stage w inputs.
Proof. reflexivity. Qed.

Lemma resolve_stage_with_saveCache f (w : World) (inputs : InputHelper.ISourceInputs) :
  resolve_stage (with_saveCache f w) inputs = resolve_stage w inputs.
Proof. reflexivity. Qed.

Lemma install_stage_no_hit (w : World) (r : Resolved) :
  (forall k, cache_restoreCache w [r_pathToInstall r] (r_cacheKey r) <> Ok (Some k)) ->
  install_stage w r =
  let m := fresh_install w r ≫= conclude w r false in
  ([RestoreCache [r_pathToInstall r] (r_cacheKey r);
    Warning (restore_warning (cache_restoreCache w [r_pathToInstall r] (r_cacheKey r)))]
   ++ trace m, result_of m).
Proof.
  intros Hmiss. rewrite install_stage_unfold. cbv zeta.
  destruct (cache_restoreCache w _ _) as [[k|]|n msg];
    [exfalso; now apply (Hmiss k) | reflexivity | reflexivity].
Qed.

(** The answer of the cache save does not change how a run ends, nor what
    it does besides logging. *)
Lemma Install_save_irrelevant f (w : World) (inputs : InputHelper.ISourceInputs) :
  similar (Install (with_saveCache f w) inputs) (Install w inputs).
Proof.
  rewrite !Install_stages, resolve_stage_with_saveCache.
  apply similar_bind; [apply similar_refl | intros r _].
  unfold install_stage.
  apply similar_bind; [apply similar_refl | intros restored _].
  apply similar_bind; [| intros u _; apply similar_refl].
  destruct (fst restored); [apply similar_refl|].
  unfold fresh_install.
  apply similar_bind; [apply similar_refl | intros located _].
  apply similar_bind; [apply similar_refl | intros downloadPath _].
  apply similar_bind; [apply similar_refl | intros _ _].
  rewrite !trySaveToCache_spec.
  destruct (cache_saveCache (with_saveCache f w) _ _), (cache_saveCache w _ _);
    (eapply similar_bind_ignore; [reflexivity | reflexivity | reflexivity | apply similar_refl]).
Qed.

(** The only cache save of a run is the one of the fresh install, and
    everything it logs is part of the run. *)
Lemma save_call_inv (w : World) (inputs : InputHelper.ISourceInputs)
  (paths : list string) (key : string) :
  In (SaveCache paths key) (trace (Install w inputs)) ->
  forall e, In e (trace (trySaveToCache w paths key)) -> In e (trace (Install w inputs)).
Proof.
  intros Hin e He. rewrite Install_stages in Hin |- *.
  apply in_bind_trace in Hin as [Hin|(r & Hr & Hin)].
  { exfalso. revert Hin. eapply footprint_excludes; [apply resolve_stage_footprint | reflexivity]. }
  apply in_bind_trace. right. exists r. split; [exact Hr|].
  unfold install_stage in Hin |- *.
  apply in_bind_trace in Hin as [Hin|(restored & Hres & Hin)].
  { exfalso. revert Hin. rewrite tryRestoreFromCache_spec.
    destruct (cache_restoreCache w _ _) as [[k|]|n msg]; cbn; intuition discriminate. }
  apply in_bind_trace. right. exists restored. split; [exact Hres|].
  apply in_bind_trace in Hin as [Hin|(u & Hu & Hin)].
  2:{ exfalso. revert Hin.
      eapply footprint_excludes; [apply conclude_footprint | reflexivity]. }
  apply in_bind_trace. left.
  destruct (fst restored); [destruct Hin|].
  unfold fresh_install in Hin |- *.
  apply in_bind_trace in Hin as [Hin|(located & Hl & Hin)].
  { exfalso. revert Hin. eapply footprint_excludes; [apply getDownloadUrl_footprint | reflexivity]. }
  apply in_bind_trace. right. exists located. split; [exact Hl|].
  apply in_bind_trace in Hin as [Hin|(downloadPath & Hd & Hin)].
  { exfalso. revert Hin. rewrite downloadTool_spec. cbv zeta.
    destruct (toolCache_downloadTool w _ _); cbn; intuition discriminate. }
  apply in_bind_trace. right. exists downloadPath. split; [exact Hd|].
  apply in_bind_trace in Hin as [Hin|(x & Hx & Hin)].
  { exfalso. revert Hin. eapply footprint_excludes; [apply extractPackage_footprint | reflexivity]. }
  apply in_bind_trace. right. exists x. split; [exact Hx|].
  apply in_bind_trace in Hin as [Hin|(cacheId & _ & [])].
  apply in_bind_trace. left.
  assert (paths = [r_pathToInstall r] /\ key = r_cacheKey r) as [-> ->].
  { rewrite trySaveToCache_spec in Hin.
    destruct (cache_saveCache w _ _); cbn in Hin;
      destruct Hin as [Hin|[Hin|[]]]; try discriminate; injection Hin as <- <-; now split. }
  exact He.
Qed.


(** What a run that returned after a fresh install did, in order. *)
Lemma fresh_run_trace (w : World) (inputs : InputHelper.ISourceInputs)
  (r : InstallResult) :
  result_of (Install w inputs) = Returned r ->
  restoredFromCache r = false ->
  exists url downloadPath pre post,
    let filename := filename_of (pathname url) in
    let destinationPath := path_join w [path r; filename] in
    downloadUrl r = Some (href url) /\
    (exists src, new_URL w src = Some url) /\
    trace (Install w inputs) =
      pre ++ [MkdirP (path r); Cp downloadPath destinationPath;
              Chmod destinationPath mode_0o755; RmRF downloadPath] ++ post /\
    footprint [Log; FetchCall; ExecCall; RestoreCall; DownloadCall] pre = true /\
    footprint [Log; SaveCall; PathCall; ExecCall] post = true.
Proof.
  intros Hret Hfresh. rewrite Install_unfold in Hret |- *.
  destruct (result_of (resolve_stage w inputs)) as [rs| |] eqn:Hrs; try discriminate.
  cbn [result_of trace fst snd] in Hret |- *.
  rewrite install_stage_unfold in Hret |- *. cbv zeta in Hret |- *.
  assert (forall m : M InstallResult,
            result_of m = Returned r ->
            m = fresh_install w rs ≫= conclude w rs false ->
            exists u url downloadPath,
              result_of (fresh_install w rs) = Returned u /\
              path r = r_pathToInstall rs /\
              downloadUrl r = Some (href url) /\
              (exists src, new_URL w src = Some url) /\
              exists t0 t1,
                trace m =
                  t0 ++ [MkdirP (path r);
                         Cp downloadPath (path_join w [path r; filename_of (pathname url)]);
                         Chmod (path_join w [path r; filename_of (pathname url)]) mode_0o755;
                         RmRF downloadPath] ++ t1 /\
                footprint [Log; DownloadCall] t0 = true /\
                footprint [Log; SaveCall; PathCall; ExecCall] t1 = true) as Hcase.
  { intros m Hm ->. apply bind_returned_inv in Hm as (u & Hu & Hc & ->).
    destruct (fresh_install_returned_inv w rs u Hu) as (url & dl & Hloc & -> & ->).
    destruct (getDownloadUrl_returned_inv w _ _ Hloc) as (_ & _ & src & Hsrc & _).
    pose proof (conclude_footprint w rs false (Some (href url))) as Hcf.
    rewrite conclude_unfold in Hc, Hcf |- *. cbv zeta in Hc, Hcf |- *.
    destruct (exec_getExecOutput w TOOL_NAME TOOL_VERSION_ARG); [|discriminate].
    injection Hc as <-. cbn [path downloadUrl trace fst] in *.
    exists (Some (href url)), url, dl.
    split; [exact Hu|]. split; [reflexivity|]. split; [reflexivity|].
    split; [now exists src|].
    eexists [_; _], (_ :: _ ++ _). split; [cbn [app]; reflexivity|].
    split; [reflexivity|].
    { cbn [footprint forallb]. rewrite forallb_app. apply andb_true_iff. split.
      + reflexivity.
      + apply andb_true_iff. split; [|exact Hcf].
        rewrite trySaveToCache_spec. destruct (cache_saveCache w _ _); reflexivity. } }
  pose proof (resolve_stage_returned_quiet w inputs rs Hrs) as Hq.
  destruct (cache_restoreCache w _ _) as [[k|]|n msg]; cbn [result_of trace fst snd] in Hret |- *.
  - exfalso. rewrite conclude_unfold in Hret. cbv zeta in Hret.
    destruct (exec_getExecOutput w _ _); [|discriminate].
    injection Hret as <-. discriminate.
  - destruct (Hcase _ Hret eq_refl)
      as (u & url & dl & _ & Hp & Hu & Hsrc & t0 & t1 & Ht & Hf0 & Hf).
    rewrite Ht. exists url, dl.
    match goal with |- context [?a ++ [?x; ?y] ++ t0 ++ _] =>
      exists (a ++ [x; y] ++ t0), t1 end. cbv zeta.
    split; [exact Hu|]. split; [exact Hsrc|].
    split; [now rewrite <- !app_assoc|]. split; [|exact Hf].
    rewrite !footprint_app. apply andb_true_iff. split.
    + eapply footprint_weaken; cycle 1; [exact Hq | reflexivity].
    + apply andb_true_iff. split; [reflexivity|].
      eapply footprint_weaken; cycle 1; [exact Hf0 | reflexivity].
  - destruct (Hcase _ Hret eq_refl)
      as (u & url & dl & _ & Hp & Hu & Hsrc & t0 & t1 & Ht & Hf0 & Hf).
    rewrite Ht. exists url, dl.
    match goal with |- context [?a ++ [?x; ?y] ++ t0 ++ _] =>
      exists (a ++ [x; y] ++ t0), t1 end. cbv zeta.
    split; [exact Hu|]. split; [exact Hsrc|].
    split; [now rewrite <- !app_assoc|]. split; [|exact Hf].
    rewrite !footprint_app. apply andb_true_iff. split.
    + eapply footprint_weaken; cycle 1; [exact Hq | reflexivity].
    + apply andb_true_iff. split; [reflexivity|].
      eapply footprint_weaken; cycle 1; [exact Hf0 | reflexivity].
Qed.


End RunFacts.

(* ===================================================================== *)
(** * Facts about lower-casing *)
(* ===================================================================== *)

Module LowerCaseFacts.
Import Js Host InputHelper Probes.

Lemma to_lower_not_capital (c : ascii) :
  JsString.is_capital (JsString.to_lower_char c) = false.
Proof.
  destruct c as [[] [] [] [] [] [] [] []]; reflexivity.
Qed.

Lemma toLowerCase_no_upper (s : string) : has_upper (JsString.toLowerCase s) = false.
Proof.
  induction s as [|c s IH]; [reflexivity|]. cbn.
  rewrite to_lower_not_capital. exact IH.
Qed.

Lemma to_lower_fixed (c : ascii) :
  JsString.is_capital c = false -> JsString.to_lower_char c = c.
Proof.
  unfold JsString.to_lower_char. now intros ->.
Qed.

Lemma toLowerCase_fixed (s : string) :
  has_upper s = false -> JsString.toLowerCase s = s.
Proof.
  induction s as [|c s IH]; [reflexivity|]. cbn.
  intros H. apply orb_false_iff in H as [Hc Hs].
  now rewrite (to_lower_fixed c Hc), (IH Hs).
Qed.

End LowerCaseFacts.

(* ===================================================================== *)
(** * Facts about [main.ts] *)
(* ===================================================================== *)

Module MainFacts.
Import Js Host InstallTs Observe Stages MonadFacts StageFacts RunFacts.
Import Probes.

Lemma try_catch_unfold {A} (m : M A) (h : thrown -> M A) :
  try_catch m h =
  match result_of m with
  | Threw e => (trace m ++ trace (h e), result_of (h e))
  | _ => m
  end.
Proof.
  destruct m as [t [a|e|]]; cbn; try reflexivity. now destruct (h e).
Qed.

Lemma all_events_bind {A B} (P : Event -> bool) (m : M A) (f : A -> M B) :
  forallb P (trace m) = true ->
  (forall a, result_of m = Returned a -> forallb P (trace (f a)) = true) ->
  forallb P (trace (m ≫= f)) = true.
Proof.
  intros Hm Hf. rewrite bind_unfold.
  destruct (result_of m) as [a|e|] eqn:E; cbn [trace fst]; try assumption.
  rewrite forallb_app, Hm. now apply Hf.
Qed.

(** Events of kinds other than command execution are not bare executions. *)
Lemma footprint_not_bare (ks : list kind) (t : list Event) :
  footprint ks t = true -> bool_decide (ExecCall ∈ ks) = false ->
  forallb (fun e => negb (is_bare_exec e)) t = true.
Proof.
  intros Hfp Hk. apply forallb_forall. intros e Hin.
  pose proof (footprint_event _ _ _ Hfp Hin) as He.
  apply bool_decide_eq_false_1 in Hk.
  destruct e as [| | | | |c args| | | | | | | | |]; try reflexivity.
  exfalso. now apply Hk.
Qed.

(** [Install] never runs a command without arguments. *)
Lemma Install_no_bare_exec (w : World) (inputs : InputHelper.ISourceInputs) :
  forallb (fun e => negb (is_bare_exec e)) (trace (Install w inputs)) = true.
Proof.
  rewrite Install_stages.
  apply all_events_bind.
  { unfold resolve_stage.
    apply all_events_bind;
      [eapply footprint_not_bare; [apply getReleaseMetadata_footprint | reflexivity]
      | intros rm _].
    apply all_events_bind; [now rewrite get_prop_trace | intros bid _].
    apply all_events_bind; [now rewrite get_prop_trace | intros ver _].
    cbv zeta. apply all_events_bind; [reflexivity | intros _ _].
    apply all_events_bind; [| reflexivity].
    rewrite getCacheKey_spec. cbv zeta.
    destruct (String.eqb _ _); [|reflexivity].
    destruct (exec_getExecOutput _ _ _); reflexivity. }
  intros r _. rewrite install_stage_unfold. cbv zeta.
  assert (forall b u, forallb (fun e => negb (is_bare_exec e))
                        (trace (conclude w r b u)) = true) as Hc.
  { intros b u. rewrite conclude_unfold. cbv zeta.
    destruct (exec_getExecOutput _ _ _); reflexivity. }
  assert (forallb (fun e => negb (is_bare_exec e))
            (trace (fresh_install w r ≫= conclude w r false)) = true) as Hf.
  { apply all_events_bind; [|intros u _; apply Hc].
    eapply footprint_not_bare; [apply fresh_install_footprint | reflexivity]. }
  destruct (cache_restoreCache w _ _) as [[k|]|n msg]; cbn [trace fst];
    rewrite forallb_app; [rewrite Hc | rewrite Hf | rewrite Hf]; reflexivity.
Qed.

Lemma getInputs_trace (w : World) : trace (InputHelper.getInputs w) = [].
Proof.
  unfold InputHelper.getInputs, InputHelper.getBooleanInput, core_getBooleanInput.
  destruct (JsString.includes _ (core_getInput w "execute"));
    repeat (destruct (JsString.includes _ _); try reflexivity).
Qed.

Lemma in_try_catch {A} (e : Event) (m : M A) (h : thrown -> M A) :
  In e (trace (try_catch m h)) <->
  In e (trace m) \/ exists x, result_of m = Threw x /\ In e (trace (h x)).
Proof.
  rewrite try_catch_unfold. destruct (result_of m) as [a|x|] eqn:E; cbn [trace fst].
  - split; [auto | intros [H|(x & Hx & _)]; [assumption | discriminate]].
  - rewrite in_app_iff. split; intros [H|H]; auto.
    + right. now exists x.
    + destruct H as (x' & [= <-] & H). now right.
  - split; [auto | intros [H|(x & Hx & _)]; [assumption | discriminate]].
Qed.

Lemma Execute_trace (w : World) (tool : string) :
  trace (MainTs.Execute w tool) = [ExecOutput tool []].
Proof.
  unfold MainTs.Execute, call.
  destruct (exec_getExecOutput w tool []); reflexivity.
Qed.

(** What [Install] returns is what [conclude] builds. *)
Lemma Install_returned_inv (w : World) (inputs : InputHelper.ISourceInputs)
  (r : InstallResult) :
  result_of (Install w inputs) = Returned r ->
  exists rs b u,
    result_of (resolve_stage w inputs) = Returned rs /\
    r = {| name := TOOL_NAME; version := r_version rs; path := r_pathToInstall rs;
           restoredFromCache := b; downloadUrl := u |}.
Proof.
  rewrite Install_stages. intros Hr.
  apply bind_returned_inv in Hr as (rs & Hrs & Hr & _).
  unfold install_stage in Hr.
  apply bind_returned_inv in Hr as (x & _ & Hr & _).
  apply bind_returned_inv in Hr as (u & _ & Hr & _).
  rewrite conclude_unfold in Hr. cbv zeta in Hr.
  destruct (exec_getExecOutput w TOOL_NAME TOOL_VERSION_ARG); [|discriminate].
  injection Hr as <-. now exists rs, (fst x), u.
Qed.

Lemma Install_returned_name (w : World) (inputs : InputHelper.ISourceInputs)
  (r : InstallResult) :
  result_of (Install w inputs) = Returned r -> name r = TOOL_NAME.
Proof.
  intros H. now destruct (Install_returned_inv w inputs r H) as (rs & b & u & _ & ->).
Qed.

End MainFacts.

(* ===================================================================== *)
(** * The shape of a run of [Install] *)
(* ===================================================================== *)

Module ShapeFacts.
Import Js Host InstallTs Observe Stages MonadFacts StageFacts RunFacts.
Import Probes MainFacts.

(** [extractPackage], by the first file operation that fails. *)
Lemma extractPackage_unfold (w : World) (downloadPath pathToInstall filename : string) :
  extractPackage w downloadPath pathToInstall filename =
  let destinationPath := path_join w [pathToInstall; filename] in
  let mk := MkdirP pathToInstall in
  let cp := Cp downloadPath destinationPath in
  let ch := Chmod destinationPath mode_0o755 in
  let rm := RmRF downloadPath in
  match io_mkdirP w pathToInstall with
  | Fail n m => ([mk], Threw (ErrorInstance n m))
  | Ok _ =>
  match io_cp w downloadPath destinationPath with
  | Fail n m => ([mk; cp], Threw (ErrorInstance n m))
  | Ok _ =>
  match fs_chmodSync w destinationPath mode_0o755 with
  | Fail n m => ([mk; cp; ch], Threw (ErrorInstance n m))
  | Ok _ =>
  match io_rmRF w downloadPath with
  | Fail n m => ([mk; cp; ch; rm], Threw (ErrorInstance n m))
  | Ok _ =>
      ([mk; cp; ch; rm;
        Info ("Extracted " +:+ filename +:+ " to " +:+ pathToInstall)],
       Returned tt)
  end end end end.
Proof.
  unfold extractPackage. unfold_monad. cbv zeta.
  destruct (io_mkdirP w _); [|reflexivity].
  destruct (io_cp w _ _); [|reflexivity].
  destruct (fs_chmodSync w _ _); [|reflexivity].
  destruct (io_rmRF w _); reflexivity.
Qed.

(** The fresh install, by how far it gets. *)
Lemma fresh_install_unfold (w : World) (r : Resolved) :
  fresh_install w r =
  match result_of (getDownloadUrl w (r_metadata r)) with
  | Returned located =>
      let url := fst located in
      let filename := snd located in
      let dest := path_join w [TEMP_DIRECTORY w; uuid w; filename] in
      match toolCache_downloadTool w (href url) dest with
      | Ok downloadPath =>
          let ex := extractPackage w downloadPath (r_pathToInstall r) filename in
          let t0 :=
            [DownloadTool (href url) dest;
             Info ("Downloaded from " +:+ href url +:+ " to " +:+ downloadPath)] in
          match result_of ex with
          | Returned _ =>
              (t0 ++ trace ex ++
               trace (trySaveToCache w [r_pathToInstall r] (r_cacheKey r)),
               Returned (Some (href url)))
          | Threw e => (t0 ++ trace ex, Threw e)
          | Exited => (t0 ++ trace ex, Exited)
          end
      | Fail _ message =>
          ([DownloadTool (href url) dest;
            SetFailed ("Could not download " +:+ TOOL_NAME +:+ " from " +:+
                       href url +:+ ", error: " +:+ message);
            ProcessExit], Exited)
      end
  | Threw e => (trace (getDownloadUrl w (r_metadata r)), Threw e)
  | Exited => (trace (getDownloadUrl w (r_metadata r)), Exited)
  end.
Proof.
  unfold fresh_install. rewrite bind_unfold.
  destruct (result_of (getDownloadUrl w (r_metadata r))) as [located| |] eqn:El;
    try reflexivity.
  destruct (getDownloadUrl_returned_inv w _ _ El) as (-> & _). cbv zeta.
  rewrite bind_unfold, downloadTool_spec. cbv zeta.
  destruct (toolCache_downloadTool w _ _) as [dl|n msg]; cbn [result_of trace fst snd];
    [|reflexivity].
  rewrite bind_unfold.
  destruct (result_of (extractPackage w dl _ _)) as [x| |]; cbn [result_of trace fst snd app];
    try reflexivity.
  rewrite bind_unfold, trySaveToCache_spec.
  destruct (cache_saveCache w _ _); cbn [result_of trace fst snd app mret M_ret ret];
    rewrite ?app_nil_r; reflexivity.
Qed.

Lemma trySaveToCache_footprint (w : World) (paths : list string) (key : string) :
  footprint [Log; SaveCall] (trace (trySaveToCache w paths key)) = true.
Proof. rewrite trySaveToCache_spec. destruct (cache_saveCache _ _ _); reflexivity. Qed.

Ltac by_kind H lem :=
  exfalso; revert H; eapply footprint_excludes; [apply lem | reflexivity].

(** Where an event of a run comes from. *)
Lemma in_Install_inv (e : Event) (w : World) (inputs : InputHelper.ISourceInputs) :
  In e (trace (Install w inputs)) ->
  In e (trace (resolve_stage w inputs)) \/
  exists rs,
    result_of (resolve_stage w inputs) = Returned rs /\
    (In e (trace (tryRestoreFromCache w [r_pathToInstall rs] (r_cacheKey rs))) \/
     ((forall k, cache_restoreCache w [r_pathToInstall rs] (r_cacheKey rs) <> Ok (Some k)) /\
      In e (trace (fresh_install w rs))) \/
     exists b u, In e (trace (conclude w rs b u))).
Proof.
  rewrite Install_stages. intros H.
  apply in_bind_trace in H as [H|(rs & Hrs & H)]; [now left|].
  right. exists rs. split; [exact Hrs|].
  unfold install_stage in H.
  apply in_bind_trace in H as [H|(restored & Hres & H)]; [now left|].
  right.
  apply in_bind_trace in H as [H|(u & _ & H)]; [|right; eauto].
  left. rewrite tryRestoreFromCache_spec in Hres.
  destruct (cache_restoreCache w _ _) as [[k|]|n msg]; injection Hres as <-;
    cbn [fst] in H; [destruct H | |]; (split; [discriminate | exact H]).
Qed.

(** A run that reached the cache save: the restore before it did not hit,
    and download and extraction went through. *)
Lemma save_reached (w : World) (inputs : InputHelper.ISourceInputs)
  (paths : list string) (key : string) :
  In (SaveCache paths key) (trace (Install w inputs)) ->
  exists rs url downloadPath,
    let filename := filename_of (pathname url) in
    let destinationPath := path_join w [r_pathToInstall rs; filename] in
    result_of (resolve_stage w inputs) = Returned rs /\
    paths = [r_pathToInstall rs] /\ key = r_cacheKey rs /\
    (forall k, cache_restoreCache w paths key <> Ok (Some k)) /\
    result_of (fresh_install w rs) = Returned (Some (href url)) /\
    trace (fresh_install w rs) =
      [DownloadTool (href url) (path_join w [TEMP_DIRECTORY w; uuid w; filename]);
       Info ("Downloaded from " +:+ href url +:+ " to " +:+ downloadPath);
       MkdirP (r_pathToInstall rs); Cp downloadPath destinationPath;
       Chmod destinationPath mode_0o755; RmRF downloadPath;
       Info ("Extracted " +:+ filename +:+ " to " +:+ r_pathToInstall rs)] ++
      trace (trySaveToCache w paths key).
Proof.
  intros H. apply in_Install_inv in H as [H|(rs & Hrs & H)];
    [by_kind H resolve_stage_footprint|].
  destruct H as [H|[[Hmiss H]|(b & u & H)]].
  - exfalso. rewrite tryRestoreFromCache_spec in H.
    destruct (cache_restoreCache w _ _) as [[k|]|n msg]; cbn in H; intuition discriminate.
  - assert (exists u, result_of (fresh_install w rs) = Returned u) as (u & Hu).
    { rewrite fresh_install_unfold in H |- *.
      destruct (result_of (getDownloadUrl w (r_metadata rs))) as [located| |] eqn:El;
        try (by_kind H getDownloadUrl_footprint).
      cbv zeta in H |- *.
      destruct (toolCache_downloadTool w _ _) as [dl|n msg];
        [|exfalso; cbn in H; intuition discriminate].
      destruct (result_of (extractPackage w dl _ _)) as [x| |] eqn:Ex;
        cbn [trace result_of fst snd] in H |- *; [eauto | |];
        (exfalso; apply in_app_or in H as [H|H];
         [cbn in H; intuition discriminate | by_kind H extractPackage_footprint]). }
    destruct (fresh_install_returned_inv w rs u Hu) as (url & dl & Hloc & -> & Ht).
    cbv zeta in Ht. rewrite Ht in H.
    apply in_app_or in H as [H|H]; [exfalso; cbn in H; intuition discriminate|].
    assert (paths = [r_pathToInstall rs] /\ key = r_cacheKey rs) as [-> ->].
    { rewrite trySaveToCache_spec in H.
      destruct (cache_saveCache w _ _); cbn in H;
        destruct H as [H|[H|[]]]; try discriminate; injection H as <- <-; now split. }
    exists rs, url, dl. cbv zeta. repeat (split; [first [assumption | reflexivity]|]).
    exact Ht.
  - by_kind H conclude_footprint.
Qed.

(** The whole trace of a run whose first half returned. *)
Lemma Install_trace_after_resolve (w : World) (inputs : InputHelper.ISourceInputs)
  (rs : Resolved) :
  result_of (resolve_stage w inputs) = Returned rs ->
  Install w inputs =
  (trace (resolve_stage w inputs) ++ trace (install_stage w rs),
   result_of (install_stage w rs)).
Proof. intros H. now rewrite Install_unfold, H. Qed.

Lemma install_stage_miss (w : World) (rs : Resolved) :
  (forall k, cache_restoreCache w [r_pathToInstall rs] (r_cacheKey rs) <> Ok (Some k)) ->
  exists warning,
    install_stage w rs =
    ([RestoreCache [r_pathToInstall rs] (r_cacheKey rs); Warning warning] ++
     trace (fresh_install w rs ≫= conclude w rs false),
     result_of (fresh_install w rs ≫= conclude w rs false)).
Proof.
  intros Hmiss. rewrite install_stage_unfold. cbv zeta.
  destruct (cache_restoreCache w _ _) as [[k|]|n msg];
    [exfalso; now apply (Hmiss k) | eauto | eauto].
Qed.

Lemma has_kind_resolve (w : World) (inputs : InputHelper.ISourceInputs) (k : kind) :
  bool_decide (k ∈ [Log; Failure; FetchCall; ExecCall]) = false ->
  has_kind k (trace (resolve_stage w inputs)) = false.
Proof.
  intros Hk. eapply footprint_has_kind; [apply resolve_stage_footprint|].
  now apply not_elem_kind.
Qed.

Lemma has_kind_conclude (w : World) (rs : Resolved) (b : bool) (u : option string)
  (k : kind) :
  bool_decide (k ∈ [Log; ExecCall; PathCall]) = false ->
  has_kind k (trace (conclude w rs b u)) = false.
Proof.
  intros Hk. eapply footprint_has_kind; [apply conclude_footprint|].
  now apply not_elem_kind.
Qed.

(** A run that reached the download. *)
Lemma download_reached (w : World) (inputs : InputHelper.ISourceInputs)
  (url dest : string) :
  In (DownloadTool url dest) (trace (Install w inputs)) ->
  exists rs located,
    result_of (resolve_stage w inputs) = Returned rs /\
    (forall k, cache_restoreCache w [r_pathToInstall rs] (r_cacheKey rs) <> Ok (Some k)) /\
    result_of (getDownloadUrl w (r_metadata rs)) = Returned located /\
    url = href (fst located) /\
    dest = path_join w [TEMP_DIRECTORY w; uuid w; snd located].
Proof.
  intros H. apply in_Install_inv in H as [H|(rs & Hrs & H)];
    [by_kind H resolve_stage_footprint|].
  destruct H as [H|[[Hmiss H]|(b & u & H)]].
  - exfalso. rewrite tryRestoreFromCache_spec in H.
    destruct (cache_restoreCache w _ _) as [[k|]|n msg]; cbn in H; intuition discriminate.
  - rewrite fresh_install_unfold in H.
    destruct (result_of (getDownloadUrl w (r_metadata rs))) as [located| |] eqn:El;
      try (by_kind H getDownloadUrl_footprint).
    cbv zeta in H. exists rs, located.
    split; [exact Hrs|]. split; [exact Hmiss|]. split; [exact El|].
    destruct (toolCache_downloadTool w _ _) as [dl|n msg].
    + assert (In (DownloadTool url dest)
                ([DownloadTool (href located.1)
                    (path_join w [TEMP_DIRECTORY w; uuid w; located.2]);
                  Info ("Downloaded from " +:+ href located.1 +:+ " to " +:+ dl)])) as H0.
      { destruct (result_of (extractPackage w dl _ _)) as [x| |];
          cbn [trace fst] in H; apply in_app_or in H as [H|H]; try exact H.
        - apply in_app_or in H as [H|H];
            [by_kind H extractPackage_footprint | by_kind H trySaveToCache_footprint].
        - by_kind H extractPackage_footprint.
        - by_kind H extractPackage_footprint. }
      destruct H0 as [H0|[H0|[]]]; [|discriminate]. injection H0 as <- <-. now split.
    + destruct H as [H|[H|[H|[]]]]; try discriminate. injection H as <- <-. now split.
  - by_kind H conclude_footprint.
Qed.

Lemma map_platform_unsupported (platform : string) :
  platform <> "win32" -> platform <> "darwin" -> platform <> "linux" ->
  map_platform platform = None.
Proof.
  intros H1 H2 H3. unfold map_platform.
  apply String.eqb_neq in H1, H2, H3. now rewrite H1, H2, H3.
Qed.

Lemma getDownloadUrl_unsupported_platform (w : World) (releaseMetadata : value) :
  process_arch w = "x64" ->
  map_platform (process_platform w) = None ->
  getDownloadUrl w releaseMetadata =
  ([SetFailed ("Unsupported platform: " +:+ process_platform w); ProcessExit], Exited).
Proof.
  intros Ha Hp. unfold getDownloadUrl. rewrite Ha, Hp. reflexivity.
Qed.

(** The run of a first half that returned, after a restore that did not
    hit. *)
Lemma Install_after_miss (w : World) (inputs : InputHelper.ISourceInputs)
  (paths : list string) (key : string) :
  In (RestoreCache paths key) (trace (Install w inputs)) ->
  (forall k, cache_restoreCache w paths key <> Ok (Some k)) ->
  exists rs warning,
    result_of (resolve_stage w inputs) = Returned rs /\
    paths = [r_pathToInstall rs] /\ key = r_cacheKey rs /\
    Install w inputs =
    ((trace (resolve_stage w inputs) ++ [RestoreCache paths key; Warning warning]) ++
     trace (fresh_install w rs ≫= conclude w rs false),
     result_of (fresh_install w rs ≫= conclude w rs false)).
Proof.
  intros H Hmiss. apply restore_call_inv in H as (rs & Hrs & -> & ->).
  destruct (install_stage_miss w rs Hmiss) as (warning & E).
  exists rs, warning. repeat (split; [first [assumption | reflexivity]|]).
  rewrite (Install_trace_after_resolve w inputs rs Hrs), E. cbn [trace result_of fst snd].
  now rewrite <- app_assoc.
Qed.

(** What the first half hands over, in full. *)
Lemma resolve_stage_returned_full (w : World) (inputs : InputHelper.ISourceInputs)
  (rs : Resolved) :
  result_of (resolve_stage w inputs) = Returned rs ->
  exists entry buildId versionMarker,
    result_of (getReleaseMetadata w (InputHelper.version inputs)) = Returned (Some entry) /\
    entry <> JNull /\
    r_metadata rs = Some entry /\
    buildId = prop entry "buildId" /\
    r_version rs = prop entry "version" /\
    versionMarker = to_string buildId +:+ "-" +:+ to_string (r_version rs) /\
    r_pathToInstall rs =
      path_join w [TEMP_DIRECTORY w; TOOL_NAME +:+ "-" +:+ versionMarker] /\
    result_of (getCacheKey w versionMarker) = Returned (r_cacheKey rs).
Proof.
  unfold resolve_stage. intros H.
  apply bind_returned_inv in H as (rm & Hrm & H & _).
  apply bind_returned_inv in H as (bid & Hbid & H & _).
  apply bind_returned_inv in H as (ver & Hver & H & _). cbv zeta in H.
  apply bind_returned_inv in H as (_ & _ & H & _).
  apply bind_returned_inv in H as (ck & Hck & H & _).
  injection H as <-. cbn [r_metadata r_version r_pathToInstall r_cacheKey].
  destruct rm as [entry|]; [|discriminate].
  destruct entry; try discriminate;
    injection Hbid as <-; injection Hver as <-;
    eexists _, _, _; repeat (split; [first [eassumption | reflexivity | discriminate]|]);
    exact Hck.
Qed.

Lemma has_kind_false (k : kind) (t : list Event) :
  (forall e, In e t -> kind_of e <> k) -> has_kind k t = false.
Proof.
  intros H. unfold has_kind. destruct (existsb _ t) eqn:E; [|reflexivity].
  apply existsb_exists in E as (e & Hin & He).
  apply bool_decide_eq_true_1 in He. now destruct (H e Hin).
Qed.

(** An event of the download, of the extraction or of the cache save comes
    from a fresh install whose download address was found. *)
Lemma fresh_reached (e : Event) (w : World) (inputs : InputHelper.ISourceInputs) :
  In e (trace (Install w inputs)) ->
  bool_decide (kind_of e ∈ [DownloadCall; FsCall; SaveCall]) = true ->
  exists rs located,
    result_of (resolve_stage w inputs) = Returned rs /\
    (forall k, cache_restoreCache w [r_pathToInstall rs] (r_cacheKey rs) <> Ok (Some k)) /\
    result_of (getDownloadUrl w (r_metadata rs)) = Returned located /\
    In e (trace (fresh_install w rs)).
Proof.
  intros H Hk.
  assert (forall ks t, footprint ks t = true ->
            forallb (fun k => negb (bool_decide (k ∈ ks))) [DownloadCall; FsCall; SaveCall]
            = true -> ~ In e t) as Hex.
  { intros ks t Hfp Hks Hin. pose proof (footprint_event _ _ _ Hfp Hin) as He.
    apply bool_decide_eq_true_1 in Hk. cbn [forallb] in Hks.
    rewrite !andb_true_iff, !negb_true_iff in Hks. destruct Hks as (H1 & H2 & H3 & _).
    apply bool_decide_eq_false_1 in H1, H2, H3.
    apply list_elem_of_In in Hk. cbn in Hk.
    destruct Hk as [Hk|[Hk|[Hk|[]]]]; rewrite <- Hk in He; contradiction. }
  apply in_Install_inv in H as [H|(rs & Hrs & H)].
  { exfalso. revert H. eapply Hex; [apply resolve_stage_footprint | reflexivity]. }
  destruct H as [H|[[Hmiss H]|(b & u & H)]].
  - exfalso. revert H. apply (Hex [Log; RestoreCall]); [|reflexivity].
    rewrite tryRestoreFromCache_spec.
    destruct (cache_restoreCache w _ _) as [[k|]|n msg]; reflexivity.
  - destruct (result_of (getDownloadUrl w (r_metadata rs))) as [located| |] eqn:El.
    + now exists rs, located.
    + exfalso. rewrite fresh_install_unfold, El in H. revert H.
      eapply Hex; [apply getDownloadUrl_footprint | reflexivity].
    + exfalso. rewrite fresh_install_unfold, El in H. revert H.
      eapply Hex; [apply getDownloadUrl_footprint | reflexivity].
  - exfalso. revert H. eapply Hex; [apply conclude_footprint | reflexivity].
Qed.

(** A run whose download address cannot be found downloads nothing,
    touches no file and saves nothing. *)
Lemma not_located_quiet (w : World) (inputs : InputHelper.ISourceInputs) :
  (forall rs located,
     result_of (resolve_stage w inputs) = Returned rs ->
     result_of (getDownloadUrl w (r_metadata rs)) <> Returned located) ->
  has_kind DownloadCall (trace (Install w inputs)) = false /\
  has_kind FsCall (trace (Install w inputs)) = false /\
  has_kind SaveCall (trace (Install w inputs)) = false.
Proof.
  intros Hno.
  assert (forall e, In e (trace (Install w inputs)) ->
            bool_decide (kind_of e ∈ [DownloadCall; FsCall; SaveCall]) = false) as H.
  { intros e Hin. destruct (bool_decide _) eqn:E; [|reflexivity].
    destruct (fresh_reached e w inputs Hin E) as (rs & located & Hrs & _ & Hl & _).
    now destruct (Hno rs located Hrs). }
  repeat split; apply has_kind_false; intros e Hin Hk;
    specialize (H e Hin); rewrite Hk in H; discriminate.
Qed.

Lemma find_first {A} (p : A -> bool) (l : list A) (x : A) :
  List.find p l = Some x ->
  exists before after,
    l = before ++ x :: after /\ p x = true /\ forall y, In y before -> p y = false.
Proof.
  induction l as [|a l IH]; [discriminate|]. cbn [List.find].
  destruct (p a) eqn:E.
  - intros [= <-]. exists [], l. repeat split; [assumption | intros y []].
  - intros H. destruct (IH H) as (before & after & -> & Hx & Hb).
    exists (a :: before), after. repeat split; [assumption|].
    intros y [<-|Hy]; auto.
Qed.

Lemma field_equals_true (field v : string) (d : json) :
  field_equals field v d = true <-> d <> JNull /\ prop d field = Some (JStr v).
Proof.
  unfold field_equals, strict_eq_string. split.
  - destruct d; try discriminate;
      destruct (prop _ field) as [[]|] eqn:E; try discriminate;
      intros H; apply String.eqb_eq in H; subst; split; [discriminate | reflexivity].
  - intros [Hn H]. destruct d; try contradiction; rewrite H; apply String.eqb_refl.
Qed.

Lemma getReleaseMetadata_unfold (w : World) (v : string) :
  getReleaseMetadata w v =
  let t := [Info ("Fetching release metadata for version: " +:+ v);
            Fetch TOOL_RELEASE_METADATA] in
  match fetch_json w TOOL_RELEASE_METADATA with
  | Ok (JArr (d :: defs)) =>
      (t, Returned
            (List.find
               (field_equals
                  (if Regex.test build_id_pattern v then "buildId" else "version") v)
               (d :: defs)))
  | Ok _ =>
      (t ++ [SetFailed ("Could not fetch release metadata from " +:+ TOOL_RELEASE_METADATA);
             ProcessExit], Exited)
  | Fail n message => (t, Threw (ErrorInstance n message))
  end.
Proof.
  destruct (fetch_json w TOOL_RELEASE_METADATA) as [[| | | |[|d defs]|]|n msg] eqn:E;
    try (unfold getReleaseMetadata; unfold_monad; rewrite E; reflexivity).
  now rewrite (getReleaseMetadata_array w v d defs E).
Qed.


Lemma Execute_unfold (w : World) (tool : string) :
  MainTs.Execute w tool =
  match exec_getExecOutput w tool [] with
  | Ok _ => ([ExecOutput tool []], Returned tt)
  | Fail n message => ([ExecOutput tool []], Threw (ErrorInstance n message))
  end.
Proof.
  unfold MainTs.Execute. unfold_monad. destruct (exec_getExecOutput w tool []); reflexivity.
Qed.


End ShapeFacts.

(* ===================================================================== *)
(** * Effects in program order *)
(* ===================================================================== *)

Module OrderFacts.
Import Js Host InstallTs Observe Stages MonadFacts StageFacts RunFacts.
Import Probes MainFacts ShapeFacts.

Lemma ascending_weaken (lo lo' hi hi' : nat) (t : list Event) :
  ascending lo hi t = true -> (lo' <= lo)%nat -> (hi <= hi')%nat ->
  ascending lo' hi' t = true.
Proof.
  destruct t as [|e t]; [reflexivity|]. cbn [ascending].
  rewrite !andb_true_iff, !Nat.leb_le. intros [[H1 H2] H3] Hlo Hhi.
  split; [lia|]. clear H1 Hlo lo lo'.
  revert e H2 H3. induction t as [|x t IH]; intros e H2 H3; [reflexivity|].
  cbn [ascending] in *. rewrite !andb_true_iff, !Nat.leb_le in *.
  destruct H3 as [[H3 H4] H5]. split; [lia|]. now apply IH.
Qed.

Lemma ascending_app (lo mid lo2 hi : nat) (t1 t2 : list Event) :
  ascending lo mid t1 = true -> ascending lo2 hi t2 = true ->
  (mid < lo2)%nat -> (lo <= lo2)%nat -> (mid <= hi)%nat ->
  ascending lo hi (t1 ++ t2) = true.
Proof.
  revert lo. induction t1 as [|e t1 IH]; intros lo H1 H2 Hm Hl Hh.
  - cbn [app]. eapply ascending_weaken; [exact H2 | lia | lia].
  - cbn [app ascending] in *. rewrite !andb_true_iff, !Nat.leb_le in *.
    destruct H1 as [[H0 H1] H3]. split; [lia|]. apply IH; [assumption.. | lia | lia].
Qed.

Lemma ascending_in (lo hi : nat) (t : list Event) (x : Event) :
  ascending lo hi t = true -> In x t ->
  (lo <= program_point x)%nat /\ (program_point x <= hi)%nat.
Proof.
  revert lo. induction t as [|e t IH]; intros lo H Hin; [destruct Hin|].
  cbn [ascending] in H. rewrite !andb_true_iff, !Nat.leb_le in H.
  destruct H as [[H1 H2] H3]. destruct Hin as [<-|Hin]; [lia|].
  specialize (IH _ H3 Hin). lia.
Qed.

(** Effects in program order are pairwise distinct. *)
Lemma ascending_NoDup (lo hi : nat) (t : list Event) :
  ascending lo hi t = true -> List.NoDup t.
Proof.
  revert lo. induction t as [|e t IH]; intros lo H; [constructor|].
  cbn [ascending] in H. rewrite !andb_true_iff in H. destruct H as [_ H].
  constructor; [|eapply IH, H].
  intros Hin. pose proof (ascending_in _ _ _ _ H Hin). lia.
Qed.

Lemma staged_bind {A B} (lo mid lo2 hi : nat) (m : M A) (f : A -> M B) :
  staged lo mid m ->
  (forall a, result_of m = Returned a -> staged lo2 hi (f a)) ->
  (mid < lo2)%nat -> (lo <= lo2)%nat -> (mid <= hi)%nat -> (hi <= 13)%nat ->
  staged lo hi (m ≫= f).
Proof.
  unfold staged. intros Hm Hf H1 H2 H3 H4. rewrite bind_unfold.
  destruct (result_of m) as [a| |] eqn:E; cbn [trace result_of fst snd point_bound] in *;
    try assumption.
  rewrite effects_app. specialize (Hf a eq_refl).
  eapply ascending_app; [exact Hm | exact Hf | lia | lia |].
  destruct (result_of (f a)); cbn [point_bound]; lia.
Qed.

(** A step without effects does not change the stage. *)
Lemma staged_bind_quiet {A B} (lo hi : nat) (m : M A) (f : A -> M B) :
  effects (trace m) = [] ->
  (forall a, result_of m = Returned a -> staged lo hi (f a)) ->
  staged lo hi (m ≫= f).
Proof.
  unfold staged. intros Hm Hf. rewrite bind_unfold.
  destruct (result_of m) as [a| |] eqn:E; cbn [trace result_of fst snd];
    try (rewrite Hm; reflexivity).
  rewrite effects_app, Hm. apply Hf. reflexivity.
Qed.

Lemma effects_silent {A} (m : M A) : trace m = [] -> effects (trace m) = [].
Proof. now intros ->. Qed.

Lemma staged_weaken {A} (lo lo' hi hi' : nat) (m : M A) :
  staged lo hi m -> (lo' <= lo)%nat -> (hi <= hi')%nat -> (hi' <= 13)%nat ->
  staged lo' hi' m.
Proof.
  unfold staged. intros H H1 H2 H3.
  eapply ascending_weaken; [exact H | lia |].
  destruct (result_of m); cbn [point_bound]; lia.
Qed.

Lemma getReleaseMetadata_staged (w : World) (v : string) :
  staged 1 1 (getReleaseMetadata w v).
Proof.
  unfold staged. rewrite getReleaseMetadata_unfold. cbv zeta.
  destruct (fetch_json w _) as [[| | | |[|d defs]|]|]; reflexivity.
Qed.

Lemma getCacheKey_staged (w : World) (v : string) : staged 2 2 (getCacheKey w v).
Proof.
  unfold staged. rewrite getCacheKey_spec. cbv zeta.
  destruct (String.eqb _ _); [|reflexivity].
  destruct (exec_getExecOutput w _ _); reflexivity.
Qed.

Lemma resolve_stage_staged (w : World) (inputs : InputHelper.ISourceInputs) :
  staged 1 2 (resolve_stage w inputs).
Proof.
  unfold resolve_stage.
  eapply (staged_bind 1 1 2 2); [apply getReleaseMetadata_staged | intros rm _ | lia..].
  apply staged_bind_quiet; [apply effects_silent, get_prop_trace | intros bid _].
  apply staged_bind_quiet; [apply effects_silent, get_prop_trace | intros ver _].
  cbv zeta. apply staged_bind_quiet; [reflexivity | intros _ _].
  eapply (staged_bind 2 2 3 2); [apply getCacheKey_staged | intros ck _ | lia..].
  reflexivity.
Qed.

Lemma tryRestoreFromCache_staged (w : World) (paths : list string) (key : string) :
  staged 3 3 (tryRestoreFromCache w paths key).
Proof.
  unfold staged. rewrite tryRestoreFromCache_spec.
  destruct (cache_restoreCache w _ _) as [[k|]|n msg]; reflexivity.
Qed.

Lemma getDownloadUrl_staged (w : World) (rm : value) : staged 4 3 (getDownloadUrl w rm).
Proof.
  unfold staged.
  destruct (result_of (getDownloadUrl w rm)) as [located| |] eqn:E.
  - now destruct (getDownloadUrl_returned_inv w rm located E) as (-> & _).
  - unfold getDownloadUrl in *.
    destruct (negb (String.eqb (process_arch w) "x64")); [discriminate|].
    rewrite bind_ret_l in E |- *.
    destruct (map_platform (process_platform w)) as [p|]; [|discriminate].
    rewrite bind_ret_l. clear E.
    assert (forall A (m : M A), trace m = [] ->
              ascending 4 (point_bound (Threw e : outcome (URL * string)) 3)
                (effects (trace m)) = true) as Hs by (now intros A m ->).
    apply Hs.
    destruct rm as [[]|]; try reflexivity.
    cbn [get_prop]. rewrite bind_ret_l.
    destruct (prop (JObj fields) "files") as [[]|]; try reflexivity;
      cbn [get_prop]; rewrite bind_ret_l;
      match goal with
      | |- context [get_prop ?v ?k ≫= _] =>
          destruct v as [[]|]; try reflexivity; cbn [get_prop]; rewrite bind_ret_l
      end.
    all: try reflexivity.
    all: match goal with
         | |- context [new_URL ?w ?s] => destruct (new_URL w s); reflexivity
         end.
  - unfold getDownloadUrl in *.
    destruct (negb (String.eqb (process_arch w) "x64")); [reflexivity|].
    rewrite bind_ret_l in E |- *.
    destruct (map_platform (process_platform w)) as [p|]; [|reflexivity].
    rewrite bind_ret_l in E |- *. exfalso.
    destruct rm as [[]|]; try discriminate.
    cbn [get_prop] in E. rewrite bind_ret_l in E.
    destruct (prop (JObj fields) "files") as [[]|]; try discriminate;
      cbn [get_prop] in E; rewrite bind_ret_l in E;
      match type of E with
      | context [get_prop ?v ?k ≫= _] =>
          destruct v as [[]|]; try discriminate; cbn [get_prop] in E;
          rewrite bind_ret_l in E
      end.
    all: try discriminate.
    all: match type of E with
         | context [new_URL ?w ?s] => destruct (new_URL w s); discriminate
         end.
Qed.

Lemma downloadTool_staged (w : World) (url : URL) (filename : string) :
  staged 4 4 (downloadTool w url filename).
Proof.
  unfold staged. rewrite downloadTool_spec. cbv zeta.
  destruct (toolCache_downloadTool w _ _); reflexivity.
Qed.

Lemma extractPackage_staged (w : World) (downloadPath pathToInstall filename : string) :
  staged 5 8 (extractPackage w downloadPath pathToInstall filename).
Proof.
  unfold staged. rewrite extractPackage_unfold. cbv zeta.
  destruct (io_mkdirP w _); [|reflexivity].
  destruct (io_cp w _ _); [|reflexivity].
  destruct (fs_chmodSync w _ _); [|reflexivity].
  destruct (io_rmRF w _); reflexivity.
Qed.

Lemma trySaveToCache_staged (w : World) (paths : list string) (key : string) :
  staged 9 9 (trySaveToCache w paths key).
Proof.
  unfold staged. rewrite trySaveToCache_spec.
  destruct (cache_saveCache w _ _); reflexivity.
Qed.

Lemma fresh_install_staged (w : World) (r : Resolved) : staged 4 9 (fresh_install w r).
Proof.
  unfold fresh_install.
  eapply (staged_bind 4 3 4 9); [apply getDownloadUrl_staged | intros located _ | lia..].
  eapply (staged_bind 4 4 5 9); [apply downloadTool_staged | intros dl _ | lia..].
  eapply (staged_bind 5 8 9 9); [apply extractPackage_staged | intros _ _ | lia..].
  eapply (staged_bind 9 9 10 9); [apply trySaveToCache_staged | intros _ _ | lia..].
  reflexivity.
Qed.

Lemma conclude_staged (w : World) (r : Resolved) (b : bool) (u : option string) :
  staged 11 12 (conclude w r b u).
Proof.
  unfold staged. rewrite conclude_unfold. cbv zeta.
  destruct (exec_getExecOutput w _ _); reflexivity.
Qed.

Lemma install_stage_staged (w : World) (r : Resolved) : staged 3 12 (install_stage w r).
Proof.
  unfold install_stage.
  eapply (staged_bind 3 3 4 12);
    [apply tryRestoreFromCache_staged | intros restored _ | lia..].
  destruct (fst restored).
  - rewrite bind_ret_l.
    eapply staged_weaken; [apply conclude_staged | lia..].
  - eapply (staged_bind 4 9 11 12);
      [apply fresh_install_staged | intros; apply conclude_staged | lia..].
Qed.

Lemma Install_staged (w : World) (inputs : InputHelper.ISourceInputs) :
  staged 1 12 (Install w inputs).
Proof.
  rewrite Install_stages.
  eapply (staged_bind 1 2 3 12);
    [apply resolve_stage_staged | intros; apply install_stage_staged | lia..].
Qed.

Lemma Execute_staged (w : World) : staged 13 13 (MainTs.Execute w TOOL_NAME).
Proof.
  unfold staged, MainTs.Execute. unfold_monad.
  destruct (exec_getExecOutput w _ _); reflexivity.
Qed.

Lemma main_body_staged (w : World) :
  staged 1 13
    (sourceInputs ← InputHelper.getInputs w;
     tool ← Install w sourceInputs;
     if InputHelper.execute sourceInputs then MainTs.Execute w (name tool)
     else mret tt).
Proof.
  apply staged_bind_quiet; [apply effects_silent, getInputs_trace | intros inputs _].
  eapply (staged_bind 1 12 13 13); [apply Install_staged | intros tool Ht | lia..].
  destruct (InputHelper.execute inputs); [|reflexivity].
  rewrite (Install_returned_name w inputs tool Ht). apply Execute_staged.
Qed.

Lemma staged_ascending {A} (lo hi : nat) (m : M A) :
  staged lo hi m -> (hi <= 15)%nat -> ascending lo 15 (effects (trace m)) = true.
Proof.
  unfold staged. intros H Hh. eapply ascending_weaken; [exact H | lia |].
  destruct (result_of m); cbn [point_bound]; lia.
Qed.

Lemma main_ascending (w : World) :
  ascending 1 15 (effects (trace (MainTs.main w))) = true.
Proof.
  unfold MainTs.main. rewrite try_catch_unfold.
  pose proof (main_body_staged w) as H. unfold staged in H.
  destruct (result_of _) as [x|e|] eqn:E; cbn [point_bound] in H.
  - eapply ascending_weaken; [exact H | lia | lia].
  - cbn [trace fst]. rewrite effects_app.
    eapply (ascending_app 1 13 14 15); [exact H | | lia..].
    destruct e; reflexivity.
  - exact H.
Qed.

End OrderFacts.

(* ===================================================================== *)
(** * The claims *)
(* ===================================================================== *)

Module Claims.
Import Js Host InstallTs Observe Stages CacheKeySpec.
Import MonadFacts StageFacts CacheKeyFacts InputFacts RunFacts.
Import PathFacts FilenameFacts.
Import ShapeFacts.

(** The half of the selection rule that the code keeps: a specifier that
    contains a dotted triple is looked up by [buildId]. *)
Lemma dotted_triple_selects_buildId (w : World) (v : string) (d : json) (defs : list json) :
  fetch_json w TOOL_RELEASE_METADATA = Ok (JArr (d :: defs)) ->
  Regex.test Spec.dotted_triple v = true ->
  result_of (getReleaseMetadata w v) =
  Returned (List.find (field_equals "buildId" v) (d :: defs)).
Proof.
  intros H Hv. rewrite (getReleaseMetadata_array w v d defs H).
  now rewrite (RegexFacts.dotted_triple_test v Hv).
Qed.

(** C1 (code bug).  The pattern of the code has unescaped dots: the
    specifier ["12345"] is not a dotted triple, yet the code looks it up by
    [buildId] and never compares it with the [version] fields. *)
Theorem unescaped_dots_select_buildId (w : World) (d : json) (defs : list json) :
  fetch_json w TOOL_RELEASE_METADATA = Ok (JArr (d :: defs)) ->
  Regex.test Spec.dotted_triple "12345" = false /\
  result_of (getReleaseMetadata w "12345") =
  Returned (List.find (field_equals "buildId" "12345") (d :: defs)).
Proof.
  intros H. split; [reflexivity|].
  now rewrite (getReleaseMetadata_array w _ d defs H).
Qed.

Lemma unescaped_dots_select_buildId_witness :
  let w := Examples.runner "x64" (Ok None) (Ok 42%Z) (Ok "1.0.0") in
  Regex.test Spec.dotted_triple "12345" = false /\
  result_of (getReleaseMetadata w "12345") = Returned None /\
  List.find (field_equals "version" "12345")
    [Examples.release "1.0.0" "stable" Examples.stable_url;
     Examples.release "0.9.0" "12345" Examples.folder_url]
  = Some (Examples.release "0.9.0" "12345" Examples.folder_url).
Proof.
  intros w.
  destruct (unescaped_dots_select_buildId w
              (Examples.release "1.0.0" "stable" Examples.stable_url)
              [Examples.release "0.9.0" "12345" Examples.folder_url] eq_refl)
    as [H1 H2].
  split; [exact H1|]. split; [rewrite H2; reflexivity | reflexivity].
Defined.

(** C2 (code bug).  On a non-empty array without a matching entry,
    [getReleaseMetadata] reports nothing and returns [undefined]; [Install]
    then throws the [TypeError] of the property read on it. *)
Theorem no_match_returns_undefined (w : World) (inputs : InputHelper.ISourceInputs)
  (d : json) (defs : list json) :
  let v := InputHelper.version inputs in
  fetch_json w TOOL_RELEASE_METADATA = Ok (JArr (d :: defs)) ->
  List.find
    (field_equals (if Regex.test build_id_pattern v then "buildId" else "version") v)
    (d :: defs) = None ->
  result_of (getReleaseMetadata w v) = Returned None /\
  no_failure_reported (trace (getReleaseMetadata w v)) = true /\
  result_of (Install w inputs) =
    Threw (TypeError "Cannot read properties of undefined (reading 'buildId')") /\
  no_failure_reported (trace (Install w inputs)) = true.
Proof.
  intros v Hdoc Hnone.
  pose proof (getReleaseMetadata_array w v d defs Hdoc) as E.
  rewrite Hnone in E. rewrite E. repeat split.
  unfold Install. fold v. rewrite E. reflexivity.
  unfold Install. fold v. rewrite E. reflexivity.
Qed.

Lemma no_match_returns_undefined_witness :
  let w := Examples.runner "x64" (Ok None) (Ok 42%Z) (Ok "1.0.0") in
  result_of (getReleaseMetadata w "nightly") = Returned None /\
  result_of (Install w (Examples.inputs_for "nightly")) =
    Threw (TypeError "Cannot read properties of undefined (reading 'buildId')").
Proof.
  intros w.
  destruct (no_match_returns_undefined w (Examples.inputs_for "nightly")
              (Examples.release "1.0.0" "stable" Examples.stable_url)
              [Examples.release "0.9.0" "12345" Examples.folder_url]
              eq_refl eq_refl) as (H1 & _ & H2 & _).
  split; assumption.
Defined.

(** C3 (as amended).  For the cache restore made by a run: on a hit no
    download call occurs and a returned result has [restoredFromCache = true]
    and no [downloadUrl]; on a miss or an error a warning is logged, the run
    goes on exactly as after a plain miss, the download call occurs exactly
    when [getDownloadUrl] returns on the resolved release, and a returned
    result has [restoredFromCache = false] and the URL that was downloaded. *)
Theorem cache_restore_decides_download (w : World)
  (inputs : InputHelper.ISourceInputs) (paths : list string) (key : string) :
  let run := Install w inputs in
  In (RestoreCache paths key) (trace run) ->
  match cache_restoreCache w paths key with
  | Ok (Some _) =>
      download_called (trace run) = false /\
      forall r, result_of run = Returned r ->
                restoredFromCache r = true /\ downloadUrl r = None
  | answer =>
      In (Warning (restore_warning answer)) (trace run) /\
      similar run (Install (with_restoreCache (fun _ _ => Ok None) w) inputs) /\
      (download_called (trace run) = true <->
       exists releaseMetadata located,
         result_of (getReleaseMetadata w (InputHelper.version inputs)) =
           Returned releaseMetadata /\
         result_of (getDownloadUrl w releaseMetadata) = Returned located) /\
      forall r, result_of run = Returned r ->
                restoredFromCache r = false /\
                exists url dest, downloadUrl r = Some url /\
                                 In (DownloadTool url dest) (trace run)
  end.
Proof.
  intros run Hin. subst run.
  apply restore_call_inv in Hin as (r & Hr & -> & ->).
  pose proof (resolve_stage_footprint w inputs) as Hfp.
  assert (has_kind DownloadCall (trace (resolve_stage w inputs)) = false) as Hres
    by (eapply footprint_has_kind; [exact Hfp | now apply not_elem_kind]).
  assert (forall b u, has_kind DownloadCall (trace (conclude w r b u)) = false) as Hcon.
  { intros b u. eapply footprint_has_kind; [apply conclude_footprint|].
    now apply not_elem_kind. }
  destruct (resolve_stage_returned_inv w inputs r Hr) as (Hrm & _).
  assert (forall b, has_kind DownloadCall (trace (fresh_install w r ≫= conclude w r b)) =
                    has_kind DownloadCall (trace (fresh_install w r))) as Hfresh.
  { intros b. rewrite has_kind_bind.
    destruct (result_of (fresh_install w r)); rewrite ?Hcon; apply orb_false_r. }
  assert (forall answer,
            cache_restoreCache w [r_pathToInstall r] (r_cacheKey r) = answer ->
            (forall k, answer <> Ok (Some k)) ->
            In (Warning (restore_warning answer)) (trace (Install w inputs)) /\
            similar (Install w inputs)
                    (Install (with_restoreCache (fun _ _ => Ok None) w) inputs) /\
            (download_called (trace (Install w inputs)) = true <->
             exists releaseMetadata located,
               result_of (getReleaseMetadata w (InputHelper.version inputs)) =
                 Returned releaseMetadata /\
               result_of (getDownloadUrl w releaseMetadata) = Returned located) /\
            forall r0, result_of (Install w inputs) = Returned r0 ->
                restoredFromCache r0 = false /\
                exists url dest, downloadUrl r0 = Some url /\
                                 In (DownloadTool url dest) (trace (Install w inputs)))
    as Hmiss.
  { intros answer E Hno. rewrite <- E in Hno.
    rewrite Install_unfold, Hr, (install_stage_no_hit w r Hno), E. cbv zeta.
    cbn [trace result_of fst snd]. repeat split.
    - apply in_or_app. right. cbn. auto.
    - rewrite (Install_stages (with_restoreCache _ w)), resolve_stage_with_restoreCache.
      rewrite (bind_unfold (resolve_stage w inputs)), Hr. cbn [result_of snd].
      rewrite install_stage_unfold. reflexivity.
    - rewrite (Install_stages (with_restoreCache _ w)), resolve_stage_with_restoreCache.
      rewrite (bind_unfold (resolve_stage w inputs)), Hr. cbn [trace fst].
      rewrite install_stage_unfold. cbv zeta. cbn [trace fst].
      rewrite !effects_app. reflexivity.
    - unfold download_called. rewrite !has_kind_app, Hres, Hfresh.
      rewrite fresh_install_download. cbn [has_kind existsb kind_of orb].
      intros H. exists (r_metadata r).
      destruct (result_of (getDownloadUrl w (r_metadata r))) as [located| |] eqn:El;
        [now exists located | discriminate | discriminate].
    - intros (rm & located & Hrm' & Hl).
      assert (rm = r_metadata r) as -> by congruence.
      unfold download_called. rewrite !has_kind_app, Hfresh.
      rewrite fresh_install_download, Hl. now rewrite !orb_true_r.
    - apply bind_returned_inv in H as (u & Hu & Hc & _).
      rewrite conclude_unfold in Hc. cbv zeta in Hc.
      destruct (exec_getExecOutput w _ _); [|discriminate].
      injection Hc as <-. reflexivity.
    - apply bind_returned_inv in H as (u & Hu & Hc & ->).
      rewrite conclude_unfold in Hc. cbv zeta in Hc.
      destruct (exec_getExecOutput w TOOL_NAME TOOL_VERSION_ARG) eqn:Ev; [|discriminate].
      injection Hc as <-. cbn [downloadUrl].
      destruct (fresh_install_returned_inv w r u Hu) as (url & dl & _ & -> & ->).
      eexists _, _. split; [reflexivity|].
      apply in_or_app. right. apply in_or_app. right.
      apply in_or_app. left. cbn. left. reflexivity. }
  destruct (cache_restoreCache w [r_pathToInstall r] (r_cacheKey r)) as [[k|]|n msg] eqn:E.
  - rewrite Install_unfold, Hr, install_stage_unfold, E. cbv zeta.
    cbn [trace result_of fst snd]. split.
    + unfold download_called. rewrite !has_kind_app, Hres, Hcon. reflexivity.
    + intros r0 H. rewrite conclude_unfold in H. cbv zeta in H.
      destruct (exec_getExecOutput w _ _); [|discriminate].
      injection H as <-. split; reflexivity.
  - apply (Hmiss (Ok None) eq_refl). discriminate.
  - apply (Hmiss (Fail n msg) eq_refl). discriminate.
Qed.

(** C3, witness of the amended statement: a miss logs the warning. *)
Lemma cache_restore_decides_download_witness :
  let w := Examples.runner "x64" (Ok None) (Ok 42%Z) (Ok "1.0.0") in
  In (Warning "Cache for StaticSitesClient not found")
     (trace (Install w (Examples.inputs_for "stable"))) /\
  download_called (trace (Install w (Examples.inputs_for "stable"))) = true.
Proof.
  intros w.
  pose proof (cache_restore_decides_download w (Examples.inputs_for "stable")
    ["/home/runner/work/_temp/StaticSitesClient-1.0.0-stable"]
    "StaticSitesClient-1.0.0-stable-linux-x64-jammy-cache") as H.
  cbv zeta in H. change (cache_restoreCache w _ _) with (@Ok (option string) None) in H.
  cbv iota in H. destruct H as (H1 & _ & H2 & _); [vm_compute; tauto|].
  split; [exact H1|]. apply H2. eexists _, _. split; vm_compute; reflexivity.
Defined.

(** C3, counterexample: on ['arm64'] the restore reports a miss and no
    download call follows. *)
Lemma cache_miss_without_download :
  let w := Examples.runner "arm64" (Ok None) (Ok 42%Z) (Ok "1.0.0") in
  let paths := ["/home/runner/work/_temp/StaticSitesClient-1.0.0-stable"] in
  let key := "StaticSitesClient-1.0.0-stable-linux-arm64-jammy-cache" in
  In (RestoreCache paths key) (trace (Install w (Examples.inputs_for "stable"))) /\
  cache_restoreCache w paths key = Ok None /\
  download_called (trace (Install w (Examples.inputs_for "stable"))) = false.
Proof. split; [vm_compute; tauto|]. split; vm_compute; reflexivity. Qed.

(** C4 (as amended).  On any architecture other than ['x64'] no download call
    is ever made, and a run that reaches the cache restore without a hit
    ends with the unsupported-architecture failure and [process.exit()]. *)
Theorem unsupported_arch_never_downloads (w : World)
  (inputs : InputHelper.ISourceInputs) :
  process_arch w <> "x64" ->
  download_called (trace (Install w inputs)) = false /\
  forall paths key,
    In (RestoreCache paths key) (trace (Install w inputs)) ->
    (forall k, cache_restoreCache w paths key <> Ok (Some k)) ->
    result_of (Install w inputs) = Exited /\
    exists pre,
      trace (Install w inputs) =
      pre ++ [SetFailed ("Unsupported architecture: " +:+ process_arch w); ProcessExit].
Proof.
  intros Harch. split.
  - rewrite Install_unfold. unfold download_called.
    pose proof (resolve_stage_footprint w inputs) as Hfp.
    assert (has_kind DownloadCall (trace (resolve_stage w inputs)) = false) as H1
      by (eapply footprint_has_kind; [exact Hfp | now apply not_elem_kind]).
    destruct (result_of (resolve_stage w inputs)) as [r|e|]; cbn [trace fst];
      try exact H1.
    rewrite has_kind_app, H1, install_stage_unfold. cbv zeta.
    assert (forall b u, has_kind DownloadCall (trace (conclude w r b u)) = false) as H2.
    { intros b u. eapply footprint_has_kind; [apply conclude_footprint|].
      now apply not_elem_kind. }
    rewrite (fresh_install_unsupported_arch w r Harch).
    destruct (cache_restoreCache w _ _) as [[k|]|n msg]; cbn [trace fst];
      rewrite has_kind_app; [rewrite H2|..]; reflexivity.
  - intros paths key Hin Hmiss.
    apply restore_call_inv in Hin as (r & Hr & -> & ->).
    rewrite Install_unfold, Hr, install_stage_unfold. cbv zeta.
    rewrite (fresh_install_unsupported_arch w r Harch).
    destruct (cache_restoreCache w _ _) as [[k|]|n msg] eqn:E;
      [exfalso; now apply (Hmiss k) | |];
      (split; [reflexivity|]); cbn [trace fst];
      eexists; rewrite app_assoc; reflexivity.
Qed.

Lemma unsupported_arch_never_downloads_witness :
  let w := Examples.runner "arm64" (Ok None) (Ok 42%Z) (Ok "1.0.0") in
  download_called (trace (Install w (Examples.inputs_for "stable"))) = false /\
  result_of (Install w (Examples.inputs_for "stable")) = Exited.
Proof.
  intros w.
  destruct (unsupported_arch_never_downloads w (Examples.inputs_for "stable"))
    as [H1 H2]; [discriminate|].
  split; [exact H1|].
  refine (proj1 (H2 ["/home/runner/work/_temp/StaticSitesClient-1.0.0-stable"]
                    "StaticSitesClient-1.0.0-stable-linux-arm64-jammy-cache" _ _)).
  - vm_compute. tauto.
  - intros k. discriminate.
Defined.

(** C4, counterexample: on ['arm64'] with a cache hit the run does not halt;
    it returns a result. *)
Lemma unsupported_arch_may_succeed :
  let w := Examples.runner "arm64" (Ok (Some "hit")) (Ok 42%Z) (Ok "1.0.0") in
  process_arch w <> "x64" /\
  exists r, result_of (Install w (Examples.inputs_for "stable")) = Returned r.
Proof. split; [discriminate|]. eexists. vm_compute. reflexivity. Qed.

(** C5.  The cache key is the string of the specification, computed from
    the version marker, the platform, the architecture and, on Linux only,
    the codename; equal inputs give equal keys and inputs that differ in
    exactly one component give different keys. *)
Theorem cache_key_deterministic_and_sensitive :
  (forall w v,
     result_of (getCacheKey w v) =
     if String.eqb (process_platform w) "linux" then
       match exec_getExecOutput w "lsb_release" ["-cs"] with
       | Ok stdout =>
           Returned (cache_key TOOL_NAME v (process_platform w) (process_arch w)
                       (Some (JsString.trim stdout)))
       | Fail n message => Threw (ErrorInstance n message)
       end
     else Returned (cache_key TOOL_NAME v (process_platform w) (process_arch w) None)) /\
  (forall w1 w2 v1 v2 k1 k2,
     result_of (getCacheKey w1 v1) = Returned k1 ->
     result_of (getCacheKey w2 v2) = Returned k2 ->
     (cache_key_inputs w1 v1 = cache_key_inputs w2 v2 -> k1 = k2) /\
     (differ_in_one (cache_key_inputs w1 v1) (cache_key_inputs w2 v2) -> k1 <> k2)).
Proof.
  split; [apply getCacheKey_result|].
  intros w1 w2 v1 v2 k1 k2 H1 H2.
  apply getCacheKey_returned in H1, H2.
  destruct (cache_key_inputs w1 v1) as [[[v os] a] c].
  destruct (cache_key_inputs w2 v2) as [[[v' os'] a'] c'].
  destruct H1 as [-> L1], H2 as [-> L2]. split.
  - intros [= -> -> -> ->]. reflexivity.
  - intros [(Hne & -> & -> & ->)|[(-> & Hne & -> & ->)|[(-> & -> & Hne & ->)|(-> & -> & -> & Hne)]]] E.
    + now apply cache_key_inj_version in E.
    + now apply cache_key_inj_os in E.
    + now apply cache_key_inj_arch in E.
    + destruct c as [x|], c' as [x'|].
      * apply cache_key_inj_codename in E. congruence.
      * destruct L2 as [L2 _]. apply L1 in L2; [discriminate | reflexivity].
      * destruct L1 as [L1 _]. apply L2 in L1; [discriminate | reflexivity].
      * now apply Hne.
Qed.

Lemma cache_key_deterministic_and_sensitive_witness :
  let w1 := Examples.runner "x64" (Ok None) (Ok 42%Z) (Ok "1.0.0") in
  let w2 := Examples.runner "arm64" (Ok None) (Ok 42%Z) (Ok "1.0.0") in
  "StaticSitesClient-1.0.0-stable-linux-x64-jammy-cache" <>
  "StaticSitesClient-1.0.0-stable-linux-arm64-jammy-cache".
Proof.
  intros w1 w2.
  refine (proj2 (proj2 cache_key_deterministic_and_sensitive
                   w1 w2 "1.0.0-stable" "1.0.0-stable" _ _ eq_refl eq_refl) _).
  right. right. left. repeat split. discriminate.
Defined.

(** C6 (as amended).  When the cache restore hits, no platform or
    architecture validation takes place: no failure is reported, and the run
    returns its result exactly when the diagnostic version query succeeds;
    a failure of that query propagates. *)
Theorem cache_hit_skips_validation (w : World) (inputs : InputHelper.ISourceInputs)
  (paths : list string) (key k : string) :
  In (RestoreCache paths key) (trace (Install w inputs)) ->
  cache_restoreCache w paths key = Ok (Some k) ->
  no_failure_reported (trace (Install w inputs)) = true /\
  match exec_getExecOutput w TOOL_NAME TOOL_VERSION_ARG with
  | Ok _ =>
      exists r, result_of (Install w inputs) = Returned r /\
                restoredFromCache r = true /\ downloadUrl r = None
  | Fail n message =>
      result_of (Install w inputs) = Threw (ErrorInstance n message)
  end.
Proof.
  intros Hin Hhit.
  apply restore_call_inv in Hin as (r & Hr & -> & ->).
  rewrite Install_unfold, Hr, install_stage_unfold, Hhit. cbv zeta.
  cbn [trace result_of fst snd]. split.
  - unfold no_failure_reported. rewrite !has_kind_app.
    rewrite (footprint_has_kind _ Failure _ (resolve_stage_returned_quiet w inputs r Hr))
      by now apply not_elem_kind.
    rewrite (footprint_has_kind _ Failure _ (conclude_footprint w r true None))
      by now apply not_elem_kind.
    reflexivity.
  - rewrite conclude_unfold. cbv zeta.
    destruct (exec_getExecOutput w TOOL_NAME TOOL_VERSION_ARG); cbn [snd].
    + eexists. split; [reflexivity|]. split; reflexivity.
    + reflexivity.
Qed.

Lemma cache_hit_skips_validation_witness :
  let w := Examples.runner "arm64" (Ok (Some "hit")) (Ok 42%Z) (Ok "1.0.0") in
  no_failure_reported (trace (Install w (Examples.inputs_for "stable"))) = true.
Proof.
  intros w.
  refine (proj1 (cache_hit_skips_validation w (Examples.inputs_for "stable")
    ["/home/runner/work/_temp/StaticSitesClient-1.0.0-stable"]
    "StaticSitesClient-1.0.0-stable-linux-arm64-jammy-cache" "hit" _ _)).
  - vm_compute. tauto.
  - reflexivity.
Defined.

(** C6, counterexample: a cache hit whose diagnostic version query fails
    does not return successfully. *)
Lemma cache_hit_may_fail :
  let w := Examples.runner "arm64" (Ok (Some "hit")) (Ok 42%Z)
             (Fail "Error" "Unable to locate executable file: StaticSitesClient") in
  In (RestoreCache ["/home/runner/work/_temp/StaticSitesClient-1.0.0-stable"]
        "StaticSitesClient-1.0.0-stable-linux-arm64-jammy-cache")
     (trace (Install w (Examples.inputs_for "stable"))) /\
  result_of (Install w (Examples.inputs_for "stable")) =
  Threw (ErrorInstance "Error" "Unable to locate executable file: StaticSitesClient").
Proof. split; [vm_compute; tauto | vm_compute; reflexivity]. Qed.

(** C7 (code bug).  The local [getBooleanInput] hands ['true'] or ['false']
    to [core.getBooleanInput] as the NAME of the input to read.  In a run
    that sets the "execute" input and no input called "true" or "false",
    every raw string, truthy or not, ends in the [TypeError] of an input
    that is not a boolean; no flag is returned. *)
Theorem execute_flag_reads_wrong_input (w : World) (raw : string) :
  process_env w !! "INPUT_EXECUTE" = Some raw ->
  process_env w !! "INPUT_TRUE" = None ->
  process_env w !! "INPUT_FALSE" = None ->
  core_getInput w "execute" = JsString.trim raw /\
  InputHelper.getBooleanInput w "execute" =
  throw (TypeError
    ("Input does not meet YAML 1.2 " +:+ dquote +:+ "Core Schema" +:+ dquote +:+
     " specification: " +:+
     (if Spec.truthy (JsString.trim raw) then "true" else "false") +:+ newline +:+
     "Support boolean input list: `true | True | TRUE | false | False | FALSE`")).
Proof.
  intros Hraw Htrue Hfalse.
  assert (core_getInput w "execute" = JsString.trim raw) as Hin.
  { unfold core_getInput, env_or.
    change ("INPUT_" +:+ JsString.toUpperCase (JsString.replace_char " " "_" "execute"))
      with "INPUT_EXECUTE".
    rewrite Hraw. now destruct raw. }
  split; [exact Hin|].
  unfold InputHelper.getBooleanInput. rewrite Hin. unfold Spec.truthy.
  destruct (JsString.includes _ (JsString.trim raw));
    apply core_getBooleanInput_absent, core_getInput_absent; assumption.
Qed.

Lemma execute_flag_reads_wrong_input_witness :
  let w := Examples.runner "x64" (Ok None) (Ok 42%Z) (Ok "1.0.0") in
  Spec.truthy "true" = true /\
  result_of (InputHelper.getBooleanInput w "execute") =
  Threw (TypeError
    ("Input does not meet YAML 1.2 " +:+ dquote +:+ "Core Schema" +:+ dquote +:+
     " specification: true" +:+ newline +:+
     "Support boolean input list: `true | True | TRUE | false | False | FALSE`")).
Proof.
  intros w. split; [reflexivity|].
  destruct (execute_flag_reads_wrong_input w "true" eq_refl eq_refl eq_refl) as [_ H].
  rewrite H. reflexivity.
Defined.

(** With these inputs the action fails before [Install] is called. *)
Lemma main_fails_on_execute_input (w : World) (raw : string) :
  process_env w !! "INPUT_TRUE" = None ->
  process_env w !! "INPUT_FALSE" = None ->
  exists message, MainTs.main w = ([SetFailed message], Returned tt).
Proof.
  intros H2 H3.
  unfold MainTs.main, InputHelper.getInputs, InputHelper.getBooleanInput.
  destruct (JsString.includes _ _);
    rewrite core_getBooleanInput_absent by (apply core_getInput_absent; assumption);
    eexists; reflexivity.
Qed.

(** C8 (corrected).  A failure of the cache save is logged as a warning and
    does not fail the run: no failure is reported, and the run ends exactly
    as it does when the save succeeds, with the same calls in the same
    order (only the log lines differ).  Whether [Install] returns is
    decided by the version query that follows the save: when it answers,
    the result of the fresh install is returned; when it fails, its error
    is thrown. *)
Theorem save_failure_never_fails_run (w : World) (inputs : InputHelper.ISourceInputs)
  (paths : list string) (key n message : string) (cacheId : Z) :
  let run := Install w inputs in
  In (SaveCache paths key) (trace run) ->
  cache_saveCache w paths key = Fail n message ->
  In (Warning message) (trace run) /\
  result_of run =
    result_of (Install (with_saveCache (fun _ _ => Ok cacheId) w) inputs) /\
  effects (trace run) =
    effects (trace (Install (with_saveCache (fun _ _ => Ok cacheId) w) inputs)) /\
  no_failure_reported (trace run) = true /\
  match exec_getExecOutput w TOOL_NAME TOOL_VERSION_ARG with
  | Ok _ =>
      exists r, result_of run = Returned r /\
                restoredFromCache r = false /\
                exists url, downloadUrl r = Some url
  | Fail n' message' => result_of run = Threw (ErrorInstance n' message')
  end.
Proof.
  intros run Hin Hfail. subst run. split.
  { apply (save_call_inv w inputs paths key Hin).
    rewrite trySaveToCache_spec, Hfail. cbn. auto. }
  destruct (Install_save_irrelevant (fun _ _ => Ok cacheId) w inputs) as [H1 H2].
  split; [congruence|]. split; [congruence|]. clear H1 H2.
  destruct (save_reached w inputs paths key Hin)
    as (rs & url & dl & Hrs & -> & -> & Hmiss & Hret & Ht).
  cbv zeta in Ht.
  rewrite (Install_trace_after_resolve w inputs rs Hrs).
  destruct (install_stage_miss w rs Hmiss) as (warning & ->).
  rewrite (bind_returned _ _ _ Hret). cbn [trace result_of fst snd].
  rewrite conclude_unfold. cbv zeta. split.
  - unfold no_failure_reported. rewrite !has_kind_app.
    rewrite (footprint_has_kind _ Failure _ (resolve_stage_returned_quiet w inputs rs Hrs))
      by now apply not_elem_kind.
    rewrite Ht, has_kind_app, trySaveToCache_spec, Hfail.
    destruct (exec_getExecOutput w TOOL_NAME TOOL_VERSION_ARG); reflexivity.
  - destruct (exec_getExecOutput w TOOL_NAME TOOL_VERSION_ARG); cbn [result_of snd].
    + eexists. split; [reflexivity|]. split; [reflexivity|]. eexists. reflexivity.
    + reflexivity.
Qed.

Lemma save_failure_never_fails_run_witness :
  let w := Examples.runner "x64" (Ok None)
             (Fail "ReserveCacheError" "Unable to reserve cache") (Ok "1.0.0") in
  In (Warning "Unable to reserve cache")
     (trace (Install w (Examples.inputs_for "stable"))) /\
  no_failure_reported (trace (Install w (Examples.inputs_for "stable"))) = true /\
  exists r, result_of (Install w (Examples.inputs_for "stable")) = Returned r /\
            result_of (Install (with_saveCache (fun _ _ => Ok 42%Z) w)
                         (Examples.inputs_for "stable")) = Returned r.
Proof.
  intros w.
  destruct (save_failure_never_fails_run w (Examples.inputs_for "stable")
    ["/home/runner/work/_temp/StaticSitesClient-1.0.0-stable"]
    "StaticSitesClient-1.0.0-stable-linux-x64-jammy-cache"
    "ReserveCacheError" "Unable to reserve cache" 42%Z) as (H1 & H2 & _ & H4 & _).
  - vm_compute. tauto.
  - reflexivity.
  - split; [exact H1|]. split; [exact H4|]. rewrite <- H2. eexists. split; [|reflexivity].
    vm_compute. reflexivity.
Defined.

(** C8, counterexample: a run whose cache save fails and whose version
    query then fails does not return a result: the warning is logged and
    [Install] throws the error of the query. *)
Lemma save_failure_then_query_failure :
  let w := Examples.runner "x64" (Ok None)
             (Fail "ReserveCacheError" "Unable to reserve cache")
             (Fail "Error" "Unable to locate executable file: StaticSitesClient") in
  let run := Install w (Examples.inputs_for "stable") in
  In (SaveCache ["/home/runner/work/_temp/StaticSitesClient-1.0.0-stable"]
        "StaticSitesClient-1.0.0-stable-linux-x64-jammy-cache") (trace run) /\
  In (Warning "Unable to reserve cache") (trace run) /\
  result_of run =
  Threw (ErrorInstance "Error" "Unable to locate executable file: StaticSitesClient").
Proof.
  split; [vm_compute; tauto|]. split; [vm_compute; tauto | vm_compute; reflexivity].
Qed.







End Claims.

(* ===================================================================== *)
(** * Further properties of the action *)
(* ===================================================================== *)

Module Extras.
Import Js Host InstallTs Observe Stages CacheKeySpec.
Import MonadFacts StageFacts RunFacts CacheKeyFacts InputFacts.
Import Probes Worlds LowerCaseFacts MainFacts ShapeFacts OrderFacts.

(** X1.  Whenever [getInputs] returns, the version specifier it hands on is
    not empty, has no capital letter and is left as it is by another
    [toLowerCase]: it is the lower-cased "version" input, or ["stable"]
    when that input is absent or empty. *)
Theorem getInputs_version_normalized (w : World) (inputs : InputHelper.ISourceInputs) :
  result_of (InputHelper.getInputs w) = Returned inputs ->
  let raw := core_getInput w "version" in
  InputHelper.version inputs <> EmptyString /\
  has_upper (InputHelper.version inputs) = false /\
  JsString.toLowerCase (InputHelper.version inputs) = InputHelper.version inputs /\
  (raw = EmptyString -> InputHelper.version inputs = "stable") /\
  (raw <> EmptyString -> InputHelper.version inputs = JsString.toLowerCase raw).
Proof.
  unfold InputHelper.getInputs. cbv zeta. intros H.
  apply bind_returned_inv in H as (b & _ & H & _).
  injection H as <-. cbn [InputHelper.version].
  set (raw := core_getInput w "version").
  assert (has_upper (JsString.or_else (JsString.toLowerCase raw) "stable") = false) as Hup.
  { pose proof (toLowerCase_no_upper raw) as Hl.
    destruct (JsString.toLowerCase raw); [reflexivity | exact Hl]. }
  split; [|split; [exact Hup | split; [now apply toLowerCase_fixed|]]].
  - destruct raw; cbn; discriminate.
  - split; [now intros ->|]. intros Hne. destruct raw; [contradiction|reflexivity].
Qed.

Lemma getInputs_version_normalized_witness :
  let w := runner_with_inputs "  Stable " "false" in
  let inputs := {| InputHelper.version := "stable"; InputHelper.execute := false |} in
  result_of (InputHelper.getInputs w) = Returned inputs /\
  has_upper (InputHelper.version inputs) = false.
Proof.
  intros w inputs.
  assert (result_of (InputHelper.getInputs w) = Returned inputs) as Hr
    by (vm_compute; reflexivity).
  split; [exact Hr|].
  exact (proj1 (proj2 (getInputs_version_normalized w inputs Hr))).
Defined.

(** X2.  In a workflow that also defines inputs called "true" and "false"
    holding their own names, [getBooleanInput] returns exactly whether the
    raw input is one of ['true'], ['True'], ['TRUE'], ['1']. *)
Theorem getBooleanInput_with_named_inputs (w : World) (name : string) :
  process_env w !! "INPUT_TRUE" = Some "true" ->
  process_env w !! "INPUT_FALSE" = Some "false" ->
  InputHelper.getBooleanInput w name = mret (Spec.truthy (core_getInput w name)).
Proof.
  intros Ht Hf. unfold InputHelper.getBooleanInput, Spec.truthy.
  assert (core_getInput w "true" = "true") as Et
    by (unfold core_getInput, env_or;
        change ("INPUT_" +:+ JsString.toUpperCase (JsString.replace_char " " "_" "true"))
          with "INPUT_TRUE"; now rewrite Ht).
  assert (core_getInput w "false" = "false") as Ef
    by (unfold core_getInput, env_or;
        change ("INPUT_" +:+ JsString.toUpperCase (JsString.replace_char " " "_" "false"))
          with "INPUT_FALSE"; now rewrite Hf).
  destruct (JsString.includes _ (core_getInput w name));
    unfold core_getBooleanInput; [rewrite Et | rewrite Ef]; reflexivity.
Qed.

Lemma getBooleanInput_with_named_inputs_witness :
  InputHelper.getBooleanInput (runner_with_inputs "stable" "TRUE") "execute" = mret true /\
  InputHelper.getBooleanInput (runner_with_inputs "stable" "yes") "execute" = mret false.
Proof.
  split.
  - exact (getBooleanInput_with_named_inputs (runner_with_inputs "stable" "TRUE")
             "execute" eq_refl eq_refl).
  - exact (getBooleanInput_with_named_inputs (runner_with_inputs "stable" "yes")
             "execute" eq_refl eq_refl).
Defined.

(** X3.  [main] never throws: an error thrown while reading the inputs,
    installing or executing is caught by the one top-level handler, which
    reports its message with [setFailed] as the last thing the run does. *)
Theorem main_never_throws (w : World) :
  (forall e, result_of (MainTs.main w) <> Threw e) /\
  (forall inputs n message,
     result_of (InputHelper.getInputs w) = Returned inputs ->
     result_of (Install w inputs) = Threw (ErrorInstance n message) ->
     result_of (MainTs.main w) = Returned tt /\
     trace (MainTs.main w) = trace (Install w inputs) ++ [SetFailed message]).
Proof.
  unfold MainTs.main. split.
  - intros e. rewrite try_catch_unfold.
    match goal with |- context [match result_of ?m with _ => _ end] =>
      destruct (result_of m) as [a|x|] eqn:E end.
    + rewrite E. discriminate.
    + destruct x; discriminate.
    + rewrite E. discriminate.
  - intros inputs n message Hi Hr. rewrite try_catch_unfold.
    rewrite (bind_returned _ _ _ Hi). rewrite getInputs_trace.
    cbn [result_of trace fst snd app].
    rewrite (bind_threw _ _ _ Hr). cbn [result_of trace fst snd when_error emit].
    split; reflexivity.
Qed.

Lemma main_never_throws_witness :
  let w := runner_with_inputs "nightly" "false" in
  result_of (MainTs.main w) = Returned tt /\
  In (SetFailed "Cannot read properties of undefined (reading 'buildId')")
     (trace (MainTs.main w)).
Proof.
  intros w.
  destruct (proj2 (main_never_throws w)
              {| InputHelper.version := "nightly"; InputHelper.execute := false |}
              "TypeError" "Cannot read properties of undefined (reading 'buildId')"
              eq_refl eq_refl) as [H1 H2].
  split; [exact H1|]. rewrite H2. apply in_or_app. right. now left.
Defined.

(** X4.  [main] runs a command without arguments only to execute the
    installed tool, and only when the "execute" flag was read as true and
    [Install] returned; in that case it always does. *)
Theorem main_executes_only_after_install (w : World) :
  (forall command,
     In (ExecOutput command []) (trace (MainTs.main w)) ->
     command = TOOL_NAME /\
     exists inputs r,
       result_of (InputHelper.getInputs w) = Returned inputs /\
       InputHelper.execute inputs = true /\
       result_of (Install w inputs) = Returned r) /\
  (forall inputs r,
     result_of (InputHelper.getInputs w) = Returned inputs ->
     InputHelper.execute inputs = true ->
     result_of (Install w inputs) = Returned r ->
     In (ExecOutput TOOL_NAME []) (trace (MainTs.main w))).
Proof.
  assert (forall i c, ~ In (ExecOutput c []) (trace (Install w i))) as Hno.
  { intros i c Hin. pose proof (Install_no_bare_exec w i) as H.
    rewrite forallb_forall in H. now apply H in Hin. }
  unfold MainTs.main. split.
  - intros command Hin. apply in_try_catch in Hin as [Hin|(x & _ & Hin)].
    2:{ destruct x; cbn in Hin; intuition discriminate. }
    apply in_bind_trace in Hin as [Hin|(inputs & Hi & Hin)];
      [now rewrite getInputs_trace in Hin|].
    apply in_bind_trace in Hin as [Hin|(r & Hr & Hin)]; [now apply Hno in Hin|].
    destruct (InputHelper.execute inputs) eqn:Hx; [|destruct Hin].
    rewrite Execute_trace in Hin. destruct Hin as [Hin|[]]. injection Hin as <-.
    split; [now apply (Install_returned_name w inputs) | now exists inputs, r].
  - intros inputs r Hi Hx Hr. apply in_try_catch. left.
    apply in_bind_trace. right. exists inputs. split; [exact Hi|].
    apply in_bind_trace. right. exists r. split; [exact Hr|].
    rewrite Hx, Execute_trace, (Install_returned_name w inputs r Hr). now left.
Qed.

Lemma main_executes_only_after_install_witness :
  In (ExecOutput "StaticSitesClient" [])
     (trace (MainTs.main (runner_with_inputs "stable" "true"))).
Proof.
  eapply (proj2 (main_executes_only_after_install (runner_with_inputs "stable" "true"))
            {| InputHelper.version := "stable"; InputHelper.execute := true |}).
  - reflexivity.
  - reflexivity.
  - vm_compute. reflexivity.
Defined.

(** X5.  A run saves to the cache only under the path and key of its own
    cache restore, and only when that restore did not hit. *)
Theorem save_uses_the_key_that_missed (w : World) (inputs : InputHelper.ISourceInputs)
  (paths : list string) (key : string) :
  In (SaveCache paths key) (trace (Install w inputs)) ->
  In (RestoreCache paths key) (trace (Install w inputs)) /\
  (forall k, cache_restoreCache w paths key <> Ok (Some k)) /\
  (forall paths' key',
     In (RestoreCache paths' key') (trace (Install w inputs)) ->
     paths' = paths /\ key' = key).
Proof.
  intros H.
  destruct (save_reached w inputs paths key H)
    as (rs & url & dl & Hrs & -> & -> & Hmiss & _ & _).
  split; [|split; [exact Hmiss|]].
  - rewrite (Install_trace_after_resolve w inputs rs Hrs). cbn [trace fst].
    destruct (install_stage_miss w rs Hmiss) as (warning & ->). cbn [trace fst].
    apply in_or_app. right. now left.
  - intros paths' key' H'.
    apply restore_call_inv in H' as (rs' & Hrs' & -> & ->).
    assert (rs' = rs) as -> by congruence. now split.
Qed.

Lemma save_uses_the_key_that_missed_witness :
  let w := Examples.runner "x64" (Ok None) (Ok 42%Z) (Ok "1.0.0") in
  In (RestoreCache ["/home/runner/work/_temp/StaticSitesClient-1.0.0-stable"]
        "StaticSitesClient-1.0.0-stable-linux-x64-jammy-cache")
     (trace (Install w (Examples.inputs_for "stable"))).
Proof.
  intros w.
  refine (proj1 (save_uses_the_key_that_missed w (Examples.inputs_for "stable")
    ["/home/runner/work/_temp/StaticSitesClient-1.0.0-stable"]
    "StaticSitesClient-1.0.0-stable-linux-x64-jammy-cache" _)).
  vm_compute. tauto.
Defined.



(** X7.  A failed download ends the run with [setFailed] and
    [process.exit()]: nothing is extracted, nothing is saved to the cache
    and the install path is not put on the search path. *)
Theorem download_failure_is_fatal (w : World) (inputs : InputHelper.ISourceInputs)
  (url dest n message : string) :
  let run := Install w inputs in
  In (DownloadTool url dest) (trace run) ->
  toolCache_downloadTool w url dest = Fail n message ->
  result_of run = Exited /\
  (exists pre,
     trace run =
     pre ++ [DownloadTool url dest;
             SetFailed ("Could not download " +:+ TOOL_NAME +:+ " from " +:+ url +:+
                        ", error: " +:+ message);
             ProcessExit]) /\
  has_kind FsCall (trace run) = false /\
  has_kind SaveCall (trace run) = false /\
  has_kind PathCall (trace run) = false.
Proof.
  intros run H Hfail. subst run.
  destruct (download_reached w inputs url dest H)
    as (rs & located & Hrs & Hmiss & Hloc & -> & ->).
  rewrite (Install_trace_after_resolve w inputs rs Hrs). cbn [trace result_of fst snd].
  destruct (install_stage_miss w rs Hmiss) as (warning & ->).
  cbn [trace result_of fst snd].
  assert (fresh_install w rs =
          ([DownloadTool (href located.1)
              (path_join w [TEMP_DIRECTORY w; uuid w; located.2]);
            SetFailed ("Could not download " +:+ TOOL_NAME +:+ " from " +:+
                       href located.1 +:+ ", error: " +:+ message);
            ProcessExit], Exited)) as Hf
    by (rewrite fresh_install_unfold, Hloc; cbv zeta; now rewrite Hfail).
  rewrite (bind_exited _ _ (f_equal snd Hf)), Hf. cbn [trace result_of fst snd].
  split; [reflexivity|]. split.
  - exists (trace (resolve_stage w inputs) ++
            [RestoreCache [r_pathToInstall rs] (r_cacheKey rs); Warning warning]).
    now rewrite <- !app_assoc.
  - rewrite !has_kind_app, !has_kind_resolve by reflexivity. repeat split.
Qed.

Lemma download_failure_is_fatal_witness :
  let w := with_downloadTool (fun _ _ => Fail "Error" "Unexpected HTTP response: 404")
             (Examples.runner "x64" (Ok None) (Ok 42%Z) (Ok "1.0.0")) in
  result_of (Install w (Examples.inputs_for "stable")) = Exited.
Proof.
  intros w.
  refine (proj1 (download_failure_is_fatal w (Examples.inputs_for "stable")
    Examples.stable_url
    "/home/runner/work/_temp/0b0e7a52-6f0c-4c0e-9d55-0d3b6a1c2f11/StaticSitesClient"
    "Error" "Unexpected HTTP response: 404" _ eq_refl)).
  vm_compute. tauto.
Defined.

(** X8.  A run restored from the cache touches no file, saves nothing to
    the cache, and puts the restored directory on the search path before it
    asks the tool for its version. *)
Theorem cache_hit_only_registers_path (w : World) (inputs : InputHelper.ISourceInputs)
  (pathToInstall key k : string) :
  let run := Install w inputs in
  In (RestoreCache [pathToInstall] key) (trace run) ->
  cache_restoreCache w [pathToInstall] key = Ok (Some k) ->
  has_kind FsCall (trace run) = false /\
  has_kind SaveCall (trace run) = false /\
  exists pre post,
    trace run =
    pre ++ [RestoreCache [pathToInstall] key;
            Info (TOOL_NAME +:+ " restored from cache: " +:+ k);
            AddPath (core_toPlatformPath w pathToInstall);
            ExecOutput TOOL_NAME TOOL_VERSION_ARG] ++ post.
Proof.
  intros run H Hhit. subst run.
  apply restore_call_inv in H as (rs & Hrs & [= ->] & ->).
  rewrite (Install_trace_after_resolve w inputs rs Hrs), install_stage_unfold, Hhit.
  cbv zeta. cbn [trace fst].
  split; [|split].
  - rewrite !has_kind_app, has_kind_resolve, has_kind_conclude by reflexivity.
    reflexivity.
  - rewrite !has_kind_app, has_kind_resolve, has_kind_conclude by reflexivity.
    reflexivity.
  - rewrite conclude_unfold. cbv zeta.
    destruct (exec_getExecOutput w _ _); cbn [trace fst app];
      eexists _, _; reflexivity.
Qed.

Lemma cache_hit_only_registers_path_witness :
  let w := Examples.runner "x64" (Ok (Some "hit")) (Ok 42%Z) (Ok "1.0.0") in
  has_kind FsCall (trace (Install w (Examples.inputs_for "stable"))) = false.
Proof.
  intros w.
  refine (proj1 (cache_hit_only_registers_path w (Examples.inputs_for "stable")
    "/home/runner/work/_temp/StaticSitesClient-1.0.0-stable"
    "StaticSitesClient-1.0.0-stable-linux-x64-jammy-cache" "hit" _ eq_refl)).
  vm_compute. tauto.
Defined.

(** X9.  On a platform other than Windows, macOS and Linux nothing is ever
    downloaded, extracted or saved to the cache; a run that returns was
    restored from the cache; and on [x64], a run whose restore did not hit
    ends with [setFailed("Unsupported platform: ...")] and
    [process.exit()]. *)
Theorem unsupported_platform_never_installs (w : World)
  (inputs : InputHelper.ISourceInputs) :
  let run := Install w inputs in
  process_platform w <> "win32" ->
  process_platform w <> "darwin" ->
  process_platform w <> "linux" ->
  download_called (trace run) = false /\
  has_kind FsCall (trace run) = false /\
  has_kind SaveCall (trace run) = false /\
  (forall r, result_of run = Returned r -> restoredFromCache r = true) /\
  (process_arch w = "x64" ->
   forall paths key,
     In (RestoreCache paths key) (trace run) ->
     (forall k, cache_restoreCache w paths key <> Ok (Some k)) ->
     result_of run = Exited /\
     exists pre,
       trace run =
       pre ++ [SetFailed ("Unsupported platform: " +:+ process_platform w); ProcessExit]).
Proof.
  intros run H1 H2 H3. subst run.
  pose proof (map_platform_unsupported _ H1 H2 H3) as Hp.
  assert (forall rm located, result_of (getDownloadUrl w rm) <> Returned located) as Hno.
  { intros rm located.
    destruct (String.eqb_spec (process_arch w) "x64") as [Ha|Ha].
    - now rewrite (getDownloadUrl_unsupported_platform w rm Ha Hp).
    - now rewrite (getDownloadUrl_unsupported_arch w rm Ha). }
  destruct (not_located_quiet w inputs) as (Hd & Hf & Hs); [intros; apply Hno|].
  split; [exact Hd|]. split; [exact Hf|]. split; [exact Hs|]. split.
  - intros r Hr. destruct (restoredFromCache r) eqn:Eb; [reflexivity|].
    destruct (fresh_run_trace w inputs r Hr Eb) as (url & dl & pre & post & _ & _ & Ht & _).
    cbv zeta in Ht. rewrite Ht, !has_kind_app in Hf. cbn in Hf.
    rewrite orb_true_r in Hf. discriminate.
  - intros Ha paths key Hin Hmiss.
    destruct (Install_after_miss w inputs paths key Hin Hmiss)
      as (rs & warning & Hrs & -> & -> & ->).
    assert (fresh_install w rs =
            ([SetFailed ("Unsupported platform: " +:+ process_platform w); ProcessExit],
             Exited)) as E.
    { unfold fresh_install. now rewrite (getDownloadUrl_unsupported_platform w _ Ha Hp). }
    rewrite (bind_exited _ _ (f_equal snd E)), E. cbn [trace result_of fst snd].
    split; [reflexivity|]. eexists. reflexivity.
Qed.

Lemma unsupported_platform_never_installs_witness :
  let w := with_host "freebsd" (Ok Examples.versions_json)
             (fun _ _ => Fail "Error" "spawn ENOENT")
             (Examples.runner "x64" (Ok None) (Ok 42%Z) (Ok "1.0.0")) in
  download_called (trace (Install w (Examples.inputs_for "stable"))) = false /\
  result_of (Install w (Examples.inputs_for "stable")) = Exited.
Proof.
  intros w.
  pose proof (unsupported_platform_never_installs w (Examples.inputs_for "stable"))
    as H.
  cbv zeta in H.
  destruct H as (Hd & _ & _ & _ & Hx); [discriminate..|].
  split; [exact Hd|].
  refine (proj1 (Hx eq_refl ["/home/runner/work/_temp/StaticSitesClient-1.0.0-stable"]
                   "StaticSitesClient-1.0.0-stable-freebsd-x64-cache" _ _)).
  - vm_compute. tauto.
  - discriminate.
Defined.

(** X10.  When the release found has no file entry for the platform, the
    read of [url] throws a [TypeError]: a run that did not restore from the
    cache ends with that error right after the restore attempt, without a
    download and without having reported a failure itself. *)
Theorem missing_platform_file_throws (w : World) (inputs : InputHelper.ISourceInputs)
  (entry files : json) (platform : string) :
  let run := Install w inputs in
  result_of (getReleaseMetadata w (InputHelper.version inputs)) = Returned (Some entry) ->
  process_arch w = "x64" ->
  map_platform (process_platform w) = Some platform ->
  prop entry "files" = Some files ->
  files <> JNull ->
  prop files (platform +:+ "-x64") = None ->
  forall paths key,
    In (RestoreCache paths key) (trace run) ->
    (forall k, cache_restoreCache w paths key <> Ok (Some k)) ->
    result_of run =
      Threw (TypeError "Cannot read properties of undefined (reading 'url')") /\
    (exists pre warning, trace run = pre ++ [RestoreCache paths key; Warning warning]) /\
    download_called (trace run) = false /\
    no_failure_reported (trace run) = true.
Proof.
  intros run Hrm Ha Hp Hfiles Hnn Hfile paths key Hin Hmiss. subst run.
  destruct (Install_after_miss w inputs paths key Hin Hmiss)
    as (rs & warning & Hrs & -> & -> & E).
  destruct (resolve_stage_returned_full w inputs rs Hrs)
    as (entry' & _ & _ & Hrm' & Hne & Hmeta & _).
  rewrite Hrm in Hrm'. injection Hrm' as <-.
  assert (getDownloadUrl w (r_metadata rs) =
          ([], Threw (TypeError "Cannot read properties of undefined (reading 'url')")))
    as Hg.
  { unfold getDownloadUrl. rewrite Ha, Hp, Hmeta. cbn [negb String.eqb Ascii.eqb Bool.eqb].
    rewrite !bind_ret_l.
    assert (get_prop (Some entry) "files" = mret (Some files)) as ->
      by (destruct entry; try contradiction; cbn [get_prop]; now rewrite Hfiles).
    rewrite bind_ret_l.
    assert (get_prop (Some files) (platform +:+ "-" +:+ "x64") = mret None) as ->.
    { change (platform +:+ "-" +:+ "x64") with (platform +:+ "-x64") in *.
      destruct files; try contradiction; cbn [get_prop]; now rewrite Hfile. }
    rewrite bind_ret_l. reflexivity. }
  assert (fresh_install w rs =
          ([], Threw (TypeError "Cannot read properties of undefined (reading 'url')")))
    as Hf by (unfold fresh_install; now rewrite Hg).
  rewrite E, (bind_threw _ _ _ (f_equal snd Hf)), Hf. cbn [trace result_of fst snd].
  rewrite app_nil_r.
  pose proof (resolve_stage_returned_quiet w inputs rs Hrs) as Hq.
  split; [reflexivity|]. split; [eauto|]. split.
  - unfold download_called. rewrite has_kind_app.
    rewrite (footprint_has_kind _ DownloadCall _ Hq) by now apply not_elem_kind.
    reflexivity.
  - unfold no_failure_reported. rewrite has_kind_app.
    rewrite (footprint_has_kind _ Failure _ Hq) by now apply not_elem_kind.
    reflexivity.
Qed.

Lemma missing_platform_file_throws_witness :
  let w := with_host "darwin" (Ok Examples.versions_json)
             (fun _ _ => Ok "1.0.0")
             (Examples.runner "x64" (Ok None) (Ok 42%Z) (Ok "1.0.0")) in
  result_of (Install w (Examples.inputs_for "stable")) =
  Threw (TypeError "Cannot read properties of undefined (reading 'url')").
Proof.
  intros w.
  refine (proj1 (missing_platform_file_throws w (Examples.inputs_for "stable")
    (Examples.release "1.0.0" "stable" Examples.stable_url)
    (JObj [("linux-x64", JObj [("url", JStr Examples.stable_url)])]) "osx"
    eq_refl eq_refl eq_refl eq_refl _ eq_refl
    ["/home/runner/work/_temp/StaticSitesClient-1.0.0-stable"]
    "StaticSitesClient-1.0.0-stable-darwin-x64-cache" _ _)).
  - discriminate.
  - vm_compute. tauto.
  - discriminate.
Defined.

(** X11.  When the metadata document is not a non-empty array, [Install]
    reports "Could not fetch release metadata" and ends the process; when
    the request itself fails, [Install] throws that error.  In both cases
    nothing is done after the request: the request is the last call. *)
Theorem unusable_metadata_stops_run (w : World) (inputs : InputHelper.ISourceInputs) :
  let run := Install w inputs in
  let started :=
    [Info ("Fetching release metadata for version: " +:+ InputHelper.version inputs);
     Fetch TOOL_RELEASE_METADATA] in
  match fetch_json w TOOL_RELEASE_METADATA with
  | Ok (JArr (_ :: _)) =>
      exists rest, trace run = started ++ rest /\ has_kind FetchCall rest = false
  | Ok _ =>
      run =
      (started ++
       [SetFailed ("Could not fetch release metadata from " +:+ TOOL_RELEASE_METADATA);
        ProcessExit], Exited)
  | Fail n message => run = (started, Threw (ErrorInstance n message))
  end.
Proof.
  cbv zeta. rewrite Install_stages.
  pose proof (getReleaseMetadata_unfold w (InputHelper.version inputs)) as Hg.
  cbv zeta in Hg.
  assert (forall rm,
    let rest := fun (releaseMetadata : value) =>
      buildId ← get_prop releaseMetadata "buildId";
      version ← get_prop releaseMetadata "version";
      let versionMarker := to_string buildId +:+ "-" +:+ to_string version in
      let pathToInstall :=
        path_join w [TEMP_DIRECTORY w; TOOL_NAME +:+ "-" +:+ versionMarker] in
      emit (Info ("Version to install: " +:+ versionMarker +:+
                  " (target directory: " +:+ pathToInstall +:+ ")"));;
      cacheKey ← getCacheKey w versionMarker;
      mret {| r_metadata := releaseMetadata; r_version := version;
              r_pathToInstall := pathToInstall; r_cacheKey := cacheKey |} in
    has_kind FetchCall (trace (rest rm ≫= install_stage w)) = false) as Hrest.
  { intros rm rest. subst rest. cbv beta.
    rewrite has_kind_bind.
    assert (forall A (m : M A), footprint [Log; ExecCall] (trace m) = true ->
              has_kind FetchCall (trace m) = false) as Hq
      by (intros A m Hm; eapply footprint_has_kind; [exact Hm | now apply not_elem_kind]).
    rewrite Hq; cycle 1.
    { apply footprint_bind; [apply footprint_nil_trace, get_prop_trace | intros bid _].
      apply footprint_bind; [apply footprint_nil_trace, get_prop_trace | intros ver _].
      cbv zeta. apply footprint_bind; [reflexivity | intros _ _].
      apply footprint_bind; [weaken_from getCacheKey_footprint | intros ck _].
      reflexivity. }
    cbn [orb]. destruct (result_of _) as [rs| |]; try reflexivity.
    rewrite install_stage_unfold. cbv zeta.
    assert (forall b, has_kind FetchCall
              (trace ((if b then mret None else fresh_install w rs) ≫= conclude w rs b))
            = false) as Ha.
    { intros b. eapply footprint_has_kind; [apply after_restore_footprint|].
      now apply not_elem_kind. }
    pose proof (Ha false) as Hf. pose proof (Ha true) as Ht. cbn [negb] in Hf, Ht.
    rewrite bind_ret_l in Ht.
    destruct (cache_restoreCache w _ _) as [[k|]|n msg]; cbn [trace fst];
      rewrite has_kind_app; cbn [has_kind existsb kind_of bool_decide orb];
      first [exact Ht | exact Hf]. }
  unfold resolve_stage. rewrite bind_assoc.
  destruct (fetch_json w TOOL_RELEASE_METADATA) as [[| | | |[|d defs]|]|n msg];
    try (rewrite (bind_exited _ _ (f_equal snd Hg)), Hg; reflexivity).
  - rewrite bind_unfold, Hg. cbn [trace result_of fst snd].
    eexists. split; [reflexivity|]. apply Hrest.
  - rewrite (bind_threw _ _ _ (f_equal snd Hg)), Hg. reflexivity.
Qed.



(** X13.  The result of a run that returned is consistent with what the
    run did: it is named after the tool, it carries a download address
    exactly when it was not restored from the cache, its path is the one
    the cache restore was asked for and the one put on the search path,
    its [restoredFromCache] tells whether that restore hit, and the run
    reported no failure. *)
Theorem returned_result_is_consistent (w : World) (inputs : InputHelper.ISourceInputs)
  (r : InstallResult) :
  let run := Install w inputs in
  result_of run = Returned r ->
  name r = TOOL_NAME /\
  (downloadUrl r = None <-> restoredFromCache r = true) /\
  (exists key,
     In (RestoreCache [path r] key) (trace run) /\
     (restoredFromCache r = true <->
      exists k, cache_restoreCache w [path r] key = Ok (Some k))) /\
  In (AddPath (core_toPlatformPath w (path r))) (trace run) /\
  no_failure_reported (trace run) = true.
Proof.
  intros run Hr. subst run. rewrite Install_unfold in Hr |- *.
  destruct (result_of (resolve_stage w inputs)) as [rs| |] eqn:Hrs; try discriminate.
  cbn [trace result_of fst snd] in Hr |- *.
  pose proof (resolve_stage_returned_quiet w inputs rs Hrs) as Hq.
  assert (has_kind Failure (trace (resolve_stage w inputs)) = false) as Hq'
    by (eapply footprint_has_kind; [exact Hq | now apply not_elem_kind]).
  rewrite install_stage_unfold in Hr |- *. cbv zeta in Hr |- *.
  assert (forall b u,
            result_of (conclude w rs b u) = Returned r ->
            r = {| name := TOOL_NAME; version := r_version rs; path := r_pathToInstall rs;
                   restoredFromCache := b; downloadUrl := u |} /\
            In (AddPath (core_toPlatformPath w (r_pathToInstall rs)))
               (trace (conclude w rs b u)) /\
            has_kind Failure (trace (conclude w rs b u)) = false) as Hc.
  { intros b u. rewrite conclude_unfold. cbv zeta.
    destruct (exec_getExecOutput w _ _); [|discriminate].
    intros [= <-]. split; [reflexivity|]. split; [now left | reflexivity]. }
  assert (result_of (fresh_install w rs ≫= conclude w rs false) = Returned r ->
            exists u,
              r = {| name := TOOL_NAME; version := r_version rs;
                     path := r_pathToInstall rs;
                     restoredFromCache := false; downloadUrl := Some u |} /\
              In (AddPath (core_toPlatformPath w (r_pathToInstall rs)))
                 (trace (fresh_install w rs ≫= conclude w rs false)) /\
              has_kind Failure (trace (fresh_install w rs ≫= conclude w rs false)) = false)
    as Hf.
  { intros H. apply bind_returned_inv in H as (u & Hu & H & ->).
    destruct (Hc false u H) as (-> & Hin & Hk).
    destruct (fresh_install_returned_inv w rs u Hu) as (url & dl & _ & -> & Ht).
    cbv zeta in Ht. exists (href url). split; [reflexivity|].
    split; [apply in_or_app; now right|].
    rewrite has_kind_app, Hk, Ht, has_kind_app, trySaveToCache_spec.
    destruct (cache_saveCache w _ _); reflexivity. }
  unfold no_failure_reported.
  destruct (cache_restoreCache w [r_pathToInstall rs] (r_cacheKey rs))
    as [[k|]|n msg] eqn:Ec; cbn [trace result_of fst snd] in Hr |- *.
  - destruct (Hc true None Hr) as (-> & Hin & Hk). cbn [name downloadUrl restoredFromCache path].
    split; [reflexivity|]. split; [tauto|]. split.
    { exists (r_cacheKey rs). split.
      - apply in_or_app. right. now left.
      - rewrite Ec. split; eauto. }
    split; [apply in_or_app; right; right; right; exact Hin|].
    rewrite !has_kind_app, Hq', Hk. reflexivity.
  - destruct (Hf Hr) as (u & -> & Hin & Hk).
    cbn [name downloadUrl restoredFromCache path].
    split; [reflexivity|]. split; [split; discriminate|]. split.
    { exists (r_cacheKey rs). split.
      - apply in_or_app. right. now left.
      - rewrite Ec. split; [discriminate | intros (k & ?); discriminate]. }
    split; [apply in_or_app; right; right; right; exact Hin|].
    rewrite !has_kind_app, Hq', Hk. reflexivity.
  - destruct (Hf Hr) as (u & -> & Hin & Hk).
    cbn [name downloadUrl restoredFromCache path].
    split; [reflexivity|]. split; [split; discriminate|]. split.
    { exists (r_cacheKey rs). split.
      - apply in_or_app. right. now left.
      - rewrite Ec. split; [discriminate | intros (k & ?); discriminate]. }
    split; [apply in_or_app; right; right; right; exact Hin|].
    rewrite !has_kind_app, Hq', Hk. reflexivity.
Qed.

Lemma returned_result_is_consistent_witness :
  let w := Examples.runner "x64" (Ok None) (Ok 42%Z) (Ok "1.0.0") in
  let r := {| name := "StaticSitesClient"; version := Some (JStr "stable");
              path := "/home/runner/work/_temp/StaticSitesClient-1.0.0-stable";
              restoredFromCache := false;
              downloadUrl := Some Examples.stable_url |} in
  result_of (Install w (Examples.inputs_for "stable")) = Returned r /\
  no_failure_reported (trace (Install w (Examples.inputs_for "stable"))) = true.
Proof.
  intros w r.
  assert (result_of (Install w (Examples.inputs_for "stable")) = Returned r) as Hr
    by (vm_compute; reflexivity).
  split; [exact Hr|].
  exact (proj2 (proj2 (proj2 (proj2
    (returned_result_is_consistent w (Examples.inputs_for "stable") r Hr))))).
Defined.

(** X14.  The directory asked of the cache and the key it is asked under
    are built from the same version marker, [<buildId>-<version>] of the
    release entry that was found for the requested version. *)
Theorem restore_path_and_key_share_marker (w : World)
  (inputs : InputHelper.ISourceInputs) (paths : list string) (key : string) :
  In (RestoreCache paths key) (trace (Install w inputs)) ->
  exists entry,
    let marker :=
      to_string (prop entry "buildId") +:+ "-" +:+ to_string (prop entry "version") in
    let '(_, os, arch, codename) := cache_key_inputs w marker in
    result_of (getReleaseMetadata w (InputHelper.version inputs)) = Returned (Some entry) /\
    paths = [path_join w [TEMP_DIRECTORY w; TOOL_NAME +:+ "-" +:+ marker]] /\
    key = cache_key TOOL_NAME marker os arch codename.
Proof.
  intros H. apply restore_call_inv in H as (rs & Hrs & -> & ->).
  destruct (resolve_stage_returned_full w inputs rs Hrs)
    as (entry & bid & marker & Hrm & _ & _ & -> & Hv & -> & Hp & Hk).
  exists entry. rewrite <- Hv. cbv zeta.
  pose proof (getCacheKey_returned w _ _ Hk) as Hc.
  unfold cache_key_inputs in *. destruct Hc as [Hc _].
  split; [exact Hrm|]. split; [now rewrite Hp | exact Hc].
Qed.

Lemma restore_path_and_key_share_marker_witness :
  let w := Examples.runner "x64" (Ok None) (Ok 42%Z) (Ok "1.0.0") in
  exists entry,
    result_of (getReleaseMetadata w "stable") = Returned (Some entry) /\
    "StaticSitesClient-1.0.0-stable-linux-x64-jammy-cache" =
    cache_key TOOL_NAME
      (to_string (prop entry "buildId") +:+ "-" +:+ to_string (prop entry "version"))
      "linux" "x64" (Some "jammy").
Proof.
  intros w.
  destruct (restore_path_and_key_share_marker w (Examples.inputs_for "stable")
              ["/home/runner/work/_temp/StaticSitesClient-1.0.0-stable"]
              "StaticSitesClient-1.0.0-stable-linux-x64-jammy-cache")
    as (entry & H).
  - vm_compute. tauto.
  - exists entry. cbv zeta in H. unfold cache_key_inputs in H.
    destruct H as (H1 & _ & H3). split; [exact H1 | exact H3].
Defined.

(** X15.  A file operation of the extraction that fails is the last event
    of the run and its error is the run's error: nothing is saved to the
    cache, the search path is not extended, no failure is reported by
    [Install] itself, and the temporary download is removed only if the
    failing operation is that removal. *)
Theorem extraction_failure_is_fatal (w : World) (inputs : InputHelper.ISourceInputs)
  (e : Event) (n message : string) :
  let run := Install w inputs in
  In e (trace run) ->
  fs_answer w e = Some (Fail n message) ->
  result_of run = Threw (ErrorInstance n message) /\
  (exists pre, trace run = pre ++ [e]) /\
  (forall p, In (RmRF p) (trace run) -> e = RmRF p) /\
  has_kind SaveCall (trace run) = false /\
  has_kind PathCall (trace run) = false /\
  no_failure_reported (trace run) = true.
Proof.
  intros run Hin Hfail. subst run.
  assert (bool_decide (kind_of e ∈ [DownloadCall; FsCall; SaveCall]) = true) as Hk
    by (destruct e; try discriminate; reflexivity).
  destruct (fresh_reached e w inputs Hin Hk) as (rs & located & Hrs & Hmiss & Hloc & He).
  clear Hin Hk.
  destruct (install_stage_miss w rs Hmiss) as (warning & Hst).
  rewrite (Install_trace_after_resolve w inputs rs Hrs), Hst.
  cbn [trace result_of fst snd]. clear Hst.
  pose proof (resolve_stage_returned_quiet w inputs rs Hrs) as Hq.
  assert (exists t0,
            fresh_install w rs = (t0 ++ [e], Threw (ErrorInstance n message)) /\
            footprint [Log; DownloadCall; FsCall] t0 = true /\
            (forall p, In (RmRF p) (t0 ++ [e]) -> e = RmRF p)) as (t0 & Hf & Hfp & Hrm).
  { rewrite fresh_install_unfold, Hloc in He |- *. cbv zeta in He |- *.
    destruct (toolCache_downloadTool w _ _) as [dl|n' msg'].
    2:{ exfalso. destruct e; try discriminate; cbn in He; intuition discriminate. }
    rewrite extractPackage_unfold in He |- *. cbv zeta in He |- *.
    destruct (io_mkdirP w _) as [[]|n1 m1] eqn:E1;
      [destruct (io_cp w _ _) as [[]|n2 m2] eqn:E2;
       [destruct (fs_chmodSync w _ _) as [[]|n3 m3] eqn:E3;
        [destruct (io_rmRF w _) as [[]|n4 m4] eqn:E4|]|]|];
      cbn [trace result_of fst snd app] in He |- *.
    - exfalso. rewrite trySaveToCache_spec in He.
      destruct (cache_saveCache w _ _); cbn [trace fst app] in He;
        destruct e; try discriminate; cbn in He, Hfail;
        intuition (try discriminate);
        match goal with H : _ = _ :> Event |- _ => injection H as <- end ||
        match goal with H : _ = _ :> Event |- _ => injection H as <- <- end;
        congruence.
    - destruct e; try discriminate; cbn in He, Hfail;
        intuition (try discriminate);
        match goal with H : _ = _ :> Event |- _ => injection H as <- end ||
        match goal with H : _ = _ :> Event |- _ => injection H as <- <- end;
        try congruence.
      exists [DownloadTool (href located.1)
                (path_join w [TEMP_DIRECTORY w; uuid w; located.2]);
              Info ("Downloaded from " +:+ href located.1 +:+ " to " +:+ dl);
              MkdirP (r_pathToInstall rs);
              Cp dl (path_join w [r_pathToInstall rs; located.2]);
              Chmod (path_join w [r_pathToInstall rs; located.2]) mode_0o755].
      split; [cbn [app]; congruence|]. split; [reflexivity|].
      intros p Hp. cbn in Hp. intuition (try discriminate); try congruence.
    - destruct e; try discriminate; cbn in He, Hfail;
        intuition (try discriminate);
        match goal with H : _ = _ :> Event |- _ => injection H as <- end ||
        match goal with H : _ = _ :> Event |- _ => injection H as <- <- end;
        try congruence.
      exists [DownloadTool (href located.1)
                (path_join w [TEMP_DIRECTORY w; uuid w; located.2]);
              Info ("Downloaded from " +:+ href located.1 +:+ " to " +:+ dl);
              MkdirP (r_pathToInstall rs);
              Cp dl (path_join w [r_pathToInstall rs; located.2])].
      split; [cbn [app]; congruence|]. split; [reflexivity|].
      intros p Hp. cbn in Hp. intuition discriminate.
    - destruct e; try discriminate; cbn in He, Hfail;
        intuition (try discriminate);
        match goal with H : _ = _ :> Event |- _ => injection H as <- end ||
        match goal with H : _ = _ :> Event |- _ => injection H as <- <- end;
        try congruence.
      exists [DownloadTool (href located.1)
                (path_join w [TEMP_DIRECTORY w; uuid w; located.2]);
              Info ("Downloaded from " +:+ href located.1 +:+ " to " +:+ dl);
              MkdirP (r_pathToInstall rs)].
      split; [cbn [app]; congruence|]. split; [reflexivity|].
      intros p Hp. cbn in Hp. intuition discriminate.
    - destruct e; try discriminate; cbn in He, Hfail;
        intuition (try discriminate);
        match goal with H : _ = _ :> Event |- _ => injection H as <- end ||
        match goal with H : _ = _ :> Event |- _ => injection H as <- <- end;
        try congruence.
      exists [DownloadTool (href located.1)
                (path_join w [TEMP_DIRECTORY w; uuid w; located.2]);
              Info ("Downloaded from " +:+ href located.1 +:+ " to " +:+ dl)].
      split; [cbn [app]; congruence|]. split; [reflexivity|].
      intros p Hp. cbn in Hp. intuition discriminate. }
  rewrite (bind_threw _ _ _ (f_equal snd Hf)), Hf. cbn [trace result_of fst snd].
  split; [reflexivity|]. split.
  { exists ((trace (resolve_stage w inputs) ++
             [RestoreCache [r_pathToInstall rs] (r_cacheKey rs); Warning warning]) ++ t0).
    now rewrite <- !List.app_assoc. }
  assert (forall k, bool_decide (k ∈ [Log; FetchCall; ExecCall; RestoreCall; DownloadCall;
                                      FsCall]) = false ->
            has_kind k (trace (resolve_stage w inputs) ++
                        [RestoreCache [r_pathToInstall rs] (r_cacheKey rs);
                         Warning warning] ++ t0 ++ [e]) = false) as Hnone.
  { intros k Hk.
    apply (footprint_has_kind
             [Log; FetchCall; ExecCall; RestoreCall; DownloadCall; FsCall]);
      [|now apply not_elem_kind].
    rewrite !footprint_app.
    assert (footprint [Log; FetchCall; ExecCall; RestoreCall; DownloadCall; FsCall]
              (trace (resolve_stage w inputs)) = true) as ->
      by (eapply footprint_weaken; cycle 1; [exact Hq | reflexivity]).
    assert (footprint [Log; FetchCall; ExecCall; RestoreCall; DownloadCall; FsCall] t0
            = true) as ->
      by (eapply footprint_weaken; cycle 1; [exact Hfp | reflexivity]).
    destruct e; try discriminate; reflexivity. }
  split.
  { intros p Hp. apply in_app_or in Hp as [Hp|Hp];
      [by_kind Hp resolve_stage_footprint|].
    apply in_app_or in Hp as [Hp|Hp]; [cbn in Hp; intuition discriminate|].
    now apply Hrm. }
  unfold no_failure_reported. rewrite !Hnone by reflexivity. repeat split.
Qed.

Lemma extraction_failure_is_fatal_witness :
  let w := with_cp (fun _ _ => Fail "Error" "ENOSPC: no space left on device")
             (Examples.runner "x64" (Ok None) (Ok 42%Z) (Ok "1.0.0")) in
  result_of (Install w (Examples.inputs_for "stable")) =
  Threw (ErrorInstance "Error" "ENOSPC: no space left on device").
Proof.
  intros w.
  refine (proj1 (extraction_failure_is_fatal w (Examples.inputs_for "stable")
    (Cp "/home/runner/work/_temp/0b0e7a52-6f0c-4c0e-9d55-0d3b6a1c2f11/StaticSitesClient"
        "/home/runner/work/_temp/StaticSitesClient-1.0.0-stable/StaticSitesClient")
    "Error" "ENOSPC: no space left on device" _ eq_refl)).
  vm_compute. tauto.
Defined.

(** X16.  On a metadata document that is a non-empty array, the lookup
    returns the first entry whose compared field ([buildId] when the
    pattern matches the requested version, [version] otherwise) is the
    requested version, and [undefined] exactly when no entry has it; it
    neither throws nor ends the process. *)
Theorem release_lookup_returns_first_match (w : World) (v : string)
  (d : json) (defs : list json) :
  fetch_json w TOOL_RELEASE_METADATA = Ok (JArr (d :: defs)) ->
  let field := if Regex.test build_id_pattern v then "buildId" else "version" in
  match result_of (getReleaseMetadata w v) with
  | Returned (Some entry) =>
      (exists fields, entry = JObj fields) /\
      prop entry field = Some (JStr v) /\
      exists before after,
        d :: defs = before ++ entry :: after /\
        forall x, In x before -> prop x field <> Some (JStr v)
  | Returned None => forall x, In x (d :: defs) -> prop x field <> Some (JStr v)
  | _ => False
  end.
Proof.
  intros Hdoc field.
  assert (forall x, field_equals field v x = false -> prop x field <> Some (JStr v))
    as Hneq.
  { intros x Hx Hp. assert (field_equals field v x = true) as Ht; [|congruence].
    apply field_equals_true. split; [|exact Hp]. intros ->. discriminate. }
  rewrite (getReleaseMetadata_array w v d defs Hdoc). cbn [result_of snd].
  fold field.
  destruct (List.find (field_equals field v) (d :: defs)) as [entry|] eqn:Hfind.
  - apply find_first in Hfind as (before & after & Heq & Hx & Hb).
    apply field_equals_true in Hx as [Hne Hx].
    split; [|split; [exact Hx|]].
    + destruct entry; try discriminate. eauto.
    + exists before, after. split; [exact Heq|]. intros x Hin. apply Hneq, Hb, Hin.
  - intros x Hin. apply Hneq. exact (find_none _ _ Hfind x Hin).
Qed.

Lemma release_lookup_returns_first_match_witness :
  let w := Examples.runner "x64" (Ok None) (Ok 42%Z) (Ok "1.0.0") in
  match result_of (getReleaseMetadata w "stable") with
  | Returned (Some entry) => prop entry "version" = Some (JStr "stable")
  | _ => False
  end.
Proof.
  intros w.
  pose proof (release_lookup_returns_first_match w "stable"
    (Examples.release "1.0.0" "stable" Examples.stable_url)
    [Examples.release "0.9.0" "12345" Examples.folder_url] eq_refl) as H.
  cbv zeta in H.
  destruct (result_of (getReleaseMetadata w "stable")) as [[entry|]| |];
    [exact (proj1 (proj2 H)) | | exact H | exact H].
  exact (H (Examples.release "1.0.0" "stable" Examples.stable_url)
           (or_introl eq_refl) eq_refl).
Defined.

(** X17.  In every run of [Install], and of [main], the effects (all
    events but log lines) occur in the order of the program text: metadata
    request, codename query, cache restore, download, directory creation,
    copy, chmod, removal of the download, cache save, search path, version
    query, execution, [setFailed], [process.exit()].  Hence no external
    call is made twice with the same arguments and a failure is reported at
    most once. *)
Theorem effects_follow_program_order (w : World) :
  (forall inputs,
     ascending 1 15 (effects (trace (Install w inputs))) = true /\
     List.NoDup (effects (trace (Install w inputs)))) /\
  ascending 1 15 (effects (trace (MainTs.main w))) = true /\
  List.NoDup (effects (trace (MainTs.main w))).
Proof.
  assert (forall inputs, ascending 1 15 (effects (trace (Install w inputs))) = true)
    as Hi by (intros inputs; eapply staged_ascending; [apply Install_staged | lia]).
  split; [intros inputs; split; [apply Hi | eapply ascending_NoDup, Hi]|].
  split; [apply main_ascending | eapply ascending_NoDup, main_ascending].
Qed.

(** X18.  [Install] returns exactly when the run gets as far as putting
    the install directory on the search path and the installed tool then
    answers the version query; when the query fails instead, [Install]
    throws its error, with the search path already extended. *)
Theorem install_returns_iff_tool_answers (w : World)
  (inputs : InputHelper.ISourceInputs) :
  let run := Install w inputs in
  ((exists r, result_of run = Returned r) <->
   has_kind PathCall (trace run) = true /\
   exists stdout, exec_getExecOutput w TOOL_NAME TOOL_VERSION_ARG = Ok stdout) /\
  (forall n message,
     has_kind PathCall (trace run) = true ->
     exec_getExecOutput w TOOL_NAME TOOL_VERSION_ARG = Fail n message ->
     result_of run = Threw (ErrorInstance n message) /\
     exists pre p,
       trace run = pre ++ [AddPath p; ExecOutput TOOL_NAME TOOL_VERSION_ARG]).
Proof.
  intros run. subst run.
  assert (forall rs b u,
            has_kind PathCall (trace (conclude w rs b u)) = true /\
            match exec_getExecOutput w TOOL_NAME TOOL_VERSION_ARG with
            | Ok stdout =>
                exists r, result_of (conclude w rs b u) = Returned r
            | Fail n message =>
                result_of (conclude w rs b u) = Threw (ErrorInstance n message) /\
                exists p,
                  trace (conclude w rs b u) =
                  [AddPath p; ExecOutput TOOL_NAME TOOL_VERSION_ARG]
            end) as Hc.
  { intros rs b u. rewrite conclude_unfold. cbv zeta.
    destruct (exec_getExecOutput w _ _); cbn [result_of trace fst snd];
      (split; [reflexivity | eauto]). }
  assert (forall rs b (m : M (option string)),
            footprint [Log; Failure; DownloadCall; FsCall; SaveCall] (trace m) = true ->
            has_kind PathCall (trace (m ≫= conclude w rs b)) =
              match result_of m with Returned _ => true | _ => false end /\
            match result_of m with
            | Returned _ =>
                match exec_getExecOutput w TOOL_NAME TOOL_VERSION_ARG with
                | Ok stdout => exists r, result_of (m ≫= conclude w rs b) = Returned r
                | Fail n message =>
                    result_of (m ≫= conclude w rs b) = Threw (ErrorInstance n message) /\
                    exists pre p,
                      trace (m ≫= conclude w rs b) =
                      pre ++ [AddPath p; ExecOutput TOOL_NAME TOOL_VERSION_ARG]
                end
            | _ => forall r, result_of (m ≫= conclude w rs b) <> Returned r
            end) as Hb.
  { intros rs b m Hm. rewrite has_kind_bind, bind_unfold.
    rewrite (footprint_has_kind _ PathCall _ Hm) by now apply not_elem_kind.
    destruct (result_of m) as [u| |]; cbn [orb result_of trace fst snd];
      [|split; [reflexivity | discriminate]..].
    destruct (Hc rs b u) as [Hk Hr]. split; [exact Hk|].
    destruct (exec_getExecOutput w _ _); [exact Hr|].
    destruct Hr as (Hr & p & ->). split; [exact Hr | eauto]. }
  rewrite Install_unfold.
  pose proof (has_kind_resolve w inputs PathCall eq_refl) as Hres.
  destruct (result_of (resolve_stage w inputs)) as [rs| |] eqn:Hrs;
    cbn [result_of trace fst snd].
  2,3: rewrite Hres; split;
    [split; [intros (r & ?); discriminate | intros [? _]; discriminate]
    | intros; discriminate].
  rewrite install_stage_unfold. cbv zeta.
  assert (forall (t0 : list Event) (m : M (option string)) b,
            has_kind PathCall t0 = false ->
            footprint [Log; Failure; DownloadCall; FsCall; SaveCall] (trace m) = true ->
            let t := trace (resolve_stage w inputs) ++ t0 ++ trace (m ≫= conclude w rs b) in
            let o := result_of (m ≫= conclude w rs b) in
            ((exists r, o = Returned r) <->
             has_kind PathCall t = true /\
             exists stdout, exec_getExecOutput w TOOL_NAME TOOL_VERSION_ARG = Ok stdout) /\
            (forall n message,
               has_kind PathCall t = true ->
               exec_getExecOutput w TOOL_NAME TOOL_VERSION_ARG = Fail n message ->
               o = Threw (ErrorInstance n message) /\
               exists pre p,
                 t = pre ++ [AddPath p; ExecOutput TOOL_NAME TOOL_VERSION_ARG])) as Hgen.
  { intros t0 m b Ht0 Hm. cbv zeta.
    rewrite !has_kind_app, Hres, Ht0. cbn [orb].
    destruct (Hb rs b m Hm) as [Hk Hr]. rewrite Hk.
    destruct (result_of m) as [u| |].
    - destruct (exec_getExecOutput w TOOL_NAME TOOL_VERSION_ARG) as [stdout|n0 m0].
      + split; [split; [eauto | intros _; exact Hr] | intros; discriminate].
      + destruct Hr as (Hr & pre & p & Ht). split.
        * split; [intros (r & Hx); rewrite Hr in Hx; discriminate
                 | intros (_ & ? & ?); discriminate].
        * intros n message _ [= <- <-]. split; [exact Hr|].
          exists (trace (resolve_stage w inputs) ++ t0 ++ pre), p.
          rewrite Ht. now rewrite <- !List.app_assoc.
    - split; [split; [intros (r & Hx); now destruct (Hr r) | intros [? _]; discriminate]
             | intros; discriminate].
    - split; [split; [intros (r & Hx); now destruct (Hr r) | intros [? _]; discriminate]
             | intros; discriminate]. }
  assert (footprint [Log; Failure; DownloadCall; FsCall; SaveCall]
            (trace (fresh_install w rs)) = true) as Hfresh
    by weaken_from fresh_install_footprint.
  destruct (cache_restoreCache w _ _) as [[k|]|n msg]; cbn [result_of trace fst snd].
  - pose proof (Hgen [RestoreCache [r_pathToInstall rs] (r_cacheKey rs);
                      Info (TOOL_NAME +:+ " restored from cache: " +:+ k)]
                  (mret None) true eq_refl eq_refl) as H.
    cbv zeta in H. rewrite bind_ret_l in H. exact H.
  - exact (Hgen [RestoreCache [r_pathToInstall rs] (r_cacheKey rs);
                 Warning ("Cache for " +:+ TOOL_NAME +:+ " not found")]
             (fresh_install w rs) false eq_refl Hfresh).
  - exact (Hgen [RestoreCache [r_pathToInstall rs] (r_cacheKey rs); Warning msg]
             (fresh_install w rs) false eq_refl Hfresh).
Qed.

(** X19.  When the inputs were read and [Install] returned, [main] does
    nothing more unless the "execute" flag is set; with the flag it runs
    the tool once, without arguments, discards its output, and reports a
    failed execution with [setFailed].  [main] itself always returns. *)
Theorem main_after_install (w : World) (inputs : InputHelper.ISourceInputs)
  (tool : InstallResult) :
  result_of (InputHelper.getInputs w) = Returned inputs ->
  result_of (Install w inputs) = Returned tool ->
  result_of (MainTs.main w) = Returned tt /\
  trace (MainTs.main w) =
    trace (Install w inputs) ++
    (if InputHelper.execute inputs then
       ExecOutput TOOL_NAME [] ::
       match exec_getExecOutput w TOOL_NAME [] with
       | Ok _ => []
       | Fail _ message => [SetFailed message]
       end
     else []).
Proof.
  intros Hi Ht. unfold MainTs.main. rewrite try_catch_unfold.
  rewrite (bind_returned _ _ _ Hi), getInputs_trace.
  cbn [result_of trace fst snd app].
  rewrite (bind_returned _ _ _ Ht). cbn [result_of trace fst snd].
  rewrite (Install_returned_name w inputs tool Ht).
  destruct (InputHelper.execute inputs).
  - rewrite Execute_unfold.
    destruct (exec_getExecOutput w TOOL_NAME []);
      cbn [result_of trace fst snd when_error emit];
      rewrite <- ?List.app_assoc; split; reflexivity.
  - cbn [mret M_ret ret result_of trace fst snd]. split; reflexivity.
Qed.

Lemma main_after_install_witness :
  let w := runner_with_inputs "stable" "true" in
  result_of (MainTs.main w) = Returned tt /\
  In (ExecOutput TOOL_NAME []) (trace (MainTs.main w)).
Proof.
  intros w.
  destruct (main_after_install w
              {| InputHelper.version := "stable"; InputHelper.execute := true |}
              {| name := "StaticSitesClient"; version := Some (JStr "stable");
                 path := "/home/runner/work/_temp/StaticSitesClient-1.0.0-stable";
                 restoredFromCache := false;
                 downloadUrl := Some Examples.stable_url |}
              eq_refl eq_refl) as [H1 H2].
  split; [exact H1|]. rewrite H2. apply in_or_app. right. now left.
Defined.

End Extras.
